(** * MasterDex "big swaps" aggregator: a shallow embedding and its properties

    The development follows the multi-chain aggregation tool of the repository
    (type [MasterDexTrade], [fetchWithRetry], [formatTradeData], [getTimeAgo],
    [getUniqueSymbols], [searchTokenAcrossChains] and
    [masterdexBigSwapsTool.execute]) and the pair filter of the single-chain
    tool in [src/lib/tools/masterdex-tools.ts].

    Conventions of the embedding:
    - JavaScript strings are [string]; [toLowerCase] and [trim] act on the
      ASCII range.
    - [number] fields are rationals ([Q]); counts, limits, HTTP statuses and
      instants in milliseconds are integers ([Z] or [nat]).
    - [undefined] is [None]; JavaScript truthiness is written out.
    - the network, the clock and [setTimeout] are explicit state: a [World]
      carries the clock, the log of requested URLs and the log of back-off
      delays; the clock moves by the back-off waits only.  A thrown value is
      a [Thrown] carried by a [Completion].
    - [new Date(s)] is taken for valid date strings only (no [NaN] instant).
    - a trade of a response body has the members that [MasterDexTrade]
      declares and reads without a guard ([transType], [tnxvalue], [time]
      and the members that are only copied); a JSON [null] is not told apart
      from an absent member.
    - the grouping object of [execute] is a list of its own entries in the
      order of their creation; the order in which an engine enumerates the
      keys of an object (integer-like keys first) is not modelled.  Names
      inherited from [Object.prototype] are modelled: see [pushGroup].
    - [console.log] calls have no effect on any result and are left out. *)

From Stdlib Require Import ZArith QArith List String Ascii Bool Lia.
From Stdlib Require Import Permutation Sorted DecimalString.
Import ListNotations.

Local Open Scope string_scope.
Local Open Scope list_scope.
Local Open Scope Z_scope.

(* ================================================================== *)
(** ** JavaScript string primitives used by the tool *)
(* ================================================================== *)

Module JS.

(** [String.prototype.toLowerCase] on one ASCII character. *)
Definition lower_ascii (c : ascii) : ascii :=
  let n := nat_of_ascii c in
  if ((65 <=? n)%nat && (n <=? 90)%nat)%bool then ascii_of_nat (n + 32) else c.

Fixpoint toLowerCase (s : string) : string :=
  match s with
  | EmptyString => EmptyString
  | String c s' => String (lower_ascii c) (toLowerCase s')
  end.

(** [s.includes(t)]: [t] occurs in [s] as a contiguous substring. *)
Fixpoint includes (s t : string) : bool :=
  prefix t s ||
  match s with
  | EmptyString => false
  | String _ s' => includes s' t
  end.

(** White space removed by [trim] (ASCII part): TAB, LF, VT, FF, CR, space. *)
Definition isSpace (c : ascii) : bool :=
  let n := nat_of_ascii c in
  ((9 <=? n)%nat && (n <=? 13)%nat) || (n =? 32)%nat.

Fixpoint trimStart (s : string) : string :=
  match s with
  | EmptyString => EmptyString
  | String c s' => if isSpace c then trimStart s' else s
  end.

Fixpoint trimEnd (s : string) : string :=
  match s with
  | EmptyString => EmptyString
  | String c s' =>
      let r := trimEnd s' in
      if isSpace c && (r =? EmptyString)%string then EmptyString else String c r
  end.

Definition trim (s : string) : string := trimEnd (trimStart s).

(** [s.split(sep)] for a one-character separator: never the empty list. *)
Fixpoint split (sep : ascii) (s : string) : list string :=
  match s with
  | EmptyString => [EmptyString]
  | String c s' =>
      if Ascii.eqb c sep then EmptyString :: split sep s'
      else match split sep s' with
           | h :: t => String c h :: t
           | [] => [String c EmptyString]
           end
  end.

(** [xs.join(sep)]. *)
Fixpoint join (sep : string) (xs : list string) : string :=
  match xs with
  | [] => EmptyString
  | [x] => x
  | x :: rest => (x ++ sep ++ join sep rest)%string
  end.

(** [xs.slice(0, n)] for an integer [n]: a negative [n] counts from the end. *)
Definition slice0 {A} (n : Z) (xs : list A) : list A :=
  if 0 <=? n then firstn (Z.to_nat n) xs
  else firstn (List.length xs - Z.to_nat (- n)) xs.

(** Numbers in template literals. *)
Definition showZ (z : Z) : string := NilZero.string_of_int (Z.to_int z).
Definition showNat (n : nat) : string := NilZero.string_of_uint (Nat.to_uint n).

(** Truthiness of an optional string: [undefined] and [''] are falsy. *)
Definition truthy (o : option string) : option string :=
  match o with
  | Some EmptyString => None
  | _ => o
  end.

(** [o || dflt] for an optional string. *)
Definition orElse (o : option string) (dflt : string) : string :=
  match truthy o with
  | Some s => s
  | None => dflt
  end.

(** A character of the string is the separator. *)
Fixpoint hasChar (sep : ascii) (s : string) : bool :=
  match s with
  | EmptyString => false
  | String c s' => Ascii.eqb c sep || hasChar sep s'
  end.

End JS.

(* ================================================================== *)
(** ** Thrown values, completions and the world *)
(* ================================================================== *)

(** What a [catch (error)] can receive: an [Error] instance with its [name]
    and [message], or some other value ([error instanceof Error] is false). *)
Inductive Thrown : Type :=
| ErrorObj (name message : string)
| NonError.

(** [new Error(msg)]. *)
Definition newError (msg : string) : Thrown := ErrorObj "Error" msg.

(** [error instanceof Error ? error.message : dflt]. *)
Definition messageOr (dflt : string) (e : Thrown) : string :=
  match e with
  | ErrorObj _ m => m
  | NonError => dflt
  end.

Inductive Completion (A : Type) : Type :=
| Normal (a : A)
| Throw (e : Thrown).
Arguments Normal {A} a.
Arguments Throw {A} e.

Record World : Type := mkWorld {
  now : Z;                  (* clock, milliseconds since the epoch *)
  requests : list string;   (* URLs passed to [fetch], oldest first *)
  sleeps : list Z           (* back-off delays waited, oldest first *)
}.

Definition M (A : Type) : Type := World -> Completion A * World.

Definition ret {A} (a : A) : M A := fun w => (Normal a, w).
Definition throw {A} (e : Thrown) : M A := fun w => (Throw e, w).
Definition bind {A B} (m : M A) (k : A -> M B) : M B :=
  fun w => match m w with
           | (Normal a, w') => k a w'
           | (Throw e, w') => (Throw e, w')
           end.
Definition tryCatch {A} (body : M A) (handler : Thrown -> M A) : M A :=
  fun w => match body w with
           | (Normal a, w') => (Normal a, w')
           | (Throw e, w') => handler e w'
           end.

Notation "x <- m ;; k" := (bind m (fun x => k))
  (at level 61, m at next level, right associativity).
Notation "m ;;; k" := (bind m (fun _ => k))
  (at level 61, right associativity).

(** [new Date().getTime()]. *)
Definition getNow : M Z := fun w => (Normal (now w), w).

(** [await new Promise(resolve => setTimeout(resolve, delay))]. *)
Definition sleep (delay : Z) : M unit :=
  fun w => (Normal tt, mkWorld (now w + delay) (requests w) (sleeps w ++ [delay])).

(** [xs.map(f)] and [xs.reduce(f, init)] for an effectful [f]. *)
Fixpoint mapM {A B} (f : A -> M B) (xs : list A) : M (list B) :=
  match xs with
  | [] => ret []
  | x :: rest => y <- f x ;; ys <- mapM f rest ;; ret (y :: ys)
  end.

Fixpoint reduceM {A B} (f : B -> A -> M B) (xs : list A) (acc : B) : M B :=
  match xs with
  | [] => ret acc
  | x :: rest => acc' <- f acc x ;; reduceM f rest acc'
  end.

(* ================================================================== *)
(** ** Data model *)
(* ================================================================== *)

(** [interface MasterDexTrade], the fields the tool reads.  The interface
    declares [symbol0], [symbol1] and [chain] as strings, but the code guards
    each of them ([?.], [|| '']), so they may be absent here. *)
Record MasterDexTrade : Type := mkTrade {
  transType : string;
  price : Q;
  blockNumber : Z;
  amountBase : Q;
  amountQuote : option Q;
  symbol0 : option string;
  symbol1 : option string;
  token0Price : Q;
  token1Price : Q;
  tnxvalue : Q;
  account : string;
  bottrade : bool;
  txnDetail : string;
  time : string;
  pairId : string;
  feeTier : Z;
  chain : option string
}.

(** What [await response.json()] gives, as far as the tool looks at it:
    a rejection, a value failing [data && data.data && Array.isArray(data.data)],
    or the array of trades under [data]. *)
Inductive Json : Type :=
| JsonRejects (e : Thrown)
| JsonNoData
| JsonData (trades : list MasterDexTrade).

Record Response : Type := mkResponse {
  status : Z;
  statusText : string;
  body : Json
}.

(** [response.ok]: the status is in 200..299. *)
Definition ok (r : Response) : bool := (200 <=? status r) && (status r <=? 299).

(** One call of [fetch]: it resolves to a response or rejects.  The 10 second
    [AbortController] timeout of an attempt shows here as a rejection with an
    [AbortError]. *)
Inductive FetchOutcome : Type :=
| Responds (r : Response)
| Rejects (e : Thrown).

(** A deterministic network: the outcome of the [k]-th request (from 0) of a
    URL within one call of the tool. *)
Definition Net : Type := string -> nat -> FetchOutcome.

(** The runtime's date and number formatting, which depend on the locale and
    time zone of the process and on nothing else. *)
Record Host : Type := mkHost {
  Date_getTime : string -> Z;             (* new Date(s).getTime(), s a valid date *)
  Date_toLocaleString : string -> string; (* new Date(s).toLocaleString() *)
  Date_toISOString : Z -> string;         (* new Date(ms).toISOString() *)
  Number_toLocaleString : Q -> string;    (* n.toLocaleString('en-US', 2 digits) *)
  pushIsNotAFunction : string             (* message of the TypeError for calling
                                             an undefined [acc[chainName].push];
                                             its wording depends on the engine
                                             and on the build *)
}.

(** The caller's arguments of [execute]. *)
Record Query : Type := mkQuery {
  q_chain : option string;
  q_token : option string;
  q_pair : option string;
  q_minValue : option Q;
  q_limit : option Z;
  q_tradeType : option string
}.

Definition supportedChains : list string :=
  ["ethereum"; "base"; "optimism"; "polygon"; "arbitrum"; "bnb"; "blast"].

(* ================================================================== *)
(** ** The multi-chain tool *)
(* ================================================================== *)

Module MasterDex.

Section Tool.

Variable host : Host.
Variable net : Net.

(** [await fetch(url, ...)]: logs the request and takes the outcome the
    network has for this URL at this point. *)
Definition fetch (url : string) : M Response :=
  fun w =>
    let k := count_occ string_dec (requests w) url in
    let w' := mkWorld (now w) (requests w ++ [url]) (sleeps w) in
    match net url k with
    | Responds r => (Normal r, w')
    | Rejects e => (Throw e, w')
    end.

(** [await response.json()]. *)
Definition json (r : Response) : M (option (list MasterDexTrade)) :=
  match body r with
  | JsonRejects e => throw e
  | JsonNoData => ret None
  | JsonData trades => ret (Some trades)
  end.

(** The [isConnectionError] test of [fetchWithRetry]'s catch block. *)
Definition isConnectionError (error : Thrown) : bool :=
  match error with
  | ErrorObj name message =>
      JS.includes message "ECONNRESET" ||
      JS.includes message "ENOTFOUND" ||
      JS.includes message "ETIMEDOUT" ||
      JS.includes message "fetch" ||
      (name =? "AbortError")%string
  | NonError => false
  end.

(** The message of the error thrown for a response that is not [ok]. *)
Definition httpMessage (r : Response) : string :=
  ("HTTP " ++ JS.showZ (status r) ++ ": " ++ statusText r)%string.

(** One pass of the [for] loop of [fetchWithRetry] and the passes after it:
    [remaining] passes are left, this one is number [attempt]. *)
Fixpoint fetchWithRetry_loop (url : string) (maxRetries remaining attempt : nat)
         (delay : Z) : M Response :=
  match remaining with
  | O => throw (newError "Unexpected error in fetchWithRetry")
  | S remaining' =>
      tryCatch
        (response <- fetch url ;;
         if ok response then ret response
         else throw (newError (httpMessage response)))
        (fun error =>
           let isLastAttempt := (attempt =? maxRetries)%nat in
           if isLastAttempt then
             throw (newError ("Failed after " ++ JS.showNat maxRetries
                                ++ " attempts. Last error: "
                                ++ messageOr "Unknown error" error)%string)
           else if isConnectionError error then
             sleep delay ;;;
             fetchWithRetry_loop url maxRetries remaining' (S attempt) (delay * 2)
           else throw error)
  end.

(** [fetchWithRetry(url, maxRetries = 3, delay = 1000)]. *)
Definition fetchWithRetry' (url : string) (maxRetries : nat) (delay : Z) : M Response :=
  fetchWithRetry_loop url maxRetries maxRetries 1 delay.

Definition fetchWithRetry (url : string) : M Response :=
  fetchWithRetry' url 3 1000.

(* ---------------------------------------------------------------- *)
(** *** Formatting *)

(** The formatted trade returned to the caller. *)
Record FormattedTrade : Type := mkFormatted {
  f_pair : string;
  f_type : string;
  f_value : string;
  f_amountBase : Q;
  f_amountQuote : option Q;
  f_price : Q;
  f_token0Price : Q;
  f_token1Price : Q;
  f_account : string;
  f_transactionHash : string;
  f_blockNumber : Z;
  f_time : string;
  f_age : string;
  f_chain : option string;
  f_isBotTrade : bool;
  f_pairId : string;
  f_feeTier : Z;
  f_raw : MasterDexTrade
  }.

(** An optional string inside a template literal. *)
Definition showOpt (o : option string) : string :=
  match o with
  | Some s => s
  | None => "undefined"
  end.

(** [getTimeAgo(timeString)] after its first statement [const now = new Date()]. *)
Definition timeAgoAt (now : Z) (timeString : string) : string :=
  let time := Date_getTime host timeString in
  let diffInSeconds := (now - time) / 1000 in
  if diffInSeconds <? 60 then (JS.showZ diffInSeconds ++ "s ago")%string
  else if diffInSeconds <? 3600 then (JS.showZ (diffInSeconds / 60) ++ "m ago")%string
  else if diffInSeconds <? 86400 then (JS.showZ (diffInSeconds / 3600) ++ "h ago")%string
  else (JS.showZ (diffInSeconds / 86400) ++ "d ago")%string.

(** [getTimeAgo(timeString)]: reads the clock. *)
Definition getTimeAgo (timeString : string) : M string :=
  now <- getNow ;;
  ret (timeAgoAt now timeString).

(** The object literal of [formatTradeData], its [age] already computed. *)
Definition formatted (trade : MasterDexTrade) (age : string) : FormattedTrade :=
  {| f_pair := (showOpt (symbol0 trade) ++ "/" ++ showOpt (symbol1 trade))%string;
     f_type := transType trade;
     f_value := ("$" ++ Number_toLocaleString host (tnxvalue trade))%string;
     f_amountBase := amountBase trade;
     f_amountQuote := amountQuote trade;
     f_price := price trade;
     f_token0Price := token0Price trade;
     f_token1Price := token1Price trade;
     f_account := account trade;
     f_transactionHash := txnDetail trade;
     f_blockNumber := blockNumber trade;
     f_time := Date_toLocaleString host (time trade);
     f_age := age;
     f_chain := chain trade;
     f_isBotTrade := bottrade trade;
     f_pairId := pairId trade;
     f_feeTier := feeTier trade;
     f_raw := trade |}.

(** [formatTradeData(trade)]. *)
Definition formatTradeData (trade : MasterDexTrade) : M FormattedTrade :=
  age <- getTimeAgo (time trade) ;;
  ret (formatted trade age).

(* ---------------------------------------------------------------- *)
(** *** Symbols seen in the fetched trades *)

(** [symbols.add(x)] on a [Set] kept in insertion order. *)
Definition setAdd (x : string) (symbols : list string) : list string :=
  if existsb (String.eqb x) symbols then symbols else symbols ++ [x].

(** [Array.prototype.sort()] without comparator on strings: ascending by
    code units. *)
Fixpoint insertString (x : string) (sorted : list string) : list string :=
  match sorted with
  | [] => [x]
  | y :: rest => if (x <=? y)%string then x :: sorted else y :: insertString x rest
  end.

Definition sortStrings (xs : list string) : list string :=
  fold_right insertString [] xs.

(** The callback of [trades.forEach] in [getUniqueSymbols]. *)
Definition addSymbols (symbols : list string) (trade : MasterDexTrade) : list string :=
    let symbols :=
      match JS.truthy (symbol0 trade) with
      | Some s => setAdd s symbols
      | None => symbols
      end in
    match JS.truthy (symbol1 trade) with
    | Some s => setAdd s symbols
    | None => symbols
    end.

(** [getUniqueSymbols(trades)]. *)
Definition getUniqueSymbols (trades : list MasterDexTrade) : list string :=
    let symbols := fold_left addSymbols trades [] in
    sortStrings symbols.

(* ---------------------------------------------------------------- *)
(** *** Search across all chains *)

Definition chainUrl (chain : string) : string :=
  ("https://api.masterdex.xyz/v1/pairs/getbigSwaps/" ++ chain)%string.

Definition multiChainUrl : string :=
  "https://api.masterdex.xyz/v1/pairs/getbigSwaps".

(** [trade.symbolN?.toLowerCase() || '']. *)
Definition symbolLower (symbol : option string) : string :=
  JS.orElse (option_map JS.toLowerCase symbol) "".

(** The predicate of both token filters, [tokenLower] already computed. *)
Definition tokenMatches (tokenLower : string) (trade : MasterDexTrade) : bool :=
  let symbol0Lower := symbolLower (symbol0 trade) in
  let symbol1Lower := symbolLower (symbol1 trade) in
  JS.includes symbol0Lower tokenLower || JS.includes symbol1Lower tokenLower.

(** The body of the [for (const chain of supportedChains)] loop of
    [searchTokenAcrossChains], on the two accumulators. *)
Definition searchChain (token : string)
           (acc : list MasterDexTrade * list string) (chain : string)
  : M (list MasterDexTrade * list string) :=
  let '(allResults, chainsChecked) := acc in
  tryCatch
    (let url := chainUrl chain in
     response <- fetchWithRetry url ;;
     data <- json response ;;
     let allResults :=
       match data with
       | Some trades =>
           let tokenLower := JS.trim (JS.toLowerCase token) in
           let chainResults := filter (tokenMatches tokenLower) trades in
           if (0 <? List.length chainResults)%nat
           then allResults ++ chainResults
           else allResults
       | None => allResults
       end in
     ret (allResults, chainsChecked ++ [chain]))
    (fun error => ret (allResults, chainsChecked ++ [chain])).

Fixpoint forEachChain (token : string) (chains : list string)
         (acc : list MasterDexTrade * list string)
  : M (list MasterDexTrade * list string) :=
  match chains with
  | [] => ret acc
  | chain :: rest => acc' <- searchChain token acc chain ;; forEachChain token rest acc'
  end.

(** [searchTokenAcrossChains(token, limit)]: returns [results] and
    [chainsChecked]; [limit] is not used by the body. *)
Definition searchTokenAcrossChains (token : string) (limit : Z)
  : M (list MasterDexTrade * list string) :=
  forEachChain token supportedChains ([], []).

(* ---------------------------------------------------------------- *)
(** *** The filter stages of [execute] *)

(** Token stage: the body of [if (token && chain)]. *)
Definition tokenStage (token : string) (results : list MasterDexTrade)
  : list MasterDexTrade :=
  let tokenLower := JS.trim (JS.toLowerCase token) in
  filter (tokenMatches tokenLower) results.

(** [s === o] for a string [s] and a string or [undefined] [o]. *)
Definition strictEq (s : string) (o : option string) : bool :=
  match o with
  | Some s' => (s =? s')%string
  | None => false
  end.

(** The predicate of the pair filter, for the destructured [[a, b]]. *)
Definition pairMatch (a b : option string) (trade : MasterDexTrade) : bool :=
  let s0 := symbolLower (symbol0 trade) in
  let s1 := symbolLower (symbol1 trade) in
  (strictEq s0 a && strictEq s1 b) || (strictEq s0 b && strictEq s1 a).

(** Pair stage: the body of [if (pair)]. *)
Definition pairStage (pair : string) (results : list MasterDexTrade)
  : list MasterDexTrade :=
  let pairLower := JS.trim (JS.toLowerCase pair) in
  let parts := JS.split "/" pairLower in
  let a := nth_error parts 0 in
  let b := nth_error parts 1 in
  filter (pairMatch a b) results.

(** Trade type stage: the body of [if (tradeType)]. *)
Definition tradeTypeStage (tradeType : string) (results : list MasterDexTrade)
  : list MasterDexTrade :=
  let tradeTypeLower := JS.toLowerCase tradeType in
  filter (fun trade => (JS.toLowerCase (transType trade) =? tradeTypeLower)%string)
         results.

(** Minimum value stage: the body of [if (minValue)]. *)
Definition minValueStage (minValue : Q) (results : list MasterDexTrade)
  : list MasterDexTrade :=
  filter (fun trade => Qle_bool minValue (tnxvalue trade)) results.

(** Truthiness of an optional number: [undefined] and [0] are falsy. *)
Definition truthyNum (o : option Q) : option Q :=
  match o with
  | Some v => if Qeq_bool v 0 then None else Some v
  | None => None
  end.

(** The four [if] blocks, in the order of the source. *)
Definition applyFilters (q : Query) (results : list MasterDexTrade)
  : list MasterDexTrade :=
  let results :=
    match JS.truthy (q_token q), JS.truthy (q_chain q) with
    | Some token, Some _ => tokenStage token results
    | _, _ => results
    end in
  let results :=
    match JS.truthy (q_pair q) with
    | Some pair_ => pairStage pair_ results
    | None => results
    end in
  let results :=
    match JS.truthy (q_tradeType q) with
    | Some tradeType => tradeTypeStage tradeType results
    | None => results
    end in
  match truthyNum (q_minValue q) with
  | Some minValue => minValueStage minValue results
  | None => results
  end.

(* ---------------------------------------------------------------- *)
(** *** Sorting and truncation *)

(** [results.sort((a, b) => new Date(b.time).getTime() - new Date(a.time).getTime())]:
    a stable sort, latest first; [x] entered the array before [sorted]. *)
Fixpoint insertByTime (x : MasterDexTrade) (sorted : list MasterDexTrade)
  : list MasterDexTrade :=
  match sorted with
  | [] => [x]
  | y :: rest =>
      if Date_getTime host (time y) <=? Date_getTime host (time x)
      then x :: sorted
      else y :: insertByTime x rest
  end.

Definition sortByTimeDesc (results : list MasterDexTrade) : list MasterDexTrade :=
  fold_right insertByTime [] results.

(** [if (limit && limit > 0) results = results.slice(0, limit)]. *)
Definition applyLimit (limit : Z) (results : list MasterDexTrade)
  : list MasterDexTrade :=
  if negb (limit =? 0) && (0 <? limit) then JS.slice0 limit results else results.

(** The parameter default [limit = 20]. *)
Definition limitOf (q : Query) : Z :=
  match q_limit q with
  | Some l => l
  | None => 20
  end.

(* ---------------------------------------------------------------- *)
(** *** The returned objects *)

(** [minValue || 'none']: a number or a string. *)
Inductive NumOrStr : Type :=
  | Num (n : Q)
  | Str (s : string).

Record Filters : Type := mkFilters {
  fl_chain : string;
  fl_token : string;
  fl_pair : string;
  fl_minValue : NumOrStr;
  fl_tradeType : string;
  fl_limit : Z
  }.

(** [responseData], without its constant [success: true]. *)
Record ResponseData : Type := mkResponseData {
  r_data : list FormattedTrade;
  r_dataByChain : list (string * list FormattedTrade);
  r_count : nat;
  r_totalFetched : nat;
  r_message : string;
  r_source : string;
  r_url : string;
  r_supportedChains : list string;
  r_filteredChain : string;
  r_endpointUsed : string;
  r_chainsChecked : list string;
  r_filters : Filters;
  r_availableSymbols : list string;
  r_timestamp : string
  }.

(** The object returned by the [catch] block, without [success: false]. *)
Record FailureData : Type := mkFailureData {
  e_error : string;
  e_url : string;
  e_timestamp : string;
  e_suggestion : string
  }.

Inductive Envelope : Type :=
  | Success (r : ResponseData)
  | Failure (f : FailureData).


(** The property names of the returned object, as the two object literals
    of [execute] list them. *)
Definition keys (e : Envelope) : list string :=
  match e with
  | Success _ =>
      ["success"; "data"; "dataByChain"; "count"; "totalFetched"; "message";
       "source"; "url"; "supportedChains"; "filteredChain"; "endpointUsed";
       "chainsChecked"; "filters"; "availableSymbols"; "timestamp"]
  | Failure _ => ["success"; "error"; "url"; "timestamp"; "suggestion"]
  end.

(* ---------------------------------------------------------------- *)
(** *** [execute] *)

(** The chain selection [if (chain) ... else if (token && !pair) ... else ...]:
    gives [results], [url] and [chainsChecked]. *)
Definition fetchResults (q : Query)
  : M (list MasterDexTrade * string * list string) :=
  match JS.truthy (q_chain q) with
  | Some chain =>
      let url := chainUrl chain in
      response <- fetchWithRetry url ;;
      data <- json response ;;
      match data with
      | None => throw (newError "Invalid response format from MasterDex API")
      | Some results => ret (results, url, [chain])
      end
  | None =>
      match JS.truthy (q_token q), JS.truthy (q_pair q) with
      | Some token, None =>
          searchResult <- searchTokenAcrossChains token (limitOf q) ;;
          ret (fst searchResult, "multi-chain-search", snd searchResult)
      | _, _ =>
          let url := multiChainUrl in
          response <- fetchWithRetry url ;;
          data <- json response ;;
          match data with
          | None => throw (newError "Invalid response format from MasterDex API")
          | Some results => ret (results, url, ["multi-chain"])
          end
      end
  end.

(** The names an object created as [{}] inherits from [Object.prototype]
    (ECMAScript, Annex B included).  For such a name [acc[name]] is never
    falsy, although [acc] has no entry of its own under it: it is a built-in
    function, or [Object.prototype] itself for [__proto__]. *)
Definition inheritedNames : list string :=
  ["constructor"; "__defineGetter__"; "__defineSetter__"; "hasOwnProperty";
   "__lookupGetter__"; "__lookupSetter__"; "isPrototypeOf";
   "propertyIsEnumerable"; "toString"; "valueOf"; "__proto__"; "toLocaleString"].

Definition isInherited (name : string) : bool :=
  existsb (String.eqb name) inheritedNames.

(** [if (!acc[chainName]) acc[chainName] = []; acc[chainName].push(x)] for a
    name that is not inherited: the entry is created when [acc] has none, and
    [x] is appended to its list.  The list holds the entries in the order of
    their creation. *)
Fixpoint groupPush (acc : list (string * list FormattedTrade))
         (chainName : string) (x : FormattedTrade)
  : list (string * list FormattedTrade) :=
  match acc with
  | [] => [(chainName, [x])]
  | (k, xs) :: rest =>
      if (k =? chainName)%string then (k, xs ++ [x]) :: rest
      else (k, xs) :: groupPush rest chainName x
  end.

(** The records that [execute] formats and returns: the fetched [results]
    filtered, sorted and cut to the limit. *)
Definition selectResults (q : Query) (results : list MasterDexTrade)
  : list MasterDexTrade :=
  applyLimit (limitOf q) (sortByTimeDesc (applyFilters q results)).

(** The object literal [responseData], from the variables in scope. *)
Definition responseData (q : Query) (url : string) (chainsChecked : list string)
           (availableSymbols : list string) (results : list MasterDexTrade)
           (formattedResults : list FormattedTrade)
           (resultsByChain : list (string * list FormattedTrade))
           (now : Z) : ResponseData :=
  {| r_data := formattedResults;
     r_dataByChain := resultsByChain;
     r_count := List.length results;
     r_totalFetched := List.length results;
     r_message :=
       if (0 <? List.length results)%nat
       then ("Found " ++ JS.showNat (List.length results)
               ++ " trades matching your criteria")%string
       else ("No trades found matching your criteria. Available symbols: "
               ++ JS.join ", " (JS.slice0 10 availableSymbols))%string;
     r_source := "MasterDex";
     r_url := url;
     r_supportedChains := supportedChains;
     r_filteredChain := JS.orElse (q_chain q) "all";
     r_endpointUsed :=
       match JS.truthy (q_chain q) with
       | Some chain => ("chain-specific (" ++ chain ++ ")")%string
       | None =>
           if (url =? "multi-chain-search")%string
           then "cross-chain-search" else "multi-chain"
       end;
     r_chainsChecked := chainsChecked;
     r_filters :=
       {| fl_chain := JS.orElse (q_chain q) "all";
          fl_token := JS.orElse (q_token q) "none";
          fl_pair := JS.orElse (q_pair q) "none";
          fl_minValue :=
            match truthyNum (q_minValue q) with
            | Some v => Num v
            | None => Str "none"
            end;
          fl_tradeType := JS.orElse (q_tradeType q) "all";
          fl_limit := limitOf q |};
     r_availableSymbols := JS.slice0 20 availableSymbols;
     r_timestamp := Date_toISOString host now |}.

(** The [TypeError] of calling the [push] that an inherited member does not
    have. *)
Definition pushError : Thrown := ErrorObj "TypeError" (pushIsNotAFunction host).

(** [if (!acc[chainName]) acc[chainName] = []; acc[chainName].push(x)] on the
    object created as [{}]: under an inherited name the test finds the
    inherited member, no entry is created, and the call of its missing
    [push] throws. *)
Definition pushGroup (acc : list (string * list FormattedTrade))
           (chainName : string) (x : FormattedTrade)
  : M (list (string * list FormattedTrade)) :=
  if isInherited chainName then throw pushError
  else ret (groupPush acc chainName x).

(** The callback of [results.reduce] that groups by chain. *)
Definition groupByChain (q : Query) (acc : list (string * list FormattedTrade))
           (trade : MasterDexTrade) : M (list (string * list FormattedTrade)) :=
  let chainName := JS.orElse (chain trade) (JS.orElse (q_chain q) "unknown") in
  formattedTrade <- formatTradeData trade ;;
  pushGroup acc chainName formattedTrade.

(** The [try] block of [execute]. *)
Definition executeTry (q : Query) : M ResponseData :=
  fetched <- fetchResults q ;;
  let '(fetchedResults, url, chainsChecked) := fetched in
  let availableSymbols := getUniqueSymbols fetchedResults in
  let results := selectResults q fetchedResults in
  formattedResults <- mapM formatTradeData results ;;
  resultsByChain <- reduceM (groupByChain q) results [] ;;
  now <- getNow ;;
  ret (responseData q url chainsChecked availableSymbols results
                    formattedResults resultsByChain now).

(** The object literal returned by the [catch] block. *)
Definition failureData (q : Query) (error : Thrown) (now : Z) : FailureData :=
  {| e_error := messageOr "Unknown error occurred" error;
     e_url :=
       match JS.truthy (q_chain q) with
       | Some chain => chainUrl chain
       | None => multiChainUrl
       end;
     e_timestamp := Date_toISOString host now;
     e_suggestion :=
       "Please try again in a few moments. If the issue persists, the MasterDex API might be temporarily unavailable." |}.

(** [execute]: the [try] block and its [catch]. *)
Definition execute (q : Query) : M Envelope :=
  tryCatch
    (responseData <- executeTry q ;; ret (Success responseData))
    (fun error => now <- getNow ;; ret (Failure (failureData q error now))).

End Tool.

End MasterDex.

(* ================================================================== *)
(** ** The single-chain tool ([src/lib/tools/masterdex-tools.ts]): its pair filter *)
(* ================================================================== *)

Module BaseTool.

(** [x === y] for two values that are a string or [undefined]. *)
Definition strictEq (x y : option string) : bool :=
  match x, y with
  | Some s, Some s' => (s =? s')%string
  | None, None => true
  | _, _ => false
  end.

(** The body of [if (pair)]: no [trim], and absent symbols stay
    [undefined]. *)
Definition pairStage (pair : string) (results : list MasterDexTrade)
  : list MasterDexTrade :=
  let parts := JS.split "/" (JS.toLowerCase pair) in
  let a := nth_error parts 0 in
  let b := nth_error parts 1 in
  filter (fun trade =>
            let s0 := option_map JS.toLowerCase (symbol0 trade) in
            let s1 := option_map JS.toLowerCase (symbol1 trade) in
            (strictEq s0 a && strictEq s1 b) || (strictEq s0 b && strictEq s1 a))
         results.

(** The endpoint the tool asks. *)
Definition baseUrl : string := "https://api.masterdex.xyz/v1/pairs/getbigSwaps/base".

(** The caller's arguments of this tool's [execute]. *)
Record BaseQuery : Type := mkBaseQuery {
  b_token : option string;
  b_pair : option string;
  b_minValue : option Q;
  b_limit : option Z
}.

(** The object of the [return] in the [try] block, without [success: true],
    and the returned object as a whole; the [catch] block returns the error
    message only. *)
Record BaseData : Type := mkBaseData {
  b_data : list MasterDexTrade;
  b_count : nat;
  b_message : option string;
  b_source : string;
  b_url : string
}.

Inductive BaseEnvelope : Type :=
| BaseSuccess (r : BaseData)
| BaseFailure (error : string).

(** The callback of the token filter:
    [(symbol0 && symbol0.toLowerCase().includes(tokenLower)) || (symbol1 && ...)]. *)
Definition tokenMatches (tokenLower : string) (trade : MasterDexTrade) : bool :=
  match JS.truthy (symbol0 trade) with
  | Some s => JS.includes (JS.toLowerCase s) tokenLower
  | None => false
  end
  || match JS.truthy (symbol1 trade) with
     | Some s => JS.includes (JS.toLowerCase s) tokenLower
     | None => false
     end.

(** The body of [if (token)]. *)
Definition tokenStage (token : string) (results : list MasterDexTrade)
  : list MasterDexTrade :=
  let tokenLower := JS.toLowerCase token in
  filter (tokenMatches tokenLower) results.

Section Tool.

Variable host : Host.
Variable net : Net.

(** The [message] member of the parsed body, which [Json] does not carry. *)
Variable bodyMessage : Response -> option string.

(** The message of the [TypeError] the engine raises when the parsed body has
    no array under [data]: at [data.data] for a [null] body, else at the
    first of [results.filter] and [results.sort] that the query reaches. *)
Variable typeErrorMessage : Response -> BaseQuery -> string.

(** The filters, the sort and the cut of the [try] block. *)
Definition select (q : BaseQuery) (results : list MasterDexTrade)
  : list MasterDexTrade :=
  let results :=
    match JS.truthy (b_token q) with
    | Some token => tokenStage token results
    | None => results
    end in
  let results :=
    match JS.truthy (b_pair q) with
    | Some pair_ => pairStage pair_ results
    | None => results
    end in
  let results :=
    match MasterDex.truthyNum (b_minValue q) with
    | Some minValue => MasterDex.minValueStage minValue results
    | None => results
    end in
  let results := MasterDex.sortByTimeDesc host results in
  match b_limit q with
  | Some limit => MasterDex.applyLimit limit results
  | None => results
  end.

(** [execute]: one plain [fetch], no retry, no check of the body's shape. *)
Definition execute (q : BaseQuery) : M BaseEnvelope :=
  tryCatch
    (response <- MasterDex.fetch net baseUrl ;;
     if negb (ok response)
     then throw (newError ("MasterDex API error: " ++ JS.showZ (status response)
                             ++ " " ++ statusText response)%string)
     else
       data <- MasterDex.json response ;;
       match data with
       | None => throw (ErrorObj "TypeError" (typeErrorMessage response q))
       | Some fetched =>
           let results := select q fetched in
           ret (BaseSuccess
                  {| b_data := results;
                     b_count := List.length results;
                     b_message := bodyMessage response;
                     b_source := "MasterDex";
                     b_url := baseUrl |})
       end)
    (fun error => ret (BaseFailure (messageOr "Unknown error" error))).

End Tool.

End BaseTool.

(* ================================================================== *)
(** ** What a run of [execute] returns, as a function of the clock *)
(* ================================================================== *)

Module Reading.

Import MasterDex.

(** [formatTradeData(trade)] when the clock shows [nowv]. *)
Definition formatAt (host : Host) (nowv : Z) (trade : MasterDexTrade) : FormattedTrade :=
  formatted host trade (timeAgoAt host nowv (time trade)).

(** The key under which the [reduce] of [execute] files a trade. *)
Definition chainNameOf (q : Query) (trade : MasterDexTrade) : string :=
  JS.orElse (chain trade) (JS.orElse (q_chain q) "unknown").

(** The grouping built by the [reduce] when the clock shows [nowv], for
    records none of which is filed under an inherited name (see [outcomeAt]). *)
Definition groupsAt (host : Host) (q : Query) (nowv : Z)
           (results : list MasterDexTrade)
           (acc : list (string * list FormattedTrade))
  : list (string * list FormattedTrade) :=
  fold_left (fun acc trade => groupPush acc (chainNameOf q trade) (formatAt host nowv trade))
            results acc.

(** [responseData] for the fetched [results], [url] and [chainsChecked],
    when the clock shows [nowv]: the object [execute] returns when the
    grouping does not throw. *)
Definition responseAt (host : Host) (q : Query)
           (fetched : list MasterDexTrade * string * list string) (nowv : Z)
  : ResponseData :=
  let '(fetchedResults, url, chainsChecked) := fetched in
  let results := selectResults host q fetchedResults in
  responseData host q url chainsChecked (getUniqueSymbols fetchedResults) results
               (map (formatAt host nowv) results)
               (groupsAt host q nowv results []) nowv.

(** The clock-derived fields blanked: [age] of a formatted trade, and
    [timestamp] of the returned object. *)
Definition eraseAge (f : FormattedTrade) : FormattedTrade :=
  {| f_pair := f_pair f; f_type := f_type f; f_value := f_value f;
     f_amountBase := f_amountBase f; f_amountQuote := f_amountQuote f;
     f_price := f_price f; f_token0Price := f_token0Price f;
     f_token1Price := f_token1Price f; f_account := f_account f;
     f_transactionHash := f_transactionHash f; f_blockNumber := f_blockNumber f;
     f_time := f_time f; f_age := ""; f_chain := f_chain f;
     f_isBotTrade := f_isBotTrade f; f_pairId := f_pairId f;
     f_feeTier := f_feeTier f; f_raw := f_raw f |}.

Definition eraseGroups (groups : list (string * list FormattedTrade))
  : list (string * list FormattedTrade) :=
  map (fun g => (fst g, map eraseAge (snd g))) groups.

Definition eraseClock (e : Envelope) : Envelope :=
  match e with
  | Success r =>
      Success
        {| r_data := map eraseAge (r_data r);
           r_dataByChain := eraseGroups (r_dataByChain r);
           r_count := r_count r; r_totalFetched := r_totalFetched r;
           r_message := r_message r; r_source := r_source r; r_url := r_url r;
           r_supportedChains := r_supportedChains r;
           r_filteredChain := r_filteredChain r;
           r_endpointUsed := r_endpointUsed r;
           r_chainsChecked := r_chainsChecked r; r_filters := r_filters r;
           r_availableSymbols := r_availableSymbols r; r_timestamp := "" |}
  | Failure f =>
      Failure {| e_error := e_error f; e_url := e_url f; e_timestamp := "";
                 e_suggestion := e_suggestion f |}
  end.

(** The two symbols of a trade, lower-cased, are [a] and [b] in one order
    or the other. *)
Definition isPair (a b : string) (trade : MasterDexTrade) : bool :=
  let s0 := symbolLower (symbol0 trade) in
  let s1 := symbolLower (symbol1 trade) in
  ((s0 =? a)%string && (s1 =? b)%string) || ((s0 =? b)%string && (s1 =? a)%string).

(** The same for the single-chain tool, where an absent symbol equals no
    string. *)
Definition isPairPresent (a b : string) (trade : MasterDexTrade) : bool :=
  match symbol0 trade, symbol1 trade with
  | Some s0, Some s1 =>
      ((JS.toLowerCase s0 =? a)%string && (JS.toLowerCase s1 =? b)%string)
      || ((JS.toLowerCase s0 =? b)%string && (JS.toLowerCase s1 =? a)%string)
  | _, _ => false
  end.

(** The instant of a trade, and the order of the sort: [a] may stand
    before [b] when [a] is not older than [b]. *)
Definition instant (host : Host) (trade : MasterDexTrade) : Z :=
  Date_getTime host (time trade).

Definition notOlder (host : Host) (a b : MasterDexTrade) : Prop :=
  instant host b <= instant host a.

Definition atInstant (host : Host) (k : Z) (trade : MasterDexTrade) : bool :=
  instant host trade =? k.



(** Two worlds with the same log of requests: the network answers them
    alike, whatever their clocks show. *)
Definition sameRequests (w1 w2 : World) : Prop := requests w1 = requests w2.

(** A computation that neither reads the clock nor depends on the back-off
    log: from worlds with the same requests it completes alike and leaves
    worlds with the same requests. *)
Definition clockFree {A} (m : M A) : Prop :=
  forall w1 w2, sameRequests w1 w2 ->
    fst (m w1) = fst (m w2) /\ sameRequests (snd (m w1)) (snd (m w2)).

(** A record of the list would be filed under a name inherited from
    [Object.prototype]. *)
Definition hasInheritedName (q : Query) (results : list MasterDexTrade) : bool :=
  existsb (fun trade => isInherited (chainNameOf q trade)) results.

(** What [execute] returns for the fetched [results], [url] and
    [chainsChecked] when the clock shows [nowv]: the failure object of the
    [catch] block when the grouping throws, else [responseData]. *)
Definition outcomeAt (host : Host) (q : Query)
           (fetched : list MasterDexTrade * string * list string) (nowv : Z)
  : Envelope :=
  if hasInheritedName q (selectResults host q (fst (fst fetched)))
  then Failure (failureData host q (pushError host) nowv)
  else Success (responseAt host q fetched nowv).

(** The name under which a formatted record is filed. *)
Definition groupNameOf (q : Query) (f : FormattedTrade) : string :=
  JS.orElse (f_chain f) (JS.orElse (q_chain q) "unknown").

(** What one pass of the cross-chain search adds to the results: the trades
    of the chain's body that match the token, and nothing when the fetch
    fails, the body does not parse or it has no array under [data]. *)
Definition chainContribution (net : Net) (token chain : string) (w : World)
  : list MasterDexTrade :=
  match fetchWithRetry net (chainUrl chain) w with
  | (Normal response, _) =>
      match body response with
      | JsonData trades =>
          filter (tokenMatches (JS.trim (JS.toLowerCase token))) trades
      | _ => []
      end
  | (Throw _, _) => []
  end.

(** The contributions of the chains in turn, each taken in the world the
    passes before it have left. *)
Fixpoint collected (net : Net) (token : string) (chains : list string) (w : World)
  : list MasterDexTrade :=
  match chains with
  | [] => []
  | chain :: rest =>
      chainContribution net token chain w
      ++ collected net token rest (snd (fetchWithRetry net (chainUrl chain) w))
  end.

(** The world the cross-chain search leaves after the given chains. *)
Fixpoint worldAfter (net : Net) (chains : list string) (w : World) : World :=
  match chains with
  | [] => w
  | chain :: rest => worldAfter net rest (snd (fetchWithRetry net (chainUrl chain) w))
  end.

(** The query takes the cross-chain search: no chain, a token, no pair. *)
Definition crossChainSearch (q : Query) : bool :=
  match JS.truthy (q_chain q), JS.truthy (q_token q), JS.truthy (q_pair q) with
  | None, Some _, None => true
  | _, _, _ => false
  end.

End Reading.

(* ================================================================== *)
(** ** Concrete hosts, networks and trades used in the examples *)
(* ================================================================== *)

Module Demo.

Import MasterDex.

(** A host whose dates are three instants one second apart (T-1 is the
    latest) and any other string the oldest one. *)
Definition getTime (s : string) : Z :=
  if (s =? "2024-05-01T12:00:03.000Z")%string then 1714564803000
  else if (s =? "2024-05-01T12:00:02.000Z")%string then 1714564802000
  else if (s =? "2024-05-01T12:00:01.000Z")%string then 1714564801000
  else 1714564800000.

Definition host : Host :=
  {| Date_getTime := getTime;
     Date_toLocaleString := fun s => s;
     Date_toISOString := JS.showZ;
     Number_toLocaleString := fun _ => "0.00";
     pushIsNotAFunction := "acc[chainName].push is not a function" |}.

Definition T1 : string := "2024-05-01T12:00:03.000Z".
Definition T2 : string := "2024-05-01T12:00:02.000Z".
Definition T3 : string := "2024-05-01T12:00:01.000Z".

Definition trade (s0 s1 : string) (t : string) (value : Q) : MasterDexTrade :=
  {| transType := "Buy"; price := 1; blockNumber := 1; amountBase := 1;
     amountQuote := None; symbol0 := Some s0; symbol1 := Some s1;
     token0Price := 1; token1Price := 1; tnxvalue := value;
     account := "0xabc"; bottrade := false; txnDetail := "0xdef";
     time := t; pairId := "0x123"; feeTier := 3000; chain := Some "base" |}.

(** The records of the pair filter example, and one whose first symbol
    only contains the filter's. *)
Definition pairTrades : list MasterDexTrade :=
  [trade "BBB" "AAA" T1 100; trade "aaa" "bbb" T2 100;
   trade "AAA" "CCC" T3 100; trade "AAAX" "BBB" T3 100].

(** A host that dates a trade by the length of its [time] string, and
    fifty trades dated 1 to 50 seconds. *)
Definition hostByLength : Host :=
  {| Date_getTime := fun s => Z.of_nat (String.length s) * 1000;
     Date_toLocaleString := fun s => s;
     Date_toISOString := JS.showZ;
     Number_toLocaleString := fun _ => "0.00";
     pushIsNotAFunction := "acc[chainName].push is not a function" |}.

Fixpoint stars (n : nat) : string :=
  match n with
  | O => EmptyString
  | S n' => String "*" (stars n')
  end.

Definition fifty : list MasterDexTrade :=
  map (fun n => trade "WETH" "USDC" (stars n) 100) (seq 1 50).

Definition noFilter (limit : option Z) : Query :=
  {| q_chain := None; q_token := None; q_pair := None; q_minValue := None;
     q_limit := limit; q_tradeType := None |}.

(** Queries of the examples. *)
Definition tokenOnly (token : string) : Query :=
  {| q_chain := None; q_token := Some token; q_pair := None; q_minValue := None;
     q_limit := None; q_tradeType := None |}.

Definition tokenOnChain (chain token : string) : Query :=
  {| q_chain := Some chain; q_token := Some token; q_pair := None;
     q_minValue := None; q_limit := None; q_tradeType := None |}.

Definition tokenAndPair (token pair : string) : Query :=
  {| q_chain := None; q_token := Some token; q_pair := Some pair;
     q_minValue := None; q_limit := None; q_tradeType := None |}.

Definition okResponse (trades : list MasterDexTrade) : FetchOutcome :=
  Responds {| status := 200; statusText := "OK"; body := JsonData trades |}.

Definition http500 : FetchOutcome :=
  Responds {| status := 500; statusText := "Internal Server Error";
              body := JsonNoData |}.

Definition connReset : FetchOutcome :=
  Rejects (ErrorObj "Error" "read ECONNRESET").

(** The clock at the start of a call, and one minute later. *)
Definition w0 : World := {| now := 1714564810000; requests := []; sleeps := [] |}.
Definition w1 : World := {| now := 1714564870000; requests := []; sleeps := [] |}.

(** First request answered with HTTP 500, every later one with 200. *)
Definition net500 : Net :=
  fun _ k => match k with O => http500 | _ => okResponse [] end.

(** First request reset by the peer, every later one answered with 200. *)
Definition netReset : Net :=
  fun _ k => match k with O => connReset | _ => okResponse [] end.

(** Every request fails at the connection level. *)
Definition netDown : Net := fun _ _ => Rejects (ErrorObj "TypeError" "fetch failed").

(** Every endpoint answers with the same three trades. *)
Definition trades3 : list MasterDexTrade :=
  [trade "WETH" "USDC" T1 5000; trade "WETH" "DAI" T3 7000; trade "LCX" "WETH" T2 9000].

Definition netAll : Net := fun _ _ => okResponse trades3.

(** Ethereum is down, the other endpoints answer. *)
Definition netEthDown : Net :=
  fun url _ =>
    if (url =? chainUrl "ethereum")%string then connReset else okResponse trades3.

End Demo.

(* ================================================================== *)
(** ** Vocabulary of the further properties *)
(* ================================================================== *)

Module Props.

Import MasterDex.

(** The error with which one attempt of [fetchWithRetry] enters its [catch]
    block, if it does: the rejection of [fetch], or the HTTP error built for
    a response that is not [ok]. *)
Definition attemptError (o : FetchOutcome) : option Thrown :=
  match o with
  | Rejects e => Some e
  | Responds r => if ok r then None else Some (newError (httpMessage r))
  end.

(** The [i]-th back-off wait (from 0) of a retry sequence that starts with
    [delay]: the delay doubles after every wait. *)
Definition backoff (delay : Z) (i : nat) : Z := delay * 2 ^ Z.of_nat i.

(** The outcome the network has for the [i]-th request of [url] made from
    the world [w] on. *)
Definition nextOutcome (net : Net) (url : string) (w : World) (i : nat) : FetchOutcome :=
  net url (count_occ string_dec (requests w) url + i)%nat.

(** The one endpoint asked by a query that does not take the cross-chain
    search. *)
Definition endpointOf (q : Query) : string :=
  match JS.truthy (q_chain q) with
  | Some chain => chainUrl chain
  | None => multiChainUrl
  end.

(** A symbol of the trade is the non-empty string [s]. *)
Definition hasSymbol (s : string) (trade : MasterDexTrade) : Prop :=
  s <> EmptyString /\ (symbol0 trade = Some s \/ symbol1 trade = Some s).

(** The conjunction of the filters that [execute] applies for a query. *)
Definition passesFilters (q : Query) (trade : MasterDexTrade) : bool :=
  match JS.truthy (q_token q), JS.truthy (q_chain q) with
  | Some token, Some _ => tokenMatches (JS.trim (JS.toLowerCase token)) trade
  | _, _ => true
  end
  && match JS.truthy (q_pair q) with
     | Some p =>
         let parts := JS.split "/" (JS.trim (JS.toLowerCase p)) in
         pairMatch (nth_error parts 0) (nth_error parts 1) trade
     | None => true
     end
  && match JS.truthy (q_tradeType q) with
     | Some tradeType =>
         (JS.toLowerCase (transType trade) =? JS.toLowerCase tradeType)%string
     | None => true
     end
  && match truthyNum (q_minValue q) with
     | Some minValue => Qle_bool minValue (tnxvalue trade)
     | None => true
     end.

(** [groups[key]] in the object built by the [reduce] of [execute]: the
    list filed under [key], empty when there is none. *)
Fixpoint groupLookup (key : string) (groups : list (string * list FormattedTrade))
  : list FormattedTrade :=
  match groups with
  | [] => []
  | (k, xs) :: rest => if (k =? key)%string then xs else groupLookup key rest
  end.

(** The query with every falsy field ([''], a zero [minValue]) left out. *)
Definition dropFalsy (q : Query) : Query :=
  {| q_chain := JS.truthy (q_chain q);
     q_token := JS.truthy (q_token q);
     q_pair := JS.truthy (q_pair q);
     q_minValue := truthyNum (q_minValue q);
     q_limit := q_limit q;
     q_tradeType := JS.truthy (q_tradeType q) |}.

(** One symbol of the trade is absent and the other, in lower case, is [a]. *)
Definition isLoneSymbol (a : string) (trade : MasterDexTrade) : bool :=
  match symbol0 trade, symbol1 trade with
  | Some s, None => (JS.toLowerCase s =? a)%string
  | None, Some s => (JS.toLowerCase s =? a)%string
  | _, _ => false
  end.

End Props.

(* ================================================================== *)
(** ** Further concrete inputs *)
(* ================================================================== *)

Module MoreDemo.

(** A trade with one symbol only. *)
Definition loneTrade (s0 : string) : MasterDexTrade :=
  {| transType := "Sell"; price := 1; blockNumber := 2; amountBase := 1;
     amountQuote := None; symbol0 := Some s0; symbol1 := None;
     token0Price := 1; token1Price := 1; tnxvalue := 250;
     account := "0xabc"; bottrade := false; txnDetail := "0xdef";
     time := Demo.T2; pairId := "0x456"; feeTier := 500; chain := None |}.

Definition mixedTrades : list MasterDexTrade :=
  [loneTrade "WETH"; Demo.trade "WETH" "USDC" Demo.T1 5000; loneTrade "LCX"].

(** The single-chain tool's query for a token. *)
Definition baseToken (token : string) : BaseTool.BaseQuery :=
  {| BaseTool.b_token := Some token; BaseTool.b_pair := None;
     BaseTool.b_minValue := None; BaseTool.b_limit := None |}.

(** What the body and the engine would say, for the examples. *)
Definition noBodyMessage : Response -> option string := fun _ => None.

Definition someTypeError : Response -> BaseTool.BaseQuery -> string :=
  fun _ _ => "Cannot read properties of undefined (reading 'sort')".

(** A trade whose chain is named like a member of [Object.prototype]. *)
Definition constructorTrade : MasterDexTrade :=
  {| transType := "Buy"; price := 1; blockNumber := 3; amountBase := 1;
     amountQuote := None; symbol0 := Some "WETH"; symbol1 := Some "USDC";
     token0Price := 1; token1Price := 1; tnxvalue := 900;
     account := "0xabc"; bottrade := false; txnDetail := "0xdef";
     time := Demo.T1; pairId := "0x789"; feeTier := 500;
     chain := Some "constructor" |}.

End MoreDemo.

(* ================================================================== *)
(** ** Properties of [fetchWithRetry] *)
(* ================================================================== *)

Module RetryFacts.

Import MasterDex.

(** A non-OK response on an attempt that is not the last one leaves
    [fetchWithRetry] at once with the HTTP error, unless the status text
    happens to contain one of the connection markers. *)
Lemma non_ok_response_is_rethrown (net : Net) (url : string) (w : World) (r : Response) :
  net url (count_occ string_dec (requests w) url) = Responds r ->
  ok r = false ->
  isConnectionError (newError (httpMessage r)) = false ->
  fetchWithRetry net url w =
    (Throw (newError (httpMessage r)),
     mkWorld (now w) (requests w ++ [url]) (sleeps w)).
Proof.
  intros Hnet Hok Hconn.
  unfold fetchWithRetry, fetchWithRetry', fetchWithRetry_loop, tryCatch, bind, fetch.
  rewrite Hnet, Hok. unfold throw. cbn [Nat.eqb].
  rewrite Hconn. reflexivity.
Qed.

(** A connection error on an attempt that is not the last one is followed
    by a back-off and another attempt. *)
Lemma connection_error_is_retried (net : Net) (url : string) (w : World) (e : Thrown) :
  net url (count_occ string_dec (requests w) url) = Rejects e ->
  isConnectionError e = true ->
  fetchWithRetry net url w =
    fetchWithRetry_loop net url 3 2 2 2000
      (mkWorld (now w + 1000) (requests w ++ [url]) (sleeps w ++ [1000])).
Proof.
  intros Hnet Hconn.
  unfold fetchWithRetry, fetchWithRetry'.
  cbn [fetchWithRetry_loop]. unfold tryCatch at 1, bind at 1, fetch at 1.
  rewrite Hnet. cbn [Nat.eqb]. rewrite Hconn.
  unfold bind at 1, sleep. reflexivity.
Qed.

End RetryFacts.

(** C1 (evaluation of the code): with a server that answers the first request
    with HTTP 500 and would answer 200 afterwards, [fetchWithRetry] makes one
    request, waits for no back-off and throws the HTTP error, and [execute]
    for that chain reports the failure after this single request; with a
    connection reset on the first request instead, [fetchWithRetry] waits
    1000 ms, asks again and returns the second response. *)
Theorem fetchWithRetry_http_error_single_attempt :
  MasterDex.fetchWithRetry Demo.net500 (MasterDex.chainUrl "base") Demo.w0 =
    (Throw (newError "HTTP 500: Internal Server Error"),
     {| now := now Demo.w0; requests := [MasterDex.chainUrl "base"]; sleeps := [] |})
  /\
  (exists f w',
      MasterDex.execute Demo.host Demo.net500 (Demo.tokenOnChain "base" "weth") Demo.w0
      = (Normal (MasterDex.Failure f), w')
      /\ MasterDex.e_error f = "HTTP 500: Internal Server Error"
      /\ requests w' = [MasterDex.chainUrl "base"]
      /\ sleeps w' = [])
  /\
  MasterDex.fetchWithRetry Demo.netReset (MasterDex.chainUrl "base") Demo.w0 =
    (Normal {| status := 200; statusText := "OK"; body := JsonData [] |},
     {| now := now Demo.w0 + 1000;
        requests := [MasterDex.chainUrl "base"; MasterDex.chainUrl "base"];
        sleeps := [1000] |}).
Proof.
  split; [vm_compute; reflexivity|]. split; [|vm_compute; reflexivity].
  do 2 eexists. split; [vm_compute; reflexivity|].
  repeat split; vm_compute; reflexivity.
Qed.

(* ================================================================== *)
(** ** Runs of the effectful code *)
(* ================================================================== *)

Module ExecFacts.

Import MasterDex Reading.

Section Runs.

Variable host : Host.
Variable net : Net.

Lemma formatTradeData_run (trade : MasterDexTrade) (w : World) :
  formatTradeData host trade w = (Normal (formatAt host (now w) trade), w).
Proof. reflexivity. Qed.

Lemma mapM_formatTradeData_run (results : list MasterDexTrade) (w : World) :
  mapM (formatTradeData host) results w
  = (Normal (map (formatAt host (now w)) results), w).
Proof.
  induction results as [|trade rest IH]; [reflexivity|].
  cbn [mapM map]. unfold bind at 1. rewrite formatTradeData_run.
  unfold bind at 1. rewrite IH. reflexivity.
Qed.

Lemma reduceM_groupByChain_run (q : Query) (results : list MasterDexTrade)
      (acc : list (string * list FormattedTrade)) (w : World) :
  reduceM (groupByChain host q) results acc w
  = (if hasInheritedName q results
     then Throw (pushError host)
     else Normal (groupsAt host q (now w) results acc), w).
Proof.
  revert acc; induction results as [|trade rest IH]; intros acc; [reflexivity|].
  cbn [reduceM]. unfold bind at 1.
  unfold groupByChain at 1. unfold bind at 1. rewrite formatTradeData_run.
  unfold pushGroup, hasInheritedName. cbn [existsb]. fold (chainNameOf q trade).
  destruct (isInherited (chainNameOf q trade)); cbn [orb]; [reflexivity|].
  unfold ret at 1. rewrite IH. reflexivity.
Qed.

(** The [try] block: the fetch, then the response built at the clock the
    fetch leaves, unless the grouping throws. *)
Lemma executeTry_run (q : Query) (w : World) :
  executeTry host net q w
  = match fetchResults net q w with
    | (Normal fetched, w') =>
        (if hasInheritedName q (selectResults host q (fst (fst fetched)))
         then Throw (pushError host)
         else Normal (responseAt host q fetched (now w')), w')
    | (Throw e, w') => (Throw e, w')
    end.
Proof.
  unfold executeTry. unfold bind at 1.
  destruct (fetchResults net q w) as [[[[results url] checked]|e] w']; [|reflexivity].
  unfold bind at 1. rewrite mapM_formatTradeData_run.
  unfold bind at 1. rewrite reduceM_groupByChain_run. cbn [fst].
  destruct (hasInheritedName q (selectResults host q results)); reflexivity.
Qed.

(** [execute]: what [outcomeAt] says when the fetch succeeds, the failure
    object when the fetch throws. *)
Lemma execute_run (q : Query) (w : World) :
  execute host net q w
  = match fetchResults net q w with
    | (Normal fetched, w') => (Normal (outcomeAt host q fetched (now w')), w')
    | (Throw e, w') => (Normal (Failure (failureData host q e (now w'))), w')
    end.
Proof.
  unfold execute, tryCatch. unfold bind at 1. rewrite executeTry_run.
  destruct (fetchResults net q w) as [[fetched|e] w']; [|reflexivity].
  unfold outcomeAt.
  destruct (hasInheritedName q (selectResults host q (fst (fst fetched)))); reflexivity.
Qed.

End Runs.

End ExecFacts.

(* ================================================================== *)
(** ** The retry loop: requests, locality, clock *)
(* ================================================================== *)

Module LoopFacts.

Import MasterDex Reading.

Lemma clockFree_ret {A} (a : A) : clockFree (ret a).
Proof. intros w1 w2 H; split; [reflexivity | exact H]. Qed.

Lemma clockFree_throw {A} (e : Thrown) : clockFree (@throw A e).
Proof. intros w1 w2 H; split; [reflexivity | exact H]. Qed.

Lemma clockFree_bind {A B} (m : M A) (k : A -> M B) :
  clockFree m -> (forall a, clockFree (k a)) -> clockFree (bind m k).
Proof.
  intros Hm Hk w1 w2 H. unfold bind.
  destruct (Hm w1 w2 H) as [Hc Hw].
  destruct (m w1) as [[a1|e1] w1'], (m w2) as [[a2|e2] w2']; cbn in Hc, Hw;
    try discriminate.
  - injection Hc as ->. apply Hk, Hw.
  - injection Hc as ->. split; [reflexivity | exact Hw].
Qed.

Lemma clockFree_tryCatch {A} (m : M A) (h : Thrown -> M A) :
  clockFree m -> (forall e, clockFree (h e)) -> clockFree (tryCatch m h).
Proof.
  intros Hm Hh w1 w2 H. unfold tryCatch.
  destruct (Hm w1 w2 H) as [Hc Hw].
  destruct (m w1) as [[a1|e1] w1'], (m w2) as [[a2|e2] w2']; cbn in Hc, Hw;
    try discriminate.
  - injection Hc as ->. split; [reflexivity | exact Hw].
  - injection Hc as ->. apply Hh, Hw.
Qed.

Lemma clockFree_sleep (delay : Z) : clockFree (sleep delay).
Proof. intros w1 w2 H; split; [reflexivity | exact H]. Qed.

Section Net.

Variable net : Net.

Lemma clockFree_fetch (url : string) : clockFree (fetch net url).
Proof.
  intros w1 w2 H. unfold fetch, sameRequests in *. rewrite H.
  destruct (net url _); cbn; split; reflexivity.
Qed.

Lemma clockFree_json (r : Response) : clockFree (json r).
Proof.
  unfold json. destruct (body r);
    [apply clockFree_throw | apply clockFree_ret | apply clockFree_ret].
Qed.

Lemma clockFree_loop (url : string) (maxRetries remaining : nat) :
  forall attempt delay,
    clockFree (fetchWithRetry_loop net url maxRetries remaining attempt delay).
Proof.
  induction remaining as [|remaining IH]; intros attempt delay; cbn [fetchWithRetry_loop].
  - apply clockFree_throw.
  - apply clockFree_tryCatch.
    + apply clockFree_bind; [apply clockFree_fetch|].
      intros r. destruct (ok r); [apply clockFree_ret | apply clockFree_throw].
    + intros e. destruct (attempt =? maxRetries)%nat; [apply clockFree_throw|].
      destruct (isConnectionError e); [|apply clockFree_throw].
      apply clockFree_bind; [apply clockFree_sleep | intros _; apply IH].
Qed.

Lemma clockFree_fetchWithRetry (url : string) : clockFree (fetchWithRetry net url).
Proof. apply clockFree_loop. Qed.

Lemma clockFree_searchChain (token : string) (acc : list MasterDexTrade * list string)
      (chain : string) : clockFree (searchChain net token acc chain).
Proof.
  destruct acc as [allResults chainsChecked]. unfold searchChain.
  apply clockFree_tryCatch; [|intros e; apply clockFree_ret].
  apply clockFree_bind; [apply clockFree_fetchWithRetry|]. intros r.
  apply clockFree_bind; [apply clockFree_json|]. intros data. apply clockFree_ret.
Qed.

Lemma clockFree_forEachChain (token : string) (chains : list string) :
  forall acc, clockFree (forEachChain net token chains acc).
Proof.
  induction chains as [|chain rest IH]; intros acc; cbn [forEachChain].
  - apply clockFree_ret.
  - apply clockFree_bind; [apply clockFree_searchChain | intros acc'; apply IH].
Qed.

Lemma clockFree_fetchResults (q : Query) : clockFree (fetchResults net q).
Proof.
  unfold fetchResults.
  assert (Hone : forall (url : string) (checked : list string),
             clockFree (response <- fetchWithRetry net url ;;
                        data <- json response ;;
                        match data with
                        | None => throw (newError "Invalid response format from MasterDex API")
                        | Some results => ret (results, url, checked)
                        end)).
  { intros url checked.
    apply clockFree_bind; [apply clockFree_fetchWithRetry|]. intros r.
    apply clockFree_bind; [apply clockFree_json|]. intros [results|];
      [apply clockFree_ret | apply clockFree_throw]. }
  destruct (JS.truthy (q_chain q)) as [chain|]; [apply Hone|].
  destruct (JS.truthy (q_token q)) as [token|]; [|apply Hone].
  destruct (JS.truthy (q_pair q)) as [p|]; [apply Hone|].
  apply clockFree_bind; [apply clockFree_forEachChain | intros r; apply clockFree_ret].
Qed.

End Net.

End LoopFacts.

(* ================================================================== *)
(** ** Two calls with the same query *)
(* ================================================================== *)

Module ClockFacts.

Import MasterDex Reading.

Lemma eraseAge_formatAt (host : Host) (n1 n2 : Z) (trade : MasterDexTrade) :
  eraseAge (formatAt host n1 trade) = eraseAge (formatAt host n2 trade).
Proof. reflexivity. Qed.

Lemma eraseGroups_groupPush (acc : list (string * list FormattedTrade))
      (chainName : string) (x : FormattedTrade) :
  eraseGroups (groupPush acc chainName x)
  = groupPush (eraseGroups acc) chainName (eraseAge x).
Proof.
  induction acc as [|[k xs] rest IH]; [reflexivity|].
  cbn [groupPush eraseGroups map fst snd].
  destruct (k =? chainName)%string; cbn [map fst snd].
  - rewrite map_app. reflexivity.
  - f_equal. exact IH.
Qed.

Lemma eraseGroups_groupsAt (host : Host) (q : Query) (n1 n2 : Z)
      (results : list MasterDexTrade) :
  forall acc1 acc2,
    eraseGroups acc1 = eraseGroups acc2 ->
    eraseGroups (groupsAt host q n1 results acc1)
    = eraseGroups (groupsAt host q n2 results acc2).
Proof.
  induction results as [|trade rest IH]; intros acc1 acc2 Hacc; [exact Hacc|].
  unfold groupsAt in *. cbn [fold_left]. apply IH.
  rewrite !eraseGroups_groupPush, Hacc. reflexivity.
Qed.

Lemma eraseClock_responseAt (host : Host) (q : Query)
      (fetched : list MasterDexTrade * string * list string) (n1 n2 : Z) :
  eraseClock (Success (responseAt host q fetched n1))
  = eraseClock (Success (responseAt host q fetched n2)).
Proof.
  destruct fetched as [[results url] checked].
  unfold responseAt, responseData, eraseClock.
  cbn [r_data r_dataByChain r_count r_totalFetched r_message r_source r_url
       r_supportedChains r_filteredChain r_endpointUsed r_chainsChecked
       r_filters r_availableSymbols r_timestamp].
  f_equal. f_equal.
  - rewrite !map_map. apply map_ext. intros trade. apply eraseAge_formatAt.
  - apply eraseGroups_groupsAt. reflexivity.
Qed.

Lemma eraseClock_outcomeAt (host : Host) (q : Query)
      (fetched : list MasterDexTrade * string * list string) (n1 n2 : Z) :
  eraseClock (outcomeAt host q fetched n1) = eraseClock (outcomeAt host q fetched n2).
Proof.
  unfold outcomeAt.
  destruct (hasInheritedName q (selectResults host q (fst (fst fetched))));
    [reflexivity | apply eraseClock_responseAt].
Qed.

End ClockFacts.

(** C5 (as amended): with the same deterministic network, the same [Query]
    and the same log of earlier requests, two runs of [execute] started at
    any two clock readings both return an object, and the two objects are
    equal field by field (same records in the same order, same grouping,
    count, message, symbols and echo of the filters) once the clock-derived
    fields are blanked: the [age] of every formatted trade and the
    [timestamp] of the object. *)
Theorem execute_twice_same_up_to_clock
        (host : Host) (net : Net) (q : Query)
        (now1 now2 : Z) (log : list string) (sl1 sl2 : list Z) :
  exists env1 env2 w1' w2',
    MasterDex.execute host net q (mkWorld now1 log sl1) = (Normal env1, w1')
    /\ MasterDex.execute host net q (mkWorld now2 log sl2) = (Normal env2, w2')
    /\ Reading.eraseClock env1 = Reading.eraseClock env2.
Proof.
  rewrite !ExecFacts.execute_run.
  destruct (LoopFacts.clockFree_fetchResults net q
              (mkWorld now1 log sl1) (mkWorld now2 log sl2) eq_refl) as [Hc _].
  destruct (MasterDex.fetchResults net q (mkWorld now1 log sl1)) as [[f1|e1] w1'],
           (MasterDex.fetchResults net q (mkWorld now2 log sl2)) as [[f2|e2] w2'];
    cbn in Hc; try discriminate; injection Hc as ->.
  - do 4 eexists. repeat split. apply ClockFacts.eraseClock_outcomeAt.
  - do 4 eexists. repeat split.
Qed.

(** C5 (counterexample): the same network and the same query, run when the
    clock shows 12:00:10 and again one minute later, give two different
    objects: every [age] and the [timestamp] differ. *)
Lemma execute_twice_differs_with_clock :
  let q := {| q_chain := Some "base"; q_token := None; q_pair := None;
              q_minValue := None; q_limit := None; q_tradeType := None |} in
  fst (MasterDex.execute Demo.host Demo.netAll q Demo.w0)
  <> fst (MasterDex.execute Demo.host Demo.netAll q Demo.w1)
  /\ (exists r w', MasterDex.execute Demo.host Demo.netAll q Demo.w0 = (Normal (MasterDex.Success r), w')
                   /\ map MasterDex.f_age (MasterDex.r_data r) = ["7s ago"; "8s ago"; "9s ago"]
                   /\ MasterDex.r_timestamp r = "1714564810000")
  /\ (exists r w', MasterDex.execute Demo.host Demo.netAll q Demo.w1 = (Normal (MasterDex.Success r), w')
                   /\ map MasterDex.f_age (MasterDex.r_data r) = ["1m ago"; "1m ago"; "1m ago"]
                   /\ MasterDex.r_timestamp r = "1714564870000").
Proof.
  cbv zeta. split; [|split].
  - intros H.
    apply (f_equal (fun c => match c with
                             | Normal (MasterDex.Success r) => MasterDex.r_timestamp r
                             | _ => EmptyString
                             end)) in H.
    vm_compute in H. discriminate H.
  - do 2 eexists. split; [vm_compute; reflexivity|]. split; vm_compute; reflexivity.
  - do 2 eexists. split; [vm_compute; reflexivity|]. split; vm_compute; reflexivity.
Qed.

(* ================================================================== *)
(** ** Which endpoints a call asks *)
(* ================================================================== *)

Module RequestFacts.

Import MasterDex Reading.

(** The retry loop asks its own URL only, at most once per pass left. *)
Lemma loop_requests (net : Net) (url : string) (maxRetries remaining : nat) :
  forall attempt delay w,
  exists n,
    (n <= remaining)%nat /\ (remaining <> 0 -> n <> 0)%nat /\
    requests (snd (fetchWithRetry_loop net url maxRetries remaining attempt delay w))
    = requests w ++ repeat url n.
Proof.
  induction remaining as [|remaining IH]; intros attempt delay w.
  - exists 0%nat. cbn. rewrite app_nil_r. repeat split; [lia | congruence].
  - assert (Hcatch : forall e : Thrown,
               exists n, (n <= S remaining)%nat /\ (n <> 0)%nat /\
                 requests (snd
                   ((if (attempt =? maxRetries)%nat
                     then throw (newError ("Failed after " ++ JS.showNat maxRetries
                                             ++ " attempts. Last error: "
                                             ++ messageOr "Unknown error" e)%string)
                     else if isConnectionError e
                          then sleep delay ;;;
                               fetchWithRetry_loop net url maxRetries remaining
                                                   (S attempt) (delay * 2)
                          else throw e)
                      (mkWorld (now w) (requests w ++ [url]) (sleeps w))))
                 = requests w ++ repeat url n).
    { intros e.
      destruct (attempt =? maxRetries)%nat; [exists 1%nat; cbn; repeat split; lia|].
      destruct (isConnectionError e); [|exists 1%nat; cbn; repeat split; lia].
      unfold bind, sleep. cbn [now requests sleeps].
      destruct (IH (S attempt) (delay * 2)
                   (mkWorld (now w + delay) (requests w ++ [url]) (sleeps w ++ [delay])))
        as (n & Hle & _ & Hreq).
      exists (S n). rewrite Hreq. cbn [requests repeat].
      rewrite <- app_assoc. repeat split; cbn; lia || reflexivity. }
    cbn [fetchWithRetry_loop]. unfold tryCatch, bind at 1, fetch.
    destruct (net url _) as [r|e].
    + destruct (ok r); cbn [ret throw].
      * exists 1%nat. cbn. repeat split; lia.
      * destruct (Hcatch (newError (httpMessage r))) as (n & Hle & Hpos & Hreq).
        exists n. repeat split; [lia | lia | exact Hreq].
    + destruct (Hcatch e) as (n & Hle & Hpos & Hreq).
      exists n. repeat split; [lia | lia | exact Hreq].
Qed.

(** The retry loop looks at the network at its own URL only. *)
Lemma loop_local (net net' : Net) (url : string) (maxRetries remaining : nat) :
  (forall k, net' url k = net url k) ->
  forall attempt delay w,
    fetchWithRetry_loop net' url maxRetries remaining attempt delay w
    = fetchWithRetry_loop net url maxRetries remaining attempt delay w.
Proof.
  intros Hnet.
  induction remaining as [|remaining IH]; intros attempt delay w; [reflexivity|].
  cbn [fetchWithRetry_loop]. unfold tryCatch, bind at 1 3, fetch. rewrite Hnet.
  destruct (net url _) as [r|e].
  - destruct (ok r); [reflexivity|]. cbn [throw].
    destruct (attempt =? maxRetries)%nat; [reflexivity|].
    destruct (isConnectionError _); [|reflexivity].
    unfold bind, sleep. apply IH.
  - destruct (attempt =? maxRetries)%nat; [reflexivity|].
    destruct (isConnectionError _); [|reflexivity].
    unfold bind, sleep. apply IH.
Qed.

(** A member of [supportedChains] is a truthy string. *)
Lemma supported_truthy (chain : string) :
  In chain supportedChains -> JS.truthy (Some chain) = Some chain.
Proof.
  unfold supportedChains. cbn [In].
  intros [<-|[<-|[<-|[<-|[<-|[<-|[<-|[]]]]]]]]; reflexivity.
Qed.

(** With a chain in the query, the fetch step is one [fetchWithRetry] on
    that chain's endpoint. *)
Lemma fetchResults_chain (net : Net) (q : Query) (chain : string) (w : World) :
  JS.truthy (q_chain q) = Some chain ->
  fetchResults net q w
  = (response <- fetchWithRetry net (chainUrl chain) ;;
     data <- json response ;;
     match data with
     | None => throw (newError "Invalid response format from MasterDex API")
     | Some results => ret (results, chainUrl chain, [chain])
     end) w.
Proof. intros H. unfold fetchResults. rewrite H. reflexivity. Qed.

End RequestFacts.

(** C8: for a query that names one of the supported chains, [execute] sends
    its requests (one to three of them) to that chain's endpoint and to no
    other URL, and what it returns is the same for any two networks that
    answer alike at that endpoint, whatever the other endpoints would say. *)
Theorem chain_query_asks_only_its_endpoint
        (host : Host) (net : Net) (q : Query) (chain : string) (w : World) :
  q_chain q = Some chain ->
  In chain supportedChains ->
  (exists n, (1 <= n <= 3)%nat /\
             requests (snd (MasterDex.execute host net q w))
             = requests w ++ repeat (MasterDex.chainUrl chain) n)
  /\
  (forall net' : Net,
      (forall k, net' (MasterDex.chainUrl chain) k = net (MasterDex.chainUrl chain) k) ->
      MasterDex.execute host net' q w = MasterDex.execute host net q w).
Proof.
  intros Hq Hin.
  assert (Ht : JS.truthy (q_chain q) = Some chain)
    by (rewrite Hq; apply RequestFacts.supported_truthy, Hin).
  split.
  - rewrite ExecFacts.execute_run, (RequestFacts.fetchResults_chain net q chain w Ht).
    unfold bind at 1, MasterDex.fetchWithRetry, MasterDex.fetchWithRetry'.
    destruct (RequestFacts.loop_requests net (MasterDex.chainUrl chain) 3 3 1 1000 w)
      as (n & Hle & Hpos & Hreq).
    exists n. split; [lia|].
    destruct (MasterDex.fetchWithRetry_loop net (MasterDex.chainUrl chain) 3 3 1 1000 w)
      as [[r|e] w']; cbn [snd] in *; [|exact Hreq].
    unfold bind, MasterDex.json.
    destruct (body r) as [e| |trades]; cbn; exact Hreq.
  - intros net' Hnet.
    rewrite !ExecFacts.execute_run,
      (RequestFacts.fetchResults_chain net q chain w Ht),
      (RequestFacts.fetchResults_chain net' q chain w Ht).
    unfold bind at 1 3, MasterDex.fetchWithRetry, MasterDex.fetchWithRetry'.
    rewrite (RequestFacts.loop_local net net' _ 3 3 Hnet). reflexivity.
Qed.

Lemma chain_query_asks_only_its_endpoint_witness :
  let q := {| q_chain := Some "base"; q_token := Some "weth"; q_pair := None;
              q_minValue := None; q_limit := None; q_tradeType := None |} in
  (exists n, (1 <= n <= 3)%nat /\
             requests (snd (MasterDex.execute Demo.host Demo.netEthDown q Demo.w0))
             = requests Demo.w0 ++ repeat (MasterDex.chainUrl "base") n)
  /\
  (forall net' : Net,
      (forall k, net' (MasterDex.chainUrl "base") k
                 = Demo.netEthDown (MasterDex.chainUrl "base") k) ->
      MasterDex.execute Demo.host net' q Demo.w0
      = MasterDex.execute Demo.host Demo.netEthDown q Demo.w0).
Proof.
  apply (chain_query_asks_only_its_endpoint Demo.host Demo.netEthDown _ "base" Demo.w0).
  - reflexivity.
  - cbn. tauto.
Defined.

(* ================================================================== *)
(** ** Strings: separators, case and trimming *)
(* ================================================================== *)

Module StringFacts.

Import JS.

Lemma lower_ascii_eqb_slash (c : ascii) :
  Ascii.eqb (lower_ascii c) "/" = Ascii.eqb c "/".
Proof. destruct c as [[] [] [] [] [] [] [] []]; reflexivity. Qed.

Lemma isSpace_lower_ascii (c : ascii) : isSpace (lower_ascii c) = isSpace c.
Proof. destruct c as [[] [] [] [] [] [] [] []]; reflexivity. Qed.

Lemma toLowerCase_app (s t : string) :
  toLowerCase (s ++ t) = (toLowerCase s ++ toLowerCase t)%string.
Proof. induction s as [|c s IH]; cbn; [reflexivity | now rewrite IH]. Qed.

Lemma hasChar_toLowerCase (s : string) :
  hasChar "/" (toLowerCase s) = hasChar "/" s.
Proof.
  induction s as [|c s IH]; cbn; [reflexivity|].
  now rewrite lower_ascii_eqb_slash, IH.
Qed.

Lemma hasChar_trimStart (sep : ascii) (s : string) :
  hasChar sep s = false -> hasChar sep (trimStart s) = false.
Proof.
  induction s as [|c s IH]; cbn; [trivial|].
  intros H. apply orb_false_iff in H as [Hc Hs].
  destruct (isSpace c); [apply IH, Hs|]. cbn. now rewrite Hc, Hs.
Qed.

Lemma hasChar_trimEnd (sep : ascii) (s : string) :
  hasChar sep s = false -> hasChar sep (trimEnd s) = false.
Proof.
  induction s as [|c s IH]; cbn; [trivial|].
  intros H. apply orb_false_iff in H as [Hc Hs].
  destruct (isSpace c && (trimEnd s =? "")%string); [reflexivity|].
  cbn. now rewrite Hc, IH.
Qed.

Lemma hasChar_trim (sep : ascii) (s : string) :
  hasChar sep s = false -> hasChar sep (trim s) = false.
Proof. intros H. apply hasChar_trimEnd, hasChar_trimStart, H. Qed.

Lemma trimStart_toLowerCase (s : string) :
  trimStart (toLowerCase s) = toLowerCase (trimStart s).
Proof.
  induction s as [|c s IH]; cbn; [reflexivity|].
  rewrite isSpace_lower_ascii. destruct (isSpace c); [exact IH | reflexivity].
Qed.

Lemma toLowerCase_empty (s : string) :
  (toLowerCase s =? "")%string = (s =? "")%string.
Proof. destruct s; reflexivity. Qed.

Lemma trimEnd_toLowerCase (s : string) :
  trimEnd (toLowerCase s) = toLowerCase (trimEnd s).
Proof.
  induction s as [|c s IH]; cbn; [reflexivity|].
  rewrite isSpace_lower_ascii, IH, toLowerCase_empty.
  destruct (isSpace c && (trimEnd s =? "")%string); reflexivity.
Qed.

Lemma trim_toLowerCase (s : string) : trim (toLowerCase s) = toLowerCase (trim s).
Proof. unfold trim. now rewrite trimStart_toLowerCase, trimEnd_toLowerCase. Qed.

(** A string without the separator is the only part of its split. *)
Lemma split_without_sep (sep : ascii) (s : string) :
  hasChar sep s = false -> split sep s = [s].
Proof.
  induction s as [|c s IH]; cbn; [reflexivity|].
  intros H. apply orb_false_iff in H as [Hc Hs].
  rewrite Hc, (IH Hs). reflexivity.
Qed.

(** The part before the first separator is the first part of the split. *)
Lemma split_at_sep (sep : ascii) (a b : string) :
  hasChar sep a = false ->
  split sep (a ++ String sep b) = a :: split sep b.
Proof.
  induction a as [|c a IH]; cbn.
  - intros _. now rewrite Ascii.eqb_refl.
  - intros H. apply orb_false_iff in H as [Hc Ha].
    rewrite Hc, (IH Ha). reflexivity.
Qed.

End StringFacts.

(* ================================================================== *)
(** ** The pair filter *)
(* ================================================================== *)

Module PairFacts.

Import MasterDex Reading StringFacts.

Lemma pairMatch_undefined (a : option string) (trade : MasterDexTrade) :
  pairMatch a None trade = false.
Proof.
  unfold pairMatch, strictEq. destruct a; rewrite ?andb_false_r; reflexivity.
Qed.

Lemma filter_none {A} (f : A -> bool) (xs : list A) :
  (forall x, f x = false) -> filter f xs = [].
Proof.
  intros H. induction xs as [|x xs IH]; cbn; [reflexivity|]. now rewrite H.
Qed.

(** Without a [/], [b] is [undefined] and no trade passes. *)
Lemma pairStage_without_slash (pair : string) (results : list MasterDexTrade) :
  JS.hasChar "/" pair = false -> pairStage pair results = [].
Proof.
  intros H. unfold pairStage.
  rewrite split_without_sep
    by (apply hasChar_trim; rewrite hasChar_toLowerCase; exact H).
  cbn [nth_error]. apply filter_none, pairMatch_undefined.
Qed.

(** With [x/y], the stage keeps the trades whose symbols are the pair. *)
Lemma pairStage_with_slash (x y : string) (results : list MasterDexTrade) :
  JS.hasChar "/" x = false ->
  JS.hasChar "/" y = false ->
  JS.trim (x ++ "/" ++ y) = (x ++ "/" ++ y)%string ->
  pairStage (x ++ "/" ++ y) results
  = filter (isPair (JS.toLowerCase x) (JS.toLowerCase y)) results.
Proof.
  intros Hx Hy Htrim. unfold pairStage.
  rewrite trim_toLowerCase, Htrim, toLowerCase_app.
  cbn [append JS.toLowerCase].
  change (JS.lower_ascii "/") with "/"%char.
  rewrite split_at_sep by (rewrite hasChar_toLowerCase; exact Hx).
  rewrite split_without_sep by (rewrite hasChar_toLowerCase; exact Hy).
  cbn [nth_error]. reflexivity.
Qed.

Lemma base_pairStage_with_slash (x y : string) (results : list MasterDexTrade) :
  JS.hasChar "/" x = false ->
  JS.hasChar "/" y = false ->
  BaseTool.pairStage (x ++ "/" ++ y) results
  = filter (isPairPresent (JS.toLowerCase x) (JS.toLowerCase y)) results.
Proof.
  intros Hx Hy. unfold BaseTool.pairStage.
  rewrite toLowerCase_app. cbn [append JS.toLowerCase].
  change (JS.lower_ascii "/") with "/"%char.
  rewrite split_at_sep by (rewrite hasChar_toLowerCase; exact Hx).
  rewrite split_without_sep by (rewrite hasChar_toLowerCase; exact Hy).
  cbn [nth_error]. apply filter_ext. intros trade. unfold isPairPresent.
  destruct (symbol0 trade), (symbol1 trade); cbn; rewrite ?andb_false_r; reflexivity.
Qed.

(** After an empty pair stage nothing is left to return. *)
Lemma selectResults_pair_empty (host : Host) (q : Query) (p : string)
      (results : list MasterDexTrade) :
  JS.truthy (q_pair q) = Some p ->
  (forall rs, pairStage p rs = []) ->
  selectResults host q results = [].
Proof.
  intros Hp Hempty. unfold selectResults, applyFilters. rewrite Hp, Hempty.
  assert (Hf : (match JS.truthy (q_tradeType q) with
                | Some tradeType => tradeTypeStage tradeType []
                | None => []
                end) = []) by (destruct (JS.truthy (q_tradeType q)); reflexivity).
  rewrite Hf.
  assert (Hm : (match truthyNum (q_minValue q) with
                | Some minValue => minValueStage minValue []
                | None => []
                end) = []) by (destruct (truthyNum (q_minValue q)); reflexivity).
  rewrite Hm. cbn [sortByTimeDesc fold_right].
  unfold applyLimit, JS.slice0.
  destruct (negb (limitOf q =? 0) && (0 <? limitOf q)); [|reflexivity].
  destruct (0 <=? limitOf q); apply firstn_nil.
Qed.

End PairFacts.

(** C10: in the multi-chain tool a pair filter without [/] keeps no trade,
    whatever the data: the pair stage returns the empty list, and so does the
    whole selection of [execute] for every query whose [pair] is that
    string. *)
Theorem pair_without_slash_keeps_nothing
        (pair : string) (results : list MasterDexTrade) :
  JS.hasChar "/" pair = false ->
  MasterDex.pairStage pair results = []
  /\ (forall (host : Host) (q : Query),
         JS.truthy (q_pair q) = Some pair ->
         MasterDex.selectResults host q results = []).
Proof.
  intros H. split.
  - apply PairFacts.pairStage_without_slash, H.
  - intros host q Hq. apply (PairFacts.selectResults_pair_empty host q pair); [exact Hq|].
    intros rs. apply PairFacts.pairStage_without_slash, H.
Qed.

Lemma pair_without_slash_keeps_nothing_witness :
  MasterDex.pairStage "weth" Demo.trades3 = []
  /\ (forall (host : Host) (q : Query),
         JS.truthy (q_pair q) = Some "weth" ->
         MasterDex.selectResults host q Demo.trades3 = []).
Proof.
  apply (pair_without_slash_keeps_nothing "weth" Demo.trades3). reflexivity.
Defined.

(** C6: the pair filter splits its argument at [/] and keeps the trades whose
    two symbols are the two parts, in either order, compared in lower case
    and as whole strings.  For [x/y] (no [/] inside [x] or [y], no white
    space around the whole) the stage is the filter by [isPair]; the filter
    [AAA/BBB] keeps (BBB, AAA) and (aaa, bbb) and drops (AAA, CCC) and
    (AAAX, BBB).  The single-chain tool's stage does the same. *)
Theorem pair_filter_either_order_exact :
  (forall (x y : string) (results : list MasterDexTrade),
      JS.hasChar "/" x = false ->
      JS.hasChar "/" y = false ->
      JS.trim (x ++ "/" ++ y) = (x ++ "/" ++ y)%string ->
      MasterDex.pairStage (x ++ "/" ++ y) results
      = filter (Reading.isPair (JS.toLowerCase x) (JS.toLowerCase y)) results)
  /\ (forall (x y : string) (results : list MasterDexTrade),
         JS.hasChar "/" x = false ->
         JS.hasChar "/" y = false ->
         BaseTool.pairStage (x ++ "/" ++ y) results
         = filter (Reading.isPairPresent (JS.toLowerCase x) (JS.toLowerCase y)) results)
  /\ MasterDex.pairStage "AAA/BBB" Demo.pairTrades
     = [Demo.trade "BBB" "AAA" Demo.T1 100; Demo.trade "aaa" "bbb" Demo.T2 100]
  /\ BaseTool.pairStage "AAA/BBB" Demo.pairTrades
     = [Demo.trade "BBB" "AAA" Demo.T1 100; Demo.trade "aaa" "bbb" Demo.T2 100].
Proof.
  split; [|split; [|split]].
  - exact PairFacts.pairStage_with_slash.
  - exact PairFacts.base_pairStage_with_slash.
  - reflexivity.
  - reflexivity.
Qed.

Lemma pair_filter_either_order_exact_witness :
  MasterDex.pairStage ("USDC" ++ "/" ++ "WETH") Demo.trades3
  = filter (Reading.isPair (JS.toLowerCase "USDC") (JS.toLowerCase "WETH")) Demo.trades3
  /\ filter (Reading.isPair "usdc" "weth") Demo.trades3
     = [Demo.trade "WETH" "USDC" Demo.T1 5000].
Proof.
  split.
  - apply (proj1 pair_filter_either_order_exact "USDC" "WETH" Demo.trades3);
      reflexivity.
  - reflexivity.
Defined.

(* ================================================================== *)
(** ** Sorting by time and cutting to the limit *)
(* ================================================================== *)

Module SortFacts.

Import MasterDex Reading.

Section Sort.

Variable host : Host.

Lemma insertByTime_perm (x : MasterDexTrade) (sorted : list MasterDexTrade) :
  Permutation (insertByTime host x sorted) (x :: sorted).
Proof.
  induction sorted as [|y rest IH]; cbn; [apply Permutation_refl|].
  destruct (_ <=? _); [apply Permutation_refl|].
  eapply perm_trans; [apply perm_skip, IH | apply perm_swap].
Qed.

Lemma sortByTimeDesc_perm (results : list MasterDexTrade) :
  Permutation (sortByTimeDesc host results) results.
Proof.
  induction results as [|x rest IH]; cbn; [apply perm_nil|].
  eapply perm_trans; [apply insertByTime_perm | apply perm_skip, IH].
Qed.

Lemma insertByTime_sorted (x : MasterDexTrade) (sorted : list MasterDexTrade) :
  StronglySorted (notOlder host) sorted ->
  StronglySorted (notOlder host) (insertByTime host x sorted).
Proof.
  induction 1 as [|y rest Hs IH Hall]; cbn.
  - constructor; constructor.
  - destruct (Z.leb_spec (Date_getTime host (time y)) (Date_getTime host (time x)))
      as [Hle|Hgt].
    + constructor; [constructor; assumption|].
      constructor; [exact Hle|].
      eapply Forall_impl; [|exact Hall].
      intros b Hb. unfold notOlder, instant in *. lia.
    + constructor; [exact IH|].
      eapply Permutation_Forall; [apply Permutation_sym, insertByTime_perm|].
      constructor; [unfold notOlder, instant; lia | exact Hall].
Qed.

Lemma sortByTimeDesc_sorted (results : list MasterDexTrade) :
  StronglySorted (notOlder host) (sortByTimeDesc host results).
Proof.
  induction results as [|x rest IH]; cbn; [constructor|].
  apply insertByTime_sorted, IH.
Qed.

(** The sort is stable: trades of one instant keep their order. *)
Lemma insertByTime_stable (k : Z) (x : MasterDexTrade) (sorted : list MasterDexTrade) :
  filter (atInstant host k) (insertByTime host x sorted)
  = filter (atInstant host k) (x :: sorted).
Proof.
  induction sorted as [|y rest IH]; [reflexivity|].
  cbn [insertByTime].
  destruct (Z.leb_spec (Date_getTime host (time y)) (Date_getTime host (time x)))
    as [Hle|Hgt]; [reflexivity|].
  cbn [filter] in *. rewrite IH.
  unfold atInstant, instant.
  destruct (Z.eqb_spec (Date_getTime host (time y)) k) as [Hy|Hy];
    destruct (Z.eqb_spec (Date_getTime host (time x)) k) as [Hx|Hx];
    try reflexivity.
  lia.
Qed.

Lemma sortByTimeDesc_stable (k : Z) (results : list MasterDexTrade) :
  filter (atInstant host k) (sortByTimeDesc host results)
  = filter (atInstant host k) results.
Proof.
  induction results as [|x rest IH]; [reflexivity|].
  cbn [sortByTimeDesc fold_right]. rewrite insertByTime_stable.
  cbn [filter]. unfold sortByTimeDesc in IH. rewrite IH. reflexivity.
Qed.

Lemma in_skipn {A} (n : nat) (xs : list A) (x : A) :
  In x (skipn n xs) -> In x xs.
Proof.
  revert xs; induction n as [|n IH]; intros xs H; [exact H|].
  destruct xs as [|y rest]; [exact H|]. right. apply IH, H.
Qed.

(** In a sorted list, everything in a prefix is at least as recent as
    everything after it. *)
Lemma sorted_prefix_dominates (n : nat) (sorted : list MasterDexTrade) :
  StronglySorted (notOlder host) sorted ->
  forall a b, In a (firstn n sorted) -> In b (skipn n sorted) -> notOlder host a b.
Proof.
  intros Hs. revert n.
  induction Hs as [|y rest Hs IH Hall]; intros n a b Ha Hb.
  - rewrite firstn_nil in Ha. destruct Ha.
  - destruct n as [|n]; [destruct Ha|].
    cbn [firstn skipn] in Ha, Hb. destruct Ha as [<-|Ha].
    + rewrite Forall_forall in Hall. apply Hall.
      eapply (in_skipn n). exact Hb.
    + eapply IH; eassumption.
Qed.

Lemma applyLimit_positive (limit : Z) (results : list MasterDexTrade) :
  0 < limit -> applyLimit limit results = firstn (Z.to_nat limit) results.
Proof.
  intros H. unfold applyLimit, JS.slice0.
  destruct (Z.eqb_spec limit 0); [lia|].
  destruct (Z.ltb_spec 0 limit); [|lia].
  destruct (Z.leb_spec 0 limit); [reflexivity | lia].
Qed.

Lemma applyLimit_not_positive (limit : Z) (results : list MasterDexTrade) :
  limit <= 0 -> applyLimit limit results = results.
Proof.
  intros H. unfold applyLimit.
  destruct (Z.ltb_spec 0 limit); [lia|]. now rewrite andb_false_r.
Qed.

Lemma raw_formatAt (nowv : Z) (results : list MasterDexTrade) :
  map f_raw (map (formatAt host nowv) results) = results.
Proof.
  rewrite map_map. cbn. apply map_id.
Qed.

End Sort.

End SortFacts.

(** C7 (as amended): the records [execute] returns are the filtered records
    sorted by time, latest first (a stable sort: a permutation of the
    filtered records, each record at least as recent as every later one,
    records of one instant in their fetched order), and then, when the limit
    is positive (20 when the query gives none), cut to the first [limit] of
    them, so that no dropped record is more recent than a kept one; a limit
    of zero or less cuts nothing.  Times [T-1, T-3, T-2] come out as
    [T-1, T-2, T-3], and fifty records with limit 20 leave the twenty latest. *)
Theorem returned_records_sorted_then_cut :
  (forall (host : Host) (q : Query) (fetched : list MasterDexTrade),
      let filtered := MasterDex.applyFilters q fetched in
      let sorted := MasterDex.sortByTimeDesc host filtered in
      let limit := MasterDex.limitOf q in
      let returned := MasterDex.selectResults host q fetched in
      Permutation sorted filtered
      /\ StronglySorted (Reading.notOlder host) sorted
      /\ (forall k, filter (Reading.atInstant host k) sorted
                    = filter (Reading.atInstant host k) filtered)
      /\ (forall url checked nowv,
             map MasterDex.f_raw
                 (MasterDex.r_data (Reading.responseAt host q (fetched, url, checked) nowv))
             = returned)
      /\ (0 < limit ->
          returned = firstn (Z.to_nat limit) sorted
          /\ List.length returned = Nat.min (Z.to_nat limit) (List.length filtered)
          /\ (forall a b, In a returned -> In b (skipn (Z.to_nat limit) sorted) ->
                          Reading.notOlder host a b))
      /\ (limit <= 0 -> returned = sorted)
      /\ (q_limit q = None -> limit = 20))
  /\ map time (MasterDex.selectResults Demo.host (Demo.noFilter None) Demo.trades3)
     = [Demo.T1; Demo.T2; Demo.T3]
  /\ map time (MasterDex.selectResults Demo.hostByLength (Demo.noFilter (Some 20)) Demo.fifty)
     = map Demo.stars (rev (seq 31 20)).
Proof.
  split; [|split; [reflexivity | vm_compute; reflexivity]].
  intros host q fetched filtered sorted limit returned.
  split; [apply SortFacts.sortByTimeDesc_perm|].
  split; [apply SortFacts.sortByTimeDesc_sorted|].
  split; [intros k; apply SortFacts.sortByTimeDesc_stable|].
  split; [intros url checked nowv; apply SortFacts.raw_formatAt|].
  split; [|split].
  - intros Hpos.
    assert (Hcut : returned = firstn (Z.to_nat limit) sorted)
      by (apply SortFacts.applyLimit_positive, Hpos).
    split; [exact Hcut|]. split.
    + rewrite Hcut, length_firstn. unfold sorted.
      now rewrite (Permutation_length (SortFacts.sortByTimeDesc_perm host filtered)).
    + intros a b Ha Hb. rewrite Hcut in Ha.
      eapply SortFacts.sorted_prefix_dominates;
        [apply SortFacts.sortByTimeDesc_sorted | exact Ha | exact Hb].
  - intros Hle. apply SortFacts.applyLimit_not_positive, Hle.
  - intros Hnone. subst limit. unfold MasterDex.limitOf. now rewrite Hnone.
Qed.

Lemma returned_records_sorted_then_cut_witness :
  let q := Demo.noFilter (Some 2) in
  MasterDex.selectResults Demo.host q Demo.trades3
  = firstn 2 (MasterDex.sortByTimeDesc Demo.host Demo.trades3)
  /\ List.length (MasterDex.selectResults Demo.host q Demo.trades3) = 2%nat
  /\ MasterDex.limitOf (Demo.noFilter None) = 20.
Proof.
  cbv zeta.
  pose proof (proj1 returned_records_sorted_then_cut
                    Demo.host (Demo.noFilter (Some 2)) Demo.trades3) as H.
  cbv zeta in H. destruct H as (_ & _ & _ & _ & Hpos & _ & _).
  destruct (Hpos eq_refl) as (Hcut & Hlen & _).
  split; [exact Hcut|]. split; [exact Hlen|].
  apply (proj1 returned_records_sorted_then_cut
               Demo.host (Demo.noFilter None) Demo.trades3).
  reflexivity.
Defined.

(** C7 (counterexample): with [limit: 0] nothing is cut: the three fetched
    trades all come back, so the returned sequence is longer than the
    requested limit. *)
Lemma zero_limit_returns_everything :
  MasterDex.limitOf (Demo.noFilter (Some 0)) = 0
  /\ map time (MasterDex.selectResults Demo.host (Demo.noFilter (Some 0)) Demo.trades3)
     = [Demo.T1; Demo.T2; Demo.T3]
  /\ (exists r w',
         MasterDex.execute Demo.host Demo.netAll (Demo.noFilter (Some 0)) Demo.w0
         = (Normal (MasterDex.Success r), w')
         /\ MasterDex.r_count r = 3%nat
         /\ ~ (Z.of_nat (List.length (MasterDex.r_data r))
               <= MasterDex.limitOf (Demo.noFilter (Some 0)))).
Proof.
  split; [reflexivity|]. split; [reflexivity|].
  do 2 eexists. split; [vm_compute; reflexivity|].
  split; [reflexivity|]. vm_compute. intros H. apply H. reflexivity.
Qed.

(* ================================================================== *)
(** ** The cross-chain search and the failures it swallows *)
(* ================================================================== *)

Module SearchFacts.

Import MasterDex Reading.

Section Net.

Variable net : Net.

(** One pass of the loop over the chains never throws and always lists
    its chain as checked. *)
Lemma searchChain_total (token : string) (acc : list MasterDexTrade * list string)
      (chain : string) (w : World) :
  exists allResults w',
    searchChain net token acc chain w
    = (Normal (allResults, snd acc ++ [chain]), w').
Proof.
  destruct acc as [allResults chainsChecked]. unfold searchChain, tryCatch.
  unfold bind at 1.
  destruct (fetchWithRetry net (chainUrl chain) w) as [[r|e] w'];
    [|do 2 eexists; reflexivity].
  unfold bind at 1, json.
  destruct (body r) as [e| |trades]; do 2 eexists; reflexivity.
Qed.

(** A pass whose fetch fails leaves the results as they were. *)
Lemma searchChain_failed (token : string) (acc : list MasterDexTrade * list string)
      (chain : string) (w w' : World) (e : Thrown) :
  fetchWithRetry net (chainUrl chain) w = (Throw e, w') ->
  searchChain net token acc chain w = (Normal (fst acc, snd acc ++ [chain]), w').
Proof.
  intros H. destruct acc as [allResults chainsChecked].
  unfold searchChain, tryCatch. unfold bind at 1. rewrite H. reflexivity.
Qed.






End Net.


End SearchFacts.

(* ================================================================== *)
(** ** What the cross-chain search collects *)
(* ================================================================== *)

Module CollectFacts.

Import MasterDex Reading.

Section Net.

Variable net : Net.

(** One pass of the loop: it never throws, appends the chain's contribution
    to the results and the chain to the chains checked. *)
Lemma searchChain_contribution (token : string)
      (acc : list MasterDexTrade * list string) (chain : string) (w : World) :
  searchChain net token acc chain w
  = (Normal (fst acc ++ chainContribution net token chain w, snd acc ++ [chain]),
     snd (fetchWithRetry net (chainUrl chain) w)).
Proof.
  destruct acc as [allResults chainsChecked]. unfold searchChain, tryCatch, chainContribution.
  unfold bind at 1. cbn [fst snd].
  destruct (fetchWithRetry net (chainUrl chain) w) as [[r|e] w1]; cbn [snd];
    [|now rewrite app_nil_r].
  unfold bind, json.
  destruct (body r) as [e| |trades]; cbn [throw ret]; try (now rewrite app_nil_r).
  destruct (filter (tokenMatches (JS.trim (JS.toLowerCase token))) trades) as [|t rest];
    cbn [List.length Nat.ltb Nat.leb]; [now rewrite app_nil_r | reflexivity].
Qed.

Lemma forEachChain_collected (token : string) (chains : list string) :
  forall acc w,
    forEachChain net token chains acc w
    = (Normal (fst acc ++ collected net token chains w, snd acc ++ chains),
       worldAfter net chains w).
Proof.
  induction chains as [|chain rest IH]; intros acc w; cbn [forEachChain collected worldAfter].
  - rewrite !app_nil_r. destruct acc; reflexivity.
  - unfold bind. rewrite searchChain_contribution, IH. cbn [fst snd].
    now rewrite <- !app_assoc.
Qed.

(** The fetch step of the cross-chain search: it never throws, whatever the
    sources do. *)
Lemma fetchResults_collected (q : Query) (token : string) (w : World) :
  JS.truthy (q_chain q) = None ->
  JS.truthy (q_token q) = Some token ->
  JS.truthy (q_pair q) = None ->
  fetchResults net q w
  = (Normal (collected net token supportedChains w, "multi-chain-search", supportedChains),
     worldAfter net supportedChains w).
Proof.
  intros Hc Ht Hp. unfold fetchResults. rewrite Hc, Ht, Hp.
  unfold bind, searchTokenAcrossChains. rewrite forEachChain_collected. reflexivity.
Qed.

End Net.

End CollectFacts.

(** C2 (as amended): in the cross-chain token search (a token, no chain, no
    pair) a source whose fetch fails does not abort the call.  Every pass of
    the loop ends normally: it appends the chain's contribution to the
    results (nothing for a source whose fetch failed, the matching trades of
    its body for a source that answered) and lists the chain in
    [chainsChecked] either way.  So the fetch step never throws: it returns
    the contributions of all the supported chains, in order, and all of them
    as checked.  [execute] then returns a [success: true] object over those
    records, with [chainsChecked] the full list of supported chains; the only
    failure object on this path is the one for the [TypeError] of the
    grouping, when a returned record would be filed under a name inherited
    from [Object.prototype].  Neither object has a [failedSources] property:
    the failure of a source and its reason are not recorded in the result. *)
Theorem cross_chain_search_survives_failures
        (host : Host) (net : Net) (q : Query) (token : string) (w : World) :
  JS.truthy (q_chain q) = None ->
  JS.truthy (q_token q) = Some token ->
  JS.truthy (q_pair q) = None ->
  (forall acc chain w1,
      MasterDex.searchChain net token acc chain w1
      = (Normal (fst acc ++ Reading.chainContribution net token chain w1,
                 snd acc ++ [chain]),
         snd (MasterDex.fetchWithRetry net (MasterDex.chainUrl chain) w1)))
  /\ (forall chain w1 w2 e,
         MasterDex.fetchWithRetry net (MasterDex.chainUrl chain) w1 = (Throw e, w2) ->
         Reading.chainContribution net token chain w1 = [])
  /\ (forall chain w1 w2 response trades,
         MasterDex.fetchWithRetry net (MasterDex.chainUrl chain) w1 = (Normal response, w2) ->
         body response = JsonData trades ->
         Reading.chainContribution net token chain w1
         = filter (MasterDex.tokenMatches (JS.trim (JS.toLowerCase token))) trades)
  /\ MasterDex.fetchResults net q w
     = (Normal (Reading.collected net token supportedChains w,
                "multi-chain-search", supportedChains),
        Reading.worldAfter net supportedChains w)
  /\ (Reading.hasInheritedName q
        (MasterDex.selectResults host q (Reading.collected net token supportedChains w))
      = false ->
      exists r,
        MasterDex.execute host net q w
        = (Normal (MasterDex.Success r), Reading.worldAfter net supportedChains w)
        /\ MasterDex.r_chainsChecked r = supportedChains
        /\ map MasterDex.f_raw (MasterDex.r_data r)
           = MasterDex.selectResults host q (Reading.collected net token supportedChains w)
        /\ ~ In "failedSources" (MasterDex.keys (MasterDex.Success r)))
  /\ (Reading.hasInheritedName q
        (MasterDex.selectResults host q (Reading.collected net token supportedChains w))
      = true ->
      MasterDex.execute host net q w
      = (Normal (MasterDex.Failure
                   (MasterDex.failureData host q (MasterDex.pushError host)
                      (now (Reading.worldAfter net supportedChains w)))),
         Reading.worldAfter net supportedChains w))
  /\ (forall f, ~ In "failedSources" (MasterDex.keys (MasterDex.Failure f))).
Proof.
  intros Hc Ht Hp.
  split; [intros acc chain w1; apply CollectFacts.searchChain_contribution|].
  split; [intros chain w1 w2 e H; unfold Reading.chainContribution; now rewrite H|].
  split; [intros chain w1 w2 response trades H Hb; unfold Reading.chainContribution;
          now rewrite H, Hb|].
  pose proof (CollectFacts.fetchResults_collected net q token w Hc Ht Hp) as Hf.
  split; [exact Hf|]. split; [|split].
  - intros Hnames. rewrite ExecFacts.execute_run, Hf. unfold Reading.outcomeAt.
    cbn [fst]. rewrite Hnames. eexists. split; [reflexivity|].
    split; [reflexivity|]. split; [apply SortFacts.raw_formatAt|].
    cbn. intuition discriminate.
  - intros Hnames. rewrite ExecFacts.execute_run, Hf. unfold Reading.outcomeAt.
    cbn [fst]. rewrite Hnames. reflexivity.
  - intros f. cbn. intuition discriminate.
Qed.

Lemma cross_chain_search_survives_failures_witness :
  Reading.chainContribution Demo.netEthDown "weth" "ethereum" Demo.w0 = []
  /\ Reading.chainContribution Demo.netEthDown "weth" "base" Demo.w0 = Demo.trades3
  /\ exists r w',
       MasterDex.execute Demo.host Demo.netEthDown (Demo.tokenOnly "weth") Demo.w0
       = (Normal (MasterDex.Success r), w')
       /\ MasterDex.r_chainsChecked r = supportedChains
       /\ List.length (MasterDex.r_data r) = 18%nat
       /\ ~ In "failedSources" (MasterDex.keys (MasterDex.Success r)).
Proof.
  destruct (cross_chain_search_survives_failures
              Demo.host Demo.netEthDown (Demo.tokenOnly "weth") "weth" Demo.w0
              eq_refl eq_refl eq_refl)
    as (_ & Hfail & Hok & _ & Hsuccess & _ & _).
  split.
  - apply (Hfail "ethereum" Demo.w0
                 (mkWorld (now Demo.w0 + 3000) (repeat (MasterDex.chainUrl "ethereum") 3)
                          [1000; 2000])
                 (newError "Failed after 3 attempts. Last error: read ECONNRESET")).
    vm_compute. reflexivity.
  - split.
    + transitivity (filter (MasterDex.tokenMatches (JS.trim (JS.toLowerCase "weth")))
                           Demo.trades3); [|reflexivity].
      apply (Hok "base" Demo.w0
                 (mkWorld (now Demo.w0) [MasterDex.chainUrl "base"] [])
                 {| status := 200; statusText := "OK"; body := JsonData Demo.trades3 |});
        [vm_compute; reflexivity | reflexivity].
    + destruct (Hsuccess ltac:(vm_compute; reflexivity)) as (r & Hrun & Hchecked & Hraw & Hkeys).
      exists r. eexists. split; [exact Hrun|]. split; [exact Hchecked|].
      split; [|exact Hkeys].
      rewrite <- (length_map MasterDex.f_raw), Hraw. vm_compute. reflexivity.
Defined.

(** C2 (counterexample): the Ethereum endpoint resets every connection, so
    its three attempts are used up; the other six endpoints answer.  The
    call returns the 18 matching trades of the six (cut to none by the limit
    of 20), lists Ethereum in [chainsChecked] with the others, and the
    returned object has no [failedSources] property and no failure reason. *)
Lemma exhausted_source_is_not_recorded :
  MasterDex.fetchWithRetry Demo.netEthDown (MasterDex.chainUrl "ethereum") Demo.w0
  = (Throw (newError "Failed after 3 attempts. Last error: read ECONNRESET"),
     {| now := now Demo.w0 + 3000;
        requests := repeat (MasterDex.chainUrl "ethereum") 3;
        sleeps := [1000; 2000] |})
  /\ (exists r w',
         MasterDex.execute Demo.host Demo.netEthDown (Demo.tokenOnly "weth") Demo.w0
         = (Normal (MasterDex.Success r), w')
         /\ MasterDex.keys (MasterDex.Success r)
            = ["success"; "data"; "dataByChain"; "count"; "totalFetched"; "message";
               "source"; "url"; "supportedChains"; "filteredChain"; "endpointUsed";
               "chainsChecked"; "filters"; "availableSymbols"; "timestamp"]
         /\ MasterDex.r_chainsChecked r = supportedChains
         /\ MasterDex.r_count r = 18%nat
         /\ MasterDex.r_message r = "Found 18 trades matching your criteria").
Proof.
  split; [vm_compute; reflexivity|].
  do 2 eexists. split; [vm_compute; reflexivity|].
  repeat split; vm_compute; reflexivity.
Qed.




(* ================================================================== *)
(** ** The token stage and the symbols preview *)
(* ================================================================== *)

Module TokenFacts.

Import MasterDex Reading.

(** Without a chain in the query the token stage is skipped: the filters
    act as if the query had no token. *)
Lemma applyFilters_ignores_token_without_chain (q : Query)
      (results : list MasterDexTrade) :
  JS.truthy (q_chain q) = None ->
  applyFilters q results
  = applyFilters {| q_chain := q_chain q; q_token := None; q_pair := q_pair q;
                    q_minValue := q_minValue q; q_limit := q_limit q;
                    q_tradeType := q_tradeType q |} results.
Proof.
  intros H. unfold applyFilters. cbn [q_chain q_token q_pair q_minValue q_tradeType].
  rewrite H. destruct (JS.truthy (q_token q)); reflexivity.
Qed.

(** With a chain, the token stage keeps the trades one of whose symbols
    contains the token, both in lower case. *)
Lemma applyFilters_token_with_chain (chain token : string)
      (results : list MasterDexTrade) :
  JS.truthy (Some chain) = Some chain ->
  JS.truthy (Some token) = Some token ->
  applyFilters {| q_chain := Some chain; q_token := Some token; q_pair := None;
                  q_minValue := None; q_limit := None; q_tradeType := None |} results
  = filter (tokenMatches (JS.trim (JS.toLowerCase token))) results.
Proof.
  intros Hc Ht. unfold applyFilters. cbn [q_chain q_token q_pair q_minValue q_tradeType].
  rewrite Hc, Ht. reflexivity.
Qed.


Lemma setAdd_not_empty (x : string) (symbols : list string) : setAdd x symbols <> [].
Proof.
  unfold setAdd. destruct symbols as [|y rest]; cbn; [discriminate|].
  destruct (_ || _); [discriminate|]. discriminate.
Qed.

Lemma addSymbols_keeps_not_empty (symbols : list string) (trade : MasterDexTrade) :
  symbols <> [] -> addSymbols symbols trade <> [].
Proof.
  intros H. unfold addSymbols.
  destruct (JS.truthy (symbol1 trade)); [apply setAdd_not_empty|].
  destruct (JS.truthy (symbol0 trade)); [apply setAdd_not_empty | exact H].
Qed.

Lemma addSymbols_not_empty (symbols : list string) (trade : MasterDexTrade) :
  JS.truthy (symbol0 trade) <> None \/ JS.truthy (symbol1 trade) <> None ->
  addSymbols symbols trade <> [].
Proof.
  intros H. unfold addSymbols.
  destruct (JS.truthy (symbol1 trade)); [apply setAdd_not_empty|].
  destruct (JS.truthy (symbol0 trade)); [apply setAdd_not_empty|].
  destruct H as [H|H]; congruence.
Qed.

Lemma fold_addSymbols_keeps_not_empty (trades : list MasterDexTrade) :
  forall symbols, symbols <> [] -> fold_left addSymbols trades symbols <> [].
Proof.
  induction trades as [|t rest IH]; intros symbols H; [exact H|].
  cbn [fold_left]. apply IH, addSymbols_keeps_not_empty, H.
Qed.

Lemma fold_addSymbols_not_empty (trades : list MasterDexTrade) (trade : MasterDexTrade) :
  In trade trades ->
  JS.truthy (symbol0 trade) <> None \/ JS.truthy (symbol1 trade) <> None ->
  forall symbols, fold_left addSymbols trades symbols <> [].
Proof.
  intros Hin Hsym.
  induction trades as [|t rest IH]; [destruct Hin|]. intros symbols. cbn [fold_left].
  destruct Hin as [->|Hin]; [|apply IH, Hin].
  apply fold_addSymbols_keeps_not_empty, addSymbols_not_empty, Hsym.
Qed.

Lemma sortStrings_not_empty (xs : list string) : xs <> [] -> sortStrings xs <> [].
Proof.
  destruct xs as [|x rest]; [congruence|]. intros _. cbn.
  destruct (fold_right insertString [] rest) as [|y ys]; cbn; [discriminate|].
  destruct (x <=? y)%string; discriminate.
Qed.

(** A trade with a symbol leaves a symbol in [getUniqueSymbols]. *)
Lemma getUniqueSymbols_not_empty (trades : list MasterDexTrade) :
  (exists trade, In trade trades /\
                 (JS.truthy (symbol0 trade) <> None \/ JS.truthy (symbol1 trade) <> None)) ->
  getUniqueSymbols trades <> [].
Proof.
  intros (trade & Hin & Hsym). unfold getUniqueSymbols.
  apply sortStrings_not_empty. eapply fold_addSymbols_not_empty; eassumption.
Qed.

(** Where [execute] takes the symbols from the fetched records (a chain in
    the query, or the multi-chain endpoint), a selection that keeps nothing
    gives no record, count 0 and a preview that is not empty as soon as one
    fetched trade has a symbol. *)
Lemma zero_match_preview_from_fetched (host : Host) (q : Query)
      (fetched : list MasterDexTrade) (url : string) (checked : list string) (nowv : Z) :
  (exists trade, In trade fetched /\
                 (JS.truthy (symbol0 trade) <> None \/ JS.truthy (symbol1 trade) <> None)) ->
  selectResults host q fetched = [] ->
  r_data (responseAt host q (fetched, url, checked) nowv) = []
  /\ r_count (responseAt host q (fetched, url, checked) nowv) = 0%nat
  /\ r_availableSymbols (responseAt host q (fetched, url, checked) nowv)
     = firstn 20 (getUniqueSymbols fetched)
  /\ r_availableSymbols (responseAt host q (fetched, url, checked) nowv) <> [].
Proof.
  intros Hsym Hempty. unfold responseAt, responseData.
  cbn [r_data r_count r_availableSymbols]. rewrite Hempty.
  split; [reflexivity|]. split; [reflexivity|]. split; [reflexivity|].
  unfold JS.slice0. cbn [Z.leb Z.compare Z.to_nat].
  pose proof (getUniqueSymbols_not_empty fetched Hsym) as Hne.
  destruct (getUniqueSymbols fetched); [congruence | discriminate].
Qed.

End TokenFacts.

(** C3 (evaluation of the code): with a token and a pair but no chain the
    tool asks the multi-chain endpoint and skips the token stage.  For the
    token [usdc] and the pair [weth/dai] it returns the WETH/DAI trade,
    neither symbol of which contains [usdc]; the token stage would have left
    nothing, and does leave nothing when the same query names a chain.  In
    general, without a chain the filters do not look at the token. *)
Theorem token_stage_skipped_without_chain :
  (exists r w',
      MasterDex.execute Demo.host Demo.netAll (Demo.tokenAndPair "usdc" "weth/dai") Demo.w0
      = (Normal (MasterDex.Success r), w')
      /\ MasterDex.r_url r = MasterDex.multiChainUrl
      /\ map MasterDex.f_pair (MasterDex.r_data r) = ["WETH/DAI"]
      /\ MasterDex.tokenStage "usdc" (map MasterDex.f_raw (MasterDex.r_data r)) = [])
  /\ (exists r w',
         MasterDex.execute Demo.host Demo.netAll
           {| q_chain := Some "base"; q_token := Some "usdc"; q_pair := Some "weth/dai";
              q_minValue := None; q_limit := None; q_tradeType := None |} Demo.w0
         = (Normal (MasterDex.Success r), w')
         /\ MasterDex.r_data r = [])
  /\ (forall q results,
         JS.truthy (q_chain q) = None ->
         MasterDex.applyFilters q results
         = MasterDex.applyFilters
             {| q_chain := q_chain q; q_token := None; q_pair := q_pair q;
                q_minValue := q_minValue q; q_limit := q_limit q;
                q_tradeType := q_tradeType q |} results).
Proof.
  split; [|split].
  - do 2 eexists. split; [vm_compute; reflexivity|].
    repeat split; vm_compute; reflexivity.
  - do 2 eexists. split; [vm_compute; reflexivity|]. reflexivity.
  - exact TokenFacts.applyFilters_ignores_token_without_chain.
Qed.

(** C9 (evaluation of the code): every endpoint answers with three trades
    and the token [zzz] matches none of them.  Asked without a chain, the
    tool returns [success: true], no record, count 0 and an EMPTY
    [availableSymbols] (the message ends after "Available symbols: "): the
    symbols are taken from the records the cross-chain search had already
    filtered by the token.  Asked for the chain [base], the same token gives
    no record either, but the preview lists the four symbols fetched. *)
Theorem zero_match_preview_empty_in_cross_chain_search :
  (exists r w',
      MasterDex.execute Demo.host Demo.netAll (Demo.tokenOnly "zzz") Demo.w0
      = (Normal (MasterDex.Success r), w')
      /\ MasterDex.r_data r = []
      /\ MasterDex.r_count r = 0%nat
      /\ MasterDex.r_availableSymbols r = []
      /\ MasterDex.r_message r
         = "No trades found matching your criteria. Available symbols: "
      /\ List.length (requests w') = 7%nat)
  /\ (exists r w',
         MasterDex.execute Demo.host Demo.netAll (Demo.tokenOnChain "base" "zzz") Demo.w0
         = (Normal (MasterDex.Success r), w')
         /\ MasterDex.r_data r = []
         /\ MasterDex.r_count r = 0%nat
         /\ MasterDex.r_availableSymbols r = ["DAI"; "LCX"; "USDC"; "WETH"]).
Proof.
  split.
  - do 2 eexists. split; [vm_compute; reflexivity|].
    repeat split; vm_compute; reflexivity.
  - do 2 eexists. split; [vm_compute; reflexivity|].
    repeat split; vm_compute; reflexivity.
Qed.

(* ================================================================== *)
(** ** The retry loop pass by pass *)
(* ================================================================== *)

Module PassFacts.

Import MasterDex Props.

Lemma count_after_request (log : list string) (url : string) :
  count_occ string_dec (log ++ [url]) url = S (count_occ string_dec log url).
Proof.
  rewrite count_occ_app. cbn. destruct (string_dec url url); [lia | congruence].
Qed.

(** A pass that gets an [ok] response returns it. *)
Lemma pass_ok (net : Net) (url : string) (maxRetries remaining attempt : nat)
      (delay : Z) (w : World) (r : Response) :
  nextOutcome net url w 0 = Responds r ->
  ok r = true ->
  fetchWithRetry_loop net url maxRetries (S remaining) attempt delay w
  = (Normal r, mkWorld (now w) (requests w ++ [url]) (sleeps w)).
Proof.
  unfold nextOutcome. rewrite Nat.add_0_r. intros Hnet Hok.
  cbn [fetchWithRetry_loop]. unfold tryCatch, bind, fetch.
  rewrite Hnet, Hok. reflexivity.
Qed.

(** A pass that ends in an error: the last pass wraps it, an earlier pass
    waits and goes on for a connection error and rethrows anything else. *)
Lemma pass_error (net : Net) (url : string) (maxRetries remaining attempt : nat)
      (delay : Z) (w : World) (e : Thrown) :
  attemptError (nextOutcome net url w 0) = Some e ->
  fetchWithRetry_loop net url maxRetries (S remaining) attempt delay w
  = if (attempt =? maxRetries)%nat
    then (Throw (newError ("Failed after " ++ JS.showNat maxRetries
                             ++ " attempts. Last error: "
                             ++ messageOr "Unknown error" e)%string),
          mkWorld (now w) (requests w ++ [url]) (sleeps w))
    else if isConnectionError e
         then fetchWithRetry_loop net url maxRetries remaining (S attempt) (delay * 2)
                (mkWorld (now w + delay) (requests w ++ [url]) (sleeps w ++ [delay]))
         else (Throw e, mkWorld (now w) (requests w ++ [url]) (sleeps w)).
Proof.
  unfold nextOutcome, attemptError. rewrite Nat.add_0_r. intros Herr.
  cbn [fetchWithRetry_loop]. unfold tryCatch, bind at 1, fetch.
  destruct (net url _) as [r|e0].
  - destruct (ok r); [discriminate|]. injection Herr as <-. cbn [throw].
    destruct (attempt =? maxRetries)%nat; [reflexivity|].
    destruct (isConnectionError _); reflexivity.
  - injection Herr as <-.
    destruct (attempt =? maxRetries)%nat; [reflexivity|].
    destruct (isConnectionError e0); reflexivity.
Qed.

(** The outcomes seen from a world that has made one more request of [url]. *)
Lemma nextOutcome_after_request (net : Net) (url : string) (w : World) (i : nat)
      (nowv : Z) (sl : list Z) :
  nextOutcome net url (mkWorld nowv (requests w ++ [url]) sl) i
  = nextOutcome net url w (S i).
Proof.
  unfold nextOutcome. cbn [requests]. rewrite count_after_request.
  f_equal. lia.
Qed.

End PassFacts.

(** X1: when the first two attempts of [fetchWithRetry] end in connection
    errors and the third gets an [ok] response, that response is returned
    after three requests of the URL and two waits, of 1000 ms and 2000 ms. *)
Theorem third_attempt_recovers
        (net : Net) (url : string) (w : World) (e1 e2 : Thrown) (r : Response) :
  Props.attemptError (Props.nextOutcome net url w 0) = Some e1 ->
  MasterDex.isConnectionError e1 = true ->
  Props.attemptError (Props.nextOutcome net url w 1) = Some e2 ->
  MasterDex.isConnectionError e2 = true ->
  Props.nextOutcome net url w 2 = Responds r ->
  ok r = true ->
  MasterDex.fetchWithRetry net url w
  = (Normal r,
     mkWorld (now w + 1000 + 2000) (requests w ++ [url; url; url])
             (sleeps w ++ [1000; 2000])).
Proof.
  intros H1 C1 H2 C2 H3 Hok.
  unfold MasterDex.fetchWithRetry, MasterDex.fetchWithRetry'.
  rewrite (PassFacts.pass_error net url 3 2 1 1000 w e1 H1). cbn [Nat.eqb]. rewrite C1.
  rewrite (PassFacts.pass_error net url 3 1 2 (1000 * 2) _ e2)
    by (rewrite PassFacts.nextOutcome_after_request; exact H2).
  cbn [Nat.eqb]. rewrite C2.
  rewrite (PassFacts.pass_ok net url 3 0 3 _ _ r);
    [| rewrite !PassFacts.nextOutcome_after_request; exact H3 | exact Hok].
  cbn [now requests sleeps]. rewrite <- !app_assoc. reflexivity.
Qed.

Lemma third_attempt_recovers_witness :
  MasterDex.fetchWithRetry
    (fun _ k => match k with
                | 0%nat => Demo.connReset
                | 1%nat => Rejects (ErrorObj "AbortError" "This operation was aborted")
                | _ => Demo.okResponse Demo.trades3
                end)
    MasterDex.multiChainUrl Demo.w0
  = (Normal {| status := 200; statusText := "OK"; body := JsonData Demo.trades3 |},
     mkWorld (now Demo.w0 + 1000 + 2000)
             (requests Demo.w0
              ++ [MasterDex.multiChainUrl; MasterDex.multiChainUrl; MasterDex.multiChainUrl])
             (sleeps Demo.w0 ++ [1000; 2000])).
Proof.
  apply (third_attempt_recovers _ _ _
           (ErrorObj "Error" "read ECONNRESET")
           (ErrorObj "AbortError" "This operation was aborted"));
    reflexivity.
Defined.

(** X2: when the first two attempts end in connection errors and the third
    ends in any error at all (a rejection or a response that is not [ok]),
    [fetchWithRetry] throws a new [Error] whose message is "Failed after 3
    attempts. Last error: " followed by the third error's message; it made
    three requests and two waits, and does not wait after the last attempt. *)
Theorem three_failures_exhaust
        (net : Net) (url : string) (w : World) (e1 e2 e3 : Thrown) :
  Props.attemptError (Props.nextOutcome net url w 0) = Some e1 ->
  MasterDex.isConnectionError e1 = true ->
  Props.attemptError (Props.nextOutcome net url w 1) = Some e2 ->
  MasterDex.isConnectionError e2 = true ->
  Props.attemptError (Props.nextOutcome net url w 2) = Some e3 ->
  MasterDex.fetchWithRetry net url w
  = (Throw (newError ("Failed after 3 attempts. Last error: "
                        ++ messageOr "Unknown error" e3)%string),
     mkWorld (now w + 1000 + 2000) (requests w ++ [url; url; url])
             (sleeps w ++ [1000; 2000])).
Proof.
  intros H1 C1 H2 C2 H3.
  unfold MasterDex.fetchWithRetry, MasterDex.fetchWithRetry'.
  rewrite (PassFacts.pass_error net url 3 2 1 1000 w e1 H1). cbn [Nat.eqb]. rewrite C1.
  rewrite (PassFacts.pass_error net url 3 1 2 (1000 * 2) _ e2)
    by (rewrite PassFacts.nextOutcome_after_request; exact H2).
  cbn [Nat.eqb]. rewrite C2.
  rewrite (PassFacts.pass_error net url 3 0 3 _ _ e3)
    by (rewrite !PassFacts.nextOutcome_after_request; exact H3).
  cbn [Nat.eqb now requests sleeps]. rewrite <- !app_assoc. reflexivity.
Qed.

Lemma three_failures_exhaust_witness :
  MasterDex.fetchWithRetry
    (fun _ k => match k with
                | 2%nat => Demo.http500
                | _ => Demo.connReset
                end)
    MasterDex.multiChainUrl Demo.w0
  = (Throw (newError "Failed after 3 attempts. Last error: HTTP 500: Internal Server Error"),
     mkWorld (now Demo.w0 + 1000 + 2000)
             (requests Demo.w0
              ++ [MasterDex.multiChainUrl; MasterDex.multiChainUrl; MasterDex.multiChainUrl])
             (sleeps Demo.w0 ++ [1000; 2000])).
Proof.
  apply (three_failures_exhaust _ _ _
           (ErrorObj "Error" "read ECONNRESET") (ErrorObj "Error" "read ECONNRESET")
           (newError "HTTP 500: Internal Server Error"));
    reflexivity.
Defined.

(* ================================================================== *)
(** ** The retry loop as a whole *)
(* ================================================================== *)

Module ScheduleFacts.

Import MasterDex Props.

Lemma attemptError_none (o : FetchOutcome) :
  attemptError o = None -> exists r, o = Responds r /\ ok r = true.
Proof.
  destruct o as [r|e]; cbn; [|discriminate].
  destruct (ok r) eqn:Hok; [|discriminate]. intros _. exists r. split; [reflexivity | exact Hok].
Qed.

Lemma backoff_shift (delay : Z) (m : nat) :
  map (backoff (delay * 2)) (seq 0 m) = map (backoff delay) (seq 1 m).
Proof.
  rewrite <- seq_shift, map_map. apply map_ext. intros i. unfold backoff.
  rewrite Nat2Z.inj_succ, Z.pow_succ_r by lia. ring.
Qed.

(** What the loop returns is an [ok] response among the next outcomes. *)
Lemma loop_returns_ok (net : Net) (url : string) (maxRetries remaining : nat) :
  forall attempt delay w r w',
    fetchWithRetry_loop net url maxRetries remaining attempt delay w = (Normal r, w') ->
    ok r = true /\ exists i, (i < remaining)%nat /\ nextOutcome net url w i = Responds r.
Proof.
  induction remaining as [|remaining IH]; intros attempt delay w r w';
    [cbn; discriminate|].
  destruct (attemptError (nextOutcome net url w 0)) as [e|] eqn:Herr.
  - rewrite (PassFacts.pass_error _ _ _ _ _ _ _ _ Herr).
    destruct (attempt =? maxRetries)%nat; [discriminate|].
    destruct (isConnectionError e); [|discriminate].
    intros Hrun. destruct (IH _ _ _ _ _ Hrun) as (Hok & i & Hi & Hnet).
    split; [exact Hok|]. exists (S i). split; [lia|].
    rewrite PassFacts.nextOutcome_after_request in Hnet. exact Hnet.
  - destruct (attemptError_none _ Herr) as (r0 & Hnet & Hok).
    rewrite (PassFacts.pass_ok _ _ _ _ _ _ _ _ Hnet Hok). intros [= <- _].
    split; [exact Hok|]. exists 0%nat. split; [lia | exact Hnet].
Qed.

(** Requests, waits and clock of the loop when its pass counter is in step
    with the passes left. *)
Lemma loop_schedule (net : Net) (url : string) (maxRetries remaining : nat) :
  forall attempt delay w,
    (attempt + remaining = S maxRetries)%nat ->
    (1 <= remaining)%nat ->
    exists m,
      (m < remaining)%nat /\
      let w' := snd (fetchWithRetry_loop net url maxRetries remaining attempt delay w) in
      requests w' = requests w ++ repeat url (S m)
      /\ sleeps w' = sleeps w ++ map (backoff delay) (seq 0 m)
      /\ now w' = now w + delay * (2 ^ Z.of_nat m - 1).
Proof.
  induction remaining as [|remaining IH]; intros attempt delay w Hinv Hpos; [lia|].
  assert (Hstop : forall c : Completion Response,
             exists m, (m < S remaining)%nat /\
               let w' := snd (c, mkWorld (now w) (requests w ++ [url]) (sleeps w)) in
               requests w' = requests w ++ repeat url (S m)
               /\ sleeps w' = sleeps w ++ map (backoff delay) (seq 0 m)
               /\ now w' = now w + delay * (2 ^ Z.of_nat m - 1)).
  { intros c. exists 0%nat. split; [lia|]. cbn. rewrite app_nil_r.
    repeat split. lia. }
  destruct (attemptError (nextOutcome net url w 0)) as [e|] eqn:Herr.
  - rewrite (PassFacts.pass_error _ _ _ _ _ _ _ _ Herr).
    destruct (Nat.eqb_spec attempt maxRetries) as [Hlast|Hmore]; [apply Hstop|].
    destruct (isConnectionError e); [|apply Hstop].
    destruct (IH (S attempt) (delay * 2)
                 (mkWorld (now w + delay) (requests w ++ [url]) (sleeps w ++ [delay])))
      as (m & Hm & Hreq & Hsl & Hnow); [lia | lia |].
    cbv zeta in Hreq, Hsl, Hnow. cbn [now requests sleeps] in Hreq, Hsl, Hnow.
    exists (S m). split; [lia|]. cbv zeta. rewrite Hreq, Hsl, Hnow.
    repeat split.
    + rewrite <- app_assoc. reflexivity.
    + rewrite <- app_assoc. f_equal. cbn [seq map app]. rewrite backoff_shift.
      f_equal. unfold backoff. cbn [Z.of_nat]. rewrite Z.pow_0_r. ring.
    + rewrite Nat2Z.inj_succ, Z.pow_succ_r by lia. ring.
  - destruct (attemptError_none _ Herr) as (r0 & Hnet & Hok).
    rewrite (PassFacts.pass_ok _ _ _ _ _ _ _ _ Hnet Hok). apply Hstop.
Qed.

End ScheduleFacts.

(** X3: whatever the network does, a response that [fetchWithRetry] returns
    is [ok] (status 200 to 299) and is the network's answer to one of the
    first three requests of that URL: a response that is not [ok] is never
    handed to the caller. *)
Theorem fetchWithRetry_returns_only_ok
        (net : Net) (url : string) (w w' : World) (r : Response) :
  MasterDex.fetchWithRetry net url w = (Normal r, w') ->
  ok r = true
  /\ exists i, (i < 3)%nat /\ Props.nextOutcome net url w i = Responds r.
Proof.
  intros H. exact (ScheduleFacts.loop_returns_ok net url 3 3 1 1000 w r w' H).
Qed.

Lemma fetchWithRetry_returns_only_ok_witness :
  ok {| status := 200; statusText := "OK"; body := JsonData [] |} = true
  /\ exists i, (i < 3)%nat /\
               Props.nextOutcome Demo.netReset MasterDex.multiChainUrl Demo.w0 i
               = Responds {| status := 200; statusText := "OK"; body := JsonData [] |}.
Proof.
  apply (fetchWithRetry_returns_only_ok Demo.netReset MasterDex.multiChainUrl Demo.w0
           (mkWorld (now Demo.w0 + 1000)
                    [MasterDex.multiChainUrl; MasterDex.multiChainUrl] [1000])).
  reflexivity.
Defined.

(** X4: for any retry budget of at least one attempt and any first delay,
    [fetchWithRetry] asks its URL between once and [maxRetries] times and no
    other URL, waits once between two consecutive requests and never after
    the last one, and each wait is twice the one before, starting from
    [delay]: after [m + 1] requests the waits are [delay * 2^i] for
    [i = 0 .. m - 1] and the clock has moved by [delay * (2^m - 1)].  With a
    budget of 0 it makes no request and throws "Unexpected error in
    fetchWithRetry". *)
Theorem backoff_doubles_between_attempts
        (net : Net) (url : string) (maxRetries : nat) (delay : Z) (w : World) :
  (1 <= maxRetries)%nat ->
  (exists m,
      (m < maxRetries)%nat /\
      requests (snd (MasterDex.fetchWithRetry' net url maxRetries delay w))
      = requests w ++ repeat url (S m)
      /\ sleeps (snd (MasterDex.fetchWithRetry' net url maxRetries delay w))
         = sleeps w ++ map (Props.backoff delay) (seq 0 m)
      /\ now (snd (MasterDex.fetchWithRetry' net url maxRetries delay w))
         = now w + delay * (2 ^ Z.of_nat m - 1))
  /\ MasterDex.fetchWithRetry' net url 0 delay w
     = (Throw (newError "Unexpected error in fetchWithRetry"), w).
Proof.
  intros Hpos. split; [|reflexivity].
  unfold MasterDex.fetchWithRetry'.
  destruct (ScheduleFacts.loop_schedule net url maxRetries maxRetries 1 delay w)
    as (m & Hm & H); [lia | lia |].
  exists m. split; [exact Hm | exact H].
Qed.

Lemma backoff_doubles_between_attempts_witness :
  (exists m,
      (m < 5)%nat /\
      requests (snd (MasterDex.fetchWithRetry' Demo.netDown MasterDex.multiChainUrl 5 250 Demo.w0))
      = requests Demo.w0 ++ repeat MasterDex.multiChainUrl (S m)
      /\ sleeps (snd (MasterDex.fetchWithRetry' Demo.netDown MasterDex.multiChainUrl 5 250 Demo.w0))
         = sleeps Demo.w0 ++ map (Props.backoff 250) (seq 0 m)
      /\ now (snd (MasterDex.fetchWithRetry' Demo.netDown MasterDex.multiChainUrl 5 250 Demo.w0))
         = now Demo.w0 + 250 * (2 ^ Z.of_nat m - 1))
  /\ MasterDex.fetchWithRetry' Demo.netDown MasterDex.multiChainUrl 0 250 Demo.w0
     = (Throw (newError "Unexpected error in fetchWithRetry"), Demo.w0).
Proof.
  apply (backoff_doubles_between_attempts Demo.netDown MasterDex.multiChainUrl 5 250 Demo.w0).
  lia.
Defined.

(* ================================================================== *)
(** ** Queries answered from one endpoint *)
(* ================================================================== *)

Module EndpointFacts.

Import MasterDex Reading Props.

(** Outside the cross-chain search the fetch step is one [fetchWithRetry] on
    the query's endpoint. *)
Lemma fetchResults_single_endpoint (net : Net) (q : Query) (w : World) :
  crossChainSearch q = false ->
  fetchResults net q w
  = (response <- fetchWithRetry net (endpointOf q) ;;
     data <- json response ;;
     match data with
     | None => throw (newError "Invalid response format from MasterDex API")
     | Some results =>
         ret (results, endpointOf q, [JS.orElse (q_chain q) "multi-chain"])
     end) w.
Proof.
  unfold crossChainSearch, fetchResults, endpointOf, JS.orElse.
  destruct (JS.truthy (q_chain q)) as [chain|]; [reflexivity|].
  destruct (JS.truthy (q_token q)) as [token|]; [|reflexivity].
  destruct (JS.truthy (q_pair q)) as [p|]; [reflexivity | discriminate].
Qed.

End EndpointFacts.

(** X5: outside the cross-chain search, a 2xx response whose body has no
    array under [data] is not retried: after that single request [execute]
    returns the failure object with the error "Invalid response format from
    MasterDex API"; and when [response.json()] itself rejects, the failure
    object carries that rejection's message, again after a single request. *)
Theorem malformed_body_fails_without_retry
        (host : Host) (net : Net) (q : Query) (w : World) (r : Response) :
  Reading.crossChainSearch q = false ->
  Props.nextOutcome net (Props.endpointOf q) w 0 = Responds r ->
  ok r = true ->
  (body r = JsonNoData ->
   MasterDex.execute host net q w
   = (Normal (MasterDex.Failure
                (MasterDex.failureData host q
                   (newError "Invalid response format from MasterDex API") (now w))),
      mkWorld (now w) (requests w ++ [Props.endpointOf q]) (sleeps w)))
  /\ (forall e, body r = JsonRejects e ->
      MasterDex.execute host net q w
      = (Normal (MasterDex.Failure (MasterDex.failureData host q e (now w))),
         mkWorld (now w) (requests w ++ [Props.endpointOf q]) (sleeps w))).
Proof.
  intros Hcross Hnet Hok.
  assert (Hfetch : MasterDex.fetchWithRetry net (Props.endpointOf q) w
                   = (Normal r, mkWorld (now w) (requests w ++ [Props.endpointOf q]) (sleeps w)))
    by (apply PassFacts.pass_ok; assumption).
  split.
  - intros Hbody.
    rewrite ExecFacts.execute_run, (EndpointFacts.fetchResults_single_endpoint net q w Hcross).
    unfold bind at 1. rewrite Hfetch. unfold bind, MasterDex.json. rewrite Hbody.
    reflexivity.
  - intros e Hbody.
    rewrite ExecFacts.execute_run, (EndpointFacts.fetchResults_single_endpoint net q w Hcross).
    unfold bind at 1. rewrite Hfetch. unfold bind, MasterDex.json. rewrite Hbody.
    reflexivity.
Qed.

Lemma malformed_body_fails_without_retry_witness :
  MasterDex.execute Demo.host
    (fun _ _ => Responds {| status := 200; statusText := "OK"; body := JsonNoData |})
    (Demo.noFilter None) Demo.w0
  = (Normal (MasterDex.Failure
               {| MasterDex.e_error := "Invalid response format from MasterDex API";
                  MasterDex.e_url := MasterDex.multiChainUrl;
                  MasterDex.e_timestamp := "1714564810000";
                  MasterDex.e_suggestion :=
                    "Please try again in a few moments. If the issue persists, the MasterDex API might be temporarily unavailable." |}),
     mkWorld (now Demo.w0) [MasterDex.multiChainUrl] []).
Proof.
  apply (proj1 (malformed_body_fails_without_retry Demo.host
                  (fun _ _ => Responds {| status := 200; statusText := "OK"; body := JsonNoData |})
                  (Demo.noFilter None) Demo.w0
                  {| status := 200; statusText := "OK"; body := JsonNoData |}
                  eq_refl eq_refl eq_refl)).
  reflexivity.
Defined.

(** X6: a query without a chain that does not take the cross-chain search
    (it has no token, or it has a pair) is answered from the multi-chain
    endpoint alone: one to three requests, all of that URL, none of a
    chain's endpoint; when the call succeeds the object names that URL,
    "multi-chain" as the only chain checked and "multi-chain" as the endpoint
    used. *)
Theorem batch_query_asks_only_multi_chain_endpoint
        (host : Host) (net : Net) (q : Query) (w : World) :
  JS.truthy (q_chain q) = None ->
  Reading.crossChainSearch q = false ->
  (exists n, (1 <= n <= 3)%nat /\
             requests (snd (MasterDex.execute host net q w))
             = requests w ++ repeat MasterDex.multiChainUrl n)
  /\ (forall r w',
         MasterDex.execute host net q w = (Normal (MasterDex.Success r), w') ->
         MasterDex.r_url r = MasterDex.multiChainUrl
         /\ MasterDex.r_chainsChecked r = ["multi-chain"]
         /\ MasterDex.r_endpointUsed r = "multi-chain"
         /\ MasterDex.r_filteredChain r = "all").
Proof.
  intros Hchain Hcross.
  assert (Hend : Props.endpointOf q = MasterDex.multiChainUrl)
    by (unfold Props.endpointOf; now rewrite Hchain).
  assert (Hname : JS.orElse (q_chain q) "multi-chain" = "multi-chain")
    by (unfold JS.orElse; now rewrite Hchain).
  assert (Hall : JS.orElse (q_chain q) "all" = "all")
    by (unfold JS.orElse; now rewrite Hchain).
  rewrite ExecFacts.execute_run, (EndpointFacts.fetchResults_single_endpoint net q w Hcross).
  rewrite Hend, Hname.
  unfold bind, MasterDex.fetchWithRetry, MasterDex.fetchWithRetry'.
  destruct (RequestFacts.loop_requests net MasterDex.multiChainUrl 3 3 1 1000 w)
    as (n & Hle & Hpos & Hreq).
  destruct (MasterDex.fetchWithRetry_loop net MasterDex.multiChainUrl 3 3 1 1000 w)
    as [[resp|e] w1]; cbn [snd] in Hreq.
  - unfold MasterDex.json.
    destruct (body resp) as [e| |trades]; cbn [throw ret snd].
    + split; [exists n; split; [lia | exact Hreq]|]. intros r w' [=].
    + split; [exists n; split; [lia | exact Hreq]|]. intros r w' [=].
    + split; [exists n; split; [lia | exact Hreq]|]. intros r w'.
      unfold Reading.outcomeAt. cbn [fst].
      destruct (Reading.hasInheritedName q (MasterDex.selectResults host q trades));
        [intros [=]|]. intros [= <- _].
      unfold Reading.responseAt, MasterDex.responseData.
      cbn [MasterDex.r_url MasterDex.r_chainsChecked MasterDex.r_endpointUsed
           MasterDex.r_filteredChain].
      rewrite Hchain, Hall. repeat split; reflexivity.
  - split; [exists n; split; [lia | exact Hreq]|]. intros r w' [=].
Qed.

Lemma batch_query_asks_only_multi_chain_endpoint_witness :
  (exists n, (1 <= n <= 3)%nat /\
             requests (snd (MasterDex.execute Demo.host Demo.netAll
                              (Demo.tokenAndPair "usdc" "weth/usdc") Demo.w0))
             = requests Demo.w0 ++ repeat MasterDex.multiChainUrl n)
  /\ (forall r w',
         MasterDex.execute Demo.host Demo.netAll (Demo.tokenAndPair "usdc" "weth/usdc") Demo.w0
         = (Normal (MasterDex.Success r), w') ->
         MasterDex.r_url r = MasterDex.multiChainUrl
         /\ MasterDex.r_chainsChecked r = ["multi-chain"]
         /\ MasterDex.r_endpointUsed r = "multi-chain"
         /\ MasterDex.r_filteredChain r = "all").
Proof.
  apply (batch_query_asks_only_multi_chain_endpoint Demo.host Demo.netAll
           (Demo.tokenAndPair "usdc" "weth/usdc") Demo.w0); reflexivity.
Defined.

(** X7: [getTimeAgo] reads the clock and leaves the world as it was.  With
    [d] the whole seconds elapsed since the trade (rounded down), it shows
    seconds when [d < 60], else whole minutes from 1 to 59 when [d < 3600],
    else whole hours from 1 to 23 when [d < 86400], else whole days, at
    least 1.  A trade dated after the clock is shown in seconds with a
    negative number. *)
Theorem getTimeAgo_unit_and_range (host : Host) (timeString : string) (w : World) :
  let d := (now w - Date_getTime host timeString) / 1000 in
  snd (MasterDex.getTimeAgo host timeString w) = w
  /\ exists n unit,
       fst (MasterDex.getTimeAgo host timeString w)
       = Normal (JS.showZ n ++ unit)%string
       /\ ((unit = "s ago" /\ n = d /\ d < 60)
           \/ (unit = "m ago" /\ n = d / 60 /\ 1 <= n < 60 /\ 60 <= d < 3600)
           \/ (unit = "h ago" /\ n = d / 3600 /\ 1 <= n < 24 /\ 3600 <= d < 86400)
           \/ (unit = "d ago" /\ n = d / 86400 /\ 1 <= n /\ 86400 <= d))
       /\ (now w < Date_getTime host timeString -> unit = "s ago" /\ n < 0).
Proof.
  intros d. split; [reflexivity|].
  unfold MasterDex.getTimeAgo, bind, getNow, ret. cbn [fst].
  unfold MasterDex.timeAgoAt. fold d.
  destruct (Z.ltb_spec d 60) as [H1|H1].
  - exists d, "s ago". split; [reflexivity|]. split; [left; repeat split; lia|].
    intros Hfuture. split; [reflexivity|]. subst d.
    apply Z.div_lt_upper_bound; lia.
  - assert (Hpast : ~ now w < Date_getTime host timeString).
    { intros Hfuture. subst d.
      assert ((now w - Date_getTime host timeString) / 1000 < 0)
        by (apply Z.div_lt_upper_bound; lia).
      lia. }
    destruct (Z.ltb_spec d 3600) as [H2|H2].
    + exists (d / 60), "m ago". split; [reflexivity|]. split; [|intros; contradiction].
      right; left. repeat split; try lia.
      * apply Z.div_le_lower_bound; lia.
      * apply Z.div_lt_upper_bound; lia.
    + destruct (Z.ltb_spec d 86400) as [H3|H3].
      * exists (d / 3600), "h ago". split; [reflexivity|]. split; [|intros; contradiction].
        right; right; left. repeat split; try lia.
        -- apply Z.div_le_lower_bound; lia.
        -- apply Z.div_lt_upper_bound; lia.
      * exists (d / 86400), "d ago". split; [reflexivity|]. split; [|intros; contradiction].
        right; right; right. repeat split; try lia.
        apply Z.div_le_lower_bound; lia.
Qed.

(* ================================================================== *)
(** ** The symbols of the fetched trades *)
(* ================================================================== *)

Module SymbolFacts.

Import MasterDex Props.

Lemma existsb_eqb_In (x : string) (symbols : list string) :
  existsb (String.eqb x) symbols = true <-> In x symbols.
Proof.
  rewrite existsb_exists. split.
  - intros (y & Hin & Heq). apply String.eqb_eq in Heq. now subst.
  - intros Hin. exists x. split; [exact Hin | apply String.eqb_refl].
Qed.

Lemma setAdd_In (x y : string) (symbols : list string) :
  In x (setAdd y symbols) <-> x = y \/ In x symbols.
Proof.
  unfold setAdd. destruct (existsb (String.eqb y) symbols) eqn:He.
  - apply existsb_eqb_In in He. split; [tauto|]. intros [->|H]; assumption.
  - rewrite in_app_iff. cbn. intuition congruence.
Qed.

Lemma setAdd_NoDup (y : string) (symbols : list string) :
  NoDup symbols -> NoDup (setAdd y symbols).
Proof.
  intros Hnd. unfold setAdd. destruct (existsb (String.eqb y) symbols) eqn:He; [exact Hnd|].
  assert (Hnot : ~ In y symbols).
  { intros Hin. apply existsb_eqb_In in Hin. congruence. }
  apply NoDup_rev in Hnd. rewrite <- (rev_involutive (symbols ++ [y])).
  apply NoDup_rev. rewrite rev_app_distr. cbn. constructor; [|exact Hnd].
  rewrite <- in_rev. exact Hnot.
Qed.

Lemma truthy_Some (o : option string) (s : string) :
  JS.truthy o = Some s <-> o = Some s /\ s <> EmptyString.
Proof.
  destruct o as [[|c t]|]; cbn; split.
  - discriminate.
  - intros [[= <-] H]. congruence.
  - intros [= <-]. split; [reflexivity | discriminate].
  - intros [H _]. exact H.
  - discriminate.
  - intros [H _]. discriminate.
Qed.

Lemma addSymbols_In (x : string) (symbols : list string) (trade : MasterDexTrade) :
  In x (addSymbols symbols trade) <-> In x symbols \/ hasSymbol x trade.
Proof.
  unfold addSymbols, hasSymbol.
  destruct (JS.truthy (symbol1 trade)) as [s1|] eqn:H1;
    destruct (JS.truthy (symbol0 trade)) as [s0|] eqn:H0;
    rewrite ?setAdd_In.
  - apply truthy_Some in H1 as [E1 N1]. apply truthy_Some in H0 as [E0 N0].
    rewrite E0, E1. split.
    + intros [->|[->|H]]; [right | right | left]; intuition.
    + intros [H|[Hx [H|H]]]; [tauto | injection H as ->; tauto | injection H as ->; tauto].
  - apply truthy_Some in H1 as [E1 N1]. rewrite E1. split.
    + intros [->|H]; [right; tauto | left; exact H].
    + intros [H|[Hx [H|H]]]; [tauto | | injection H as ->; tauto].
      exfalso. assert (Ht : JS.truthy (symbol0 trade) = Some x)
        by (apply truthy_Some; tauto). congruence.
  - apply truthy_Some in H0 as [E0 N0]. rewrite E0. split.
    + intros [->|H]; [right; tauto | left; exact H].
    + intros [H|[Hx [H|H]]]; [tauto | injection H as ->; tauto |].
      exfalso. assert (Ht : JS.truthy (symbol1 trade) = Some x)
        by (apply truthy_Some; tauto). congruence.
  - split; [tauto|]. intros [H|[Hx [H|H]]]; [exact H | |]; exfalso.
    + assert (Ht : JS.truthy (symbol0 trade) = Some x) by (apply truthy_Some; tauto).
      congruence.
    + assert (Ht : JS.truthy (symbol1 trade) = Some x) by (apply truthy_Some; tauto).
      congruence.
Qed.

Lemma addSymbols_NoDup (symbols : list string) (trade : MasterDexTrade) :
  NoDup symbols -> NoDup (addSymbols symbols trade).
Proof.
  intros H. unfold addSymbols.
  destruct (JS.truthy (symbol1 trade)); destruct (JS.truthy (symbol0 trade));
    repeat apply setAdd_NoDup; exact H.
Qed.

Lemma fold_addSymbols_In (x : string) (trades : list MasterDexTrade) :
  forall symbols,
    In x (fold_left addSymbols trades symbols)
    <-> In x symbols \/ exists trade, In trade trades /\ hasSymbol x trade.
Proof.
  induction trades as [|t rest IH]; intros symbols; cbn [fold_left].
  - split; [tauto|]. intros [H|(t & [] & _)]. exact H.
  - rewrite IH, addSymbols_In. split.
    + intros [[H|H]|(t' & Hin & Hs)]; [tauto | right; exists t; cbn; tauto |].
      right. exists t'. cbn. tauto.
    + intros [H|(t' & [<-|Hin] & Hs)]; [tauto | tauto |].
      right. exists t'. tauto.
Qed.

Lemma fold_addSymbols_NoDup (trades : list MasterDexTrade) :
  forall symbols, NoDup symbols -> NoDup (fold_left addSymbols trades symbols).
Proof.
  induction trades as [|t rest IH]; intros symbols H; [exact H|].
  cbn [fold_left]. apply IH, addSymbols_NoDup, H.
Qed.

Lemma insertString_perm (x : string) (sorted : list string) :
  Permutation (insertString x sorted) (x :: sorted).
Proof.
  induction sorted as [|y rest IH]; cbn; [apply Permutation_refl|].
  destruct (x <=? y)%string; [apply Permutation_refl|].
  eapply perm_trans; [apply perm_skip, IH | apply perm_swap].
Qed.

Lemma sortStrings_perm (xs : list string) : Permutation (sortStrings xs) xs.
Proof.
  induction xs as [|x rest IH]; cbn; [apply perm_nil|].
  eapply perm_trans; [apply insertString_perm | apply perm_skip, IH].
Qed.

Lemma insertString_sorted (x : string) (sorted : list string) :
  Sorted (fun a b => (a <=? b)%string = true) sorted ->
  Sorted (fun a b => (a <=? b)%string = true) (insertString x sorted).
Proof.
  induction 1 as [|y rest Hs IH Hhd]; cbn.
  - constructor; constructor.
  - destruct (x <=? y)%string eqn:Hxy.
    + constructor; [constructor; assumption|]. constructor. exact Hxy.
    + assert (Hyx : (y <=? x)%string = true)
        by (destruct (String.leb_total x y); congruence).
      constructor; [exact IH|].
      destruct rest as [|z rest]; cbn.
      * constructor. exact Hyx.
      * destruct (x <=? z)%string; constructor; [exact Hyx|].
        inversion Hhd; assumption.
Qed.

Lemma sortStrings_sorted (xs : list string) :
  Sorted (fun a b => (a <=? b)%string = true) (sortStrings xs).
Proof.
  induction xs as [|x rest IH]; cbn; [constructor|].
  apply insertString_sorted, IH.
Qed.

End SymbolFacts.

(** X8: [getUniqueSymbols] returns exactly the non-empty symbols that occur
    as [symbol0] or [symbol1] of some trade, each of them once, in ascending
    order of their characters' codes; absent and empty symbols are left
    out. *)
Theorem getUniqueSymbols_distinct_sorted_symbols (trades : list MasterDexTrade) :
  (forall s, In s (MasterDex.getUniqueSymbols trades)
             <-> exists trade, In trade trades /\ Props.hasSymbol s trade)
  /\ NoDup (MasterDex.getUniqueSymbols trades)
  /\ Sorted (fun a b => (a <=? b)%string = true) (MasterDex.getUniqueSymbols trades).
Proof.
  unfold MasterDex.getUniqueSymbols. split; [|split].
  - intros s.
    pose proof (SymbolFacts.sortStrings_perm
                  (fold_left MasterDex.addSymbols trades [])) as Hperm.
    pose proof (SymbolFacts.fold_addSymbols_In s trades []) as Hin. cbn [In] in Hin.
    split.
    + intros H. apply (Permutation_in _ Hperm), Hin in H. tauto.
    + intros H. apply (Permutation_in _ (Permutation_sym Hperm)), Hin. tauto.
  - eapply Permutation_NoDup; [apply Permutation_sym, SymbolFacts.sortStrings_perm|].
    apply SymbolFacts.fold_addSymbols_NoDup. constructor.
  - apply SymbolFacts.sortStrings_sorted.
Qed.

(* ================================================================== *)
(** ** Grouping by chain *)
(* ================================================================== *)

Module GroupFacts.

Import MasterDex Reading Props.

Lemma groupLookup_groupPush (key k : string) (x : FormattedTrade)
      (acc : list (string * list FormattedTrade)) :
  groupLookup key (groupPush acc k x)
  = if (k =? key)%string then groupLookup key acc ++ [x] else groupLookup key acc.
Proof.
  induction acc as [|[k0 xs] rest IH]; cbn [groupPush groupLookup].
  - destruct (k =? key)%string; reflexivity.
  - destruct (String.eqb_spec k0 k) as [->|Hk0]; cbn [groupLookup].
    + destruct (k =? key)%string; reflexivity.
    + destruct (String.eqb_spec k0 key) as [->|Hkey].
      * destruct (String.eqb_spec k key) as [->|_]; [congruence | reflexivity].
      * exact IH.
Qed.

Lemma keys_groupPush (k : string) (x : FormattedTrade)
      (acc : list (string * list FormattedTrade)) :
  map fst (groupPush acc k x)
  = if existsb (String.eqb k) (map fst acc) then map fst acc else map fst acc ++ [k].
Proof.
  induction acc as [|[k0 xs] rest IH]; cbn [groupPush map fst existsb]; [reflexivity|].
  rewrite (String.eqb_sym k k0).
  destruct (k0 =? k)%string; cbn [map fst orb]; [reflexivity|].
  rewrite IH. destruct (existsb (String.eqb k) (map fst rest)); reflexivity.
Qed.

Lemma keys_groupPush_NoDup (k : string) (x : FormattedTrade)
      (acc : list (string * list FormattedTrade)) :
  NoDup (map fst acc) -> NoDup (map fst (groupPush acc k x)).
Proof.
  intros H. rewrite keys_groupPush. exact (SymbolFacts.setAdd_NoDup k (map fst acc) H).
Qed.

Lemma keys_groupPush_In (key k : string) (x : FormattedTrade)
      (acc : list (string * list FormattedTrade)) :
  In key (map fst (groupPush acc k x)) <-> key = k \/ In key (map fst acc).
Proof.
  rewrite keys_groupPush. exact (SymbolFacts.setAdd_In key k (map fst acc)).
Qed.

Section Groups.

Variable host : Host.
Variable q : Query.
Variable nowv : Z.

Lemma groupLookup_groupsAt (key : string) (results : list MasterDexTrade) :
  forall acc,
    groupLookup key (groupsAt host q nowv results acc)
    = groupLookup key acc
      ++ map (formatAt host nowv)
             (filter (fun trade => (chainNameOf q trade =? key)%string) results).
Proof.
  induction results as [|t rest IH]; intros acc; unfold groupsAt in *; cbn [fold_left filter map].
  - now rewrite app_nil_r.
  - rewrite IH, groupLookup_groupPush.
    destruct (chainNameOf q t =? key)%string; cbn [map]; [|reflexivity].
    now rewrite <- app_assoc.
Qed.

Lemma keys_groupsAt_NoDup (results : list MasterDexTrade) :
  forall acc, NoDup (map fst acc) -> NoDup (map fst (groupsAt host q nowv results acc)).
Proof.
  induction results as [|t rest IH]; intros acc H; unfold groupsAt in *; cbn [fold_left];
    [exact H|]. apply IH, keys_groupPush_NoDup, H.
Qed.

Lemma keys_groupsAt_In (key : string) (results : list MasterDexTrade) :
  forall acc,
    In key (map fst (groupsAt host q nowv results acc))
    <-> In key (map fst acc) \/ exists trade, In trade results /\ chainNameOf q trade = key.
Proof.
  induction results as [|t rest IH]; intros acc; unfold groupsAt in *; cbn [fold_left].
  - split; [tauto|]. intros [H|(t & [] & _)]. exact H.
  - rewrite IH, keys_groupPush_In. split.
    + intros [[->|H]|(t' & Hin & Hk)]; [right; exists t; cbn; tauto | tauto |].
      right. exists t'. cbn. tauto.
    + intros [H|(t' & [<-|Hin] & Hk)]; [tauto | left; left; congruence |].
      right. exists t'. tauto.
Qed.

End Groups.

End GroupFacts.

(** X9: when [execute] returns a [success: true] object, its [dataByChain]
    files every record of [data] once, under the record's chain name (its
    [chain], else the query's chain, else "unknown"): no key occurs twice,
    the keys are exactly the chain names of the records of [data], none of
    them is a name inherited from [Object.prototype], and the records under
    a key are the records of [data] with that chain name, in the order of
    [data].  When a record to return has an inherited chain name (such as
    "constructor"), no grouping is built: the [push] throws and [execute]
    returns the failure object with that [TypeError]'s message. *)
Theorem dataByChain_partitions_data
        (host : Host) (net : Net) (q : Query) (w : World) :
  (forall r w',
      MasterDex.execute host net q w = (Normal (MasterDex.Success r), w') ->
      NoDup (map fst (MasterDex.r_dataByChain r))
      /\ (forall key,
             In key (map fst (MasterDex.r_dataByChain r))
             <-> exists f, In f (MasterDex.r_data r) /\ Reading.groupNameOf q f = key)
      /\ (forall key,
             In key (map fst (MasterDex.r_dataByChain r)) ->
             MasterDex.isInherited key = false)
      /\ (forall key,
             map MasterDex.f_raw (Props.groupLookup key (MasterDex.r_dataByChain r))
             = filter (fun trade => (Reading.chainNameOf q trade =? key)%string)
                      (map MasterDex.f_raw (MasterDex.r_data r))))
  /\ (forall fetched url checked w1,
         MasterDex.fetchResults net q w = (Normal (fetched, url, checked), w1) ->
         Reading.hasInheritedName q (MasterDex.selectResults host q fetched) = true ->
         MasterDex.execute host net q w
         = (Normal (MasterDex.Failure
                      (MasterDex.failureData host q (MasterDex.pushError host) (now w1))),
            w1)).
Proof.
  split.
  - intros r w'. rewrite ExecFacts.execute_run.
    destruct (MasterDex.fetchResults net q w) as [[[[fetched url] checked]|e] w1];
      [|discriminate].
    unfold Reading.outcomeAt. cbn [fst].
    destruct (Reading.hasInheritedName q (MasterDex.selectResults host q fetched))
      eqn:Hnames; [discriminate|].
    intros [= <- <-]. unfold Reading.responseAt, MasterDex.responseData.
    cbn [MasterDex.r_dataByChain MasterDex.r_data].
    set (results := MasterDex.selectResults host q fetched) in *.
    assert (Hkeys : forall key,
               In key (map fst (Reading.groupsAt host q (now w1) results []))
               <-> exists trade, In trade results /\ Reading.chainNameOf q trade = key).
    { intros key. rewrite GroupFacts.keys_groupsAt_In. cbn. tauto. }
    split; [apply GroupFacts.keys_groupsAt_NoDup; constructor|]. split; [|split].
    + intros key. rewrite Hkeys. split.
      * intros (trade & Hin & Hname). exists (Reading.formatAt host (now w1) trade).
        split; [apply in_map, Hin | exact Hname].
      * intros (f & Hin & Hname). apply in_map_iff in Hin as (trade & <- & Hin).
        exists trade. split; [exact Hin | exact Hname].
    + intros key Hkey. apply Hkeys in Hkey as (trade & Hin & <-).
      unfold Reading.hasInheritedName in Hnames.
      destruct (MasterDex.isInherited (Reading.chainNameOf q trade)) eqn:Hinh; [|reflexivity].
      assert (Hex : existsb (fun t => MasterDex.isInherited (Reading.chainNameOf q t)) results
                    = true)
        by (apply existsb_exists; exists trade; split; assumption).
      congruence.
    + intros key. rewrite GroupFacts.groupLookup_groupsAt. cbn [Props.groupLookup app].
      now rewrite !SortFacts.raw_formatAt.
  - intros fetched url checked w1 Hfetch Hnames.
    rewrite ExecFacts.execute_run, Hfetch. unfold Reading.outcomeAt. cbn [fst].
    now rewrite Hnames.
Qed.

Lemma dataByChain_partitions_data_witness :
  (exists r w',
      MasterDex.execute Demo.host Demo.netAll (Demo.noFilter None) Demo.w0
      = (Normal (MasterDex.Success r), w')
      /\ map fst (MasterDex.r_dataByChain r) = ["base"]
      /\ map MasterDex.f_raw (Props.groupLookup "base" (MasterDex.r_dataByChain r))
         = filter (fun trade =>
                     (Reading.chainNameOf (Demo.noFilter None) trade =? "base")%string)
                  (map MasterDex.f_raw (MasterDex.r_data r)))
  /\ (exists f w',
         MasterDex.execute Demo.host
           (fun _ _ => Demo.okResponse [MoreDemo.constructorTrade])
           (Demo.noFilter None) Demo.w0
         = (Normal (MasterDex.Failure f), w')
         /\ MasterDex.e_error f = "acc[chainName].push is not a function").
Proof.
  split.
  - destruct (MasterDex.execute Demo.host Demo.netAll (Demo.noFilter None) Demo.w0)
      as [c w'] eqn:Hrun.
    assert (Hc : exists r, c = Normal (MasterDex.Success r)
                           /\ map fst (MasterDex.r_dataByChain r) = ["base"]).
    { vm_compute in Hrun. injection Hrun as <- _. eexists. split; reflexivity. }
    destruct Hc as (r & -> & Hkeys). exists r, w'. split; [reflexivity|].
    split; [exact Hkeys|].
    destruct (proj1 (dataByChain_partitions_data Demo.host Demo.netAll
                       (Demo.noFilter None) Demo.w0) r w' Hrun)
      as (_ & _ & _ & Hlookup).
    apply Hlookup.
  - do 2 eexists. split.
    + apply (proj2 (dataByChain_partitions_data Demo.host
                      (fun _ _ => Demo.okResponse [MoreDemo.constructorTrade])
                      (Demo.noFilter None) Demo.w0)
                   [MoreDemo.constructorTrade] MasterDex.multiChainUrl ["multi-chain"]
                   (mkWorld (now Demo.w0) [MasterDex.multiChainUrl] []));
        vm_compute; reflexivity.
    + reflexivity.
Defined.

(* ================================================================== *)
(** ** The filter chain as one filter *)
(* ================================================================== *)

Module ChainFacts.

Import MasterDex Reading Props.

Lemma filter_filter {A} (f g : A -> bool) (xs : list A) :
  filter g (filter f xs) = filter (fun x => f x && g x) xs.
Proof.
  induction xs as [|x rest IH]; [reflexivity|]. cbn [filter].
  destruct (f x); cbn [filter andb]; [|exact IH].
  destruct (g x); now rewrite IH.
Qed.

Lemma filter_true {A} (xs : list A) : filter (fun _ => true) xs = xs.
Proof. induction xs as [|x rest IH]; cbn; [reflexivity | now rewrite IH]. Qed.

Lemma filter_idempotent {A} (f : A -> bool) (xs : list A) :
  filter f (filter f xs) = filter f xs.
Proof.
  rewrite filter_filter. apply filter_ext. intros x. now destruct (f x).
Qed.

Lemma filter_all {A} (f : A -> bool) (xs : list A) :
  (forall x, In x xs -> f x = true) -> filter f xs = xs.
Proof.
  induction xs as [|x rest IH]; intros H; [reflexivity|]. cbn [filter].
  rewrite (H x) by (left; reflexivity). f_equal. apply IH.
  intros y Hy. apply H. right. exact Hy.
Qed.

(** The four stages in sequence keep what the conjunction keeps. *)
Lemma applyFilters_is_filter (q : Query) (results : list MasterDexTrade) :
  applyFilters q results = filter (passesFilters q) results.
Proof.
  unfold applyFilters, passesFilters.
  set (p1 := fun trade : MasterDexTrade =>
               match JS.truthy (q_token q), JS.truthy (q_chain q) with
               | Some token, Some _ => tokenMatches (JS.trim (JS.toLowerCase token)) trade
               | _, _ => true
               end).
  set (p2 := fun trade : MasterDexTrade =>
               match JS.truthy (q_pair q) with
               | Some p =>
                   pairMatch (nth_error (JS.split "/" (JS.trim (JS.toLowerCase p))) 0)
                             (nth_error (JS.split "/" (JS.trim (JS.toLowerCase p))) 1) trade
               | None => true
               end).
  set (p3 := fun trade : MasterDexTrade =>
               match JS.truthy (q_tradeType q) with
               | Some tradeType =>
                   (JS.toLowerCase (transType trade) =? JS.toLowerCase tradeType)%string
               | None => true
               end).
  set (p4 := fun trade : MasterDexTrade =>
               match truthyNum (q_minValue q) with
               | Some minValue => Qle_bool minValue (tnxvalue trade)
               | None => true
               end).
  assert (H1 : match JS.truthy (q_token q), JS.truthy (q_chain q) with
               | Some token, Some _ => tokenStage token results
               | _, _ => results
               end = filter p1 results).
  { subst p1. destruct (JS.truthy (q_token q)); [destruct (JS.truthy (q_chain q))|];
      try reflexivity; symmetry; apply filter_true. }
  rewrite H1.
  assert (H2 : forall rs, match JS.truthy (q_pair q) with
                          | Some pair_ => pairStage pair_ rs
                          | None => rs
                          end = filter p2 rs).
  { intros rs. subst p2. destruct (JS.truthy (q_pair q));
      [reflexivity | symmetry; apply filter_true]. }
  rewrite H2.
  assert (H3 : forall rs, match JS.truthy (q_tradeType q) with
                          | Some tradeType => tradeTypeStage tradeType rs
                          | None => rs
                          end = filter p3 rs).
  { intros rs. subst p3. destruct (JS.truthy (q_tradeType q));
      [reflexivity | symmetry; apply filter_true]. }
  rewrite H3.
  assert (H4 : forall rs, match truthyNum (q_minValue q) with
                          | Some minValue => minValueStage minValue rs
                          | None => rs
                          end = filter p4 rs).
  { intros rs. subst p4. destruct (truthyNum (q_minValue q));
      [reflexivity | symmetry; apply filter_true]. }
  rewrite H4, !filter_filter. apply filter_ext. intros trade.
  cbv beta. rewrite !andb_assoc. reflexivity.
Qed.

End ChainFacts.

(** X10: the four filter blocks of [execute], run one after the other, keep
    exactly the fetched records that pass every active filter at once, in
    their fetched order: a record is kept if and only if it was fetched and
    [passesFilters] holds for it.  So filtering twice is filtering once, and
    filtering a merged list is merging the filtered lists. *)
Theorem filter_chain_is_one_conjunction (q : Query) (results more : list MasterDexTrade) :
  MasterDex.applyFilters q results = filter (Props.passesFilters q) results
  /\ (forall trade,
         In trade (MasterDex.applyFilters q results)
         <-> In trade results /\ Props.passesFilters q trade = true)
  /\ MasterDex.applyFilters q (MasterDex.applyFilters q results)
     = MasterDex.applyFilters q results
  /\ MasterDex.applyFilters q (results ++ more)
     = MasterDex.applyFilters q results ++ MasterDex.applyFilters q more.
Proof.
  rewrite !ChainFacts.applyFilters_is_filter. split; [reflexivity|]. split; [|split].
  - intros trade. apply filter_In.
  - apply ChainFacts.filter_idempotent.
  - apply filter_app.
Qed.

(** X11: a token that is blank once lower-cased and trimmed (only white
    space) filters nothing: the token stage returns its input unchanged. *)
Theorem blank_token_keeps_everything (token : string) (results : list MasterDexTrade) :
  JS.trim (JS.toLowerCase token) = EmptyString ->
  MasterDex.tokenStage token results = results.
Proof.
  intros H. unfold MasterDex.tokenStage. rewrite H.
  apply ChainFacts.filter_all. intros trade _. unfold MasterDex.tokenMatches.
  destruct (MasterDex.symbolLower (symbol0 trade)); reflexivity.
Qed.

Lemma blank_token_keeps_everything_witness :
  MasterDex.tokenStage "  " Demo.trades3 = Demo.trades3.
Proof.
  apply (blank_token_keeps_everything "  " Demo.trades3). reflexivity.
Defined.

(* ================================================================== *)
(** ** What a returned object holds *)
(* ================================================================== *)

Module ObjectFacts.

Import MasterDex Reading Props.

Lemma in_firstn {A} (n : nat) (xs : list A) (x : A) : In x (firstn n xs) -> In x xs.
Proof.
  revert xs; induction n as [|n IH]; intros xs H; [destruct H|].
  destruct xs as [|y rest]; [destruct H|]. destruct H as [<-|H]; [left; reflexivity|].
  right. apply IH, H.
Qed.

Lemma applyLimit_subset (limit : Z) (results : list MasterDexTrade) (trade : MasterDexTrade) :
  In trade (applyLimit limit results) -> In trade results.
Proof.
  unfold applyLimit, JS.slice0.
  destruct (negb (limit =? 0) && (0 <? limit)); [|trivial].
  destruct (0 <=? limit); apply in_firstn.
Qed.

(** A returned record was fetched and kept by the filters. *)
Lemma selectResults_subset (host : Host) (q : Query) (fetched : list MasterDexTrade)
      (trade : MasterDexTrade) :
  In trade (selectResults host q fetched) -> In trade (applyFilters q fetched).
Proof.
  unfold selectResults. intros H. apply applyLimit_subset in H.
  exact (Permutation_in _ (SortFacts.sortByTimeDesc_perm host _) H).
Qed.

Lemma groupPush_total (acc : list (string * list FormattedTrade)) (k : string)
      (x : FormattedTrade) :
  List.length (List.concat (map snd (groupPush acc k x)))
  = S (List.length (List.concat (map snd acc))).
Proof.
  induction acc as [|[k0 xs] rest IH]; cbn [groupPush]; [reflexivity|].
  destruct (k0 =? k)%string; cbn [map snd List.concat].
  - rewrite !length_app. cbn. lia.
  - rewrite !length_app, IH. lia.
Qed.

Lemma groupsAt_total (host : Host) (q : Query) (nowv : Z) (results : list MasterDexTrade) :
  forall acc,
    List.length (List.concat (map snd (groupsAt host q nowv results acc)))
    = (List.length (List.concat (map snd acc)) + List.length results)%nat.
Proof.
  induction results as [|t rest IH]; intros acc; unfold groupsAt in *; cbn [fold_left].
  - cbn. lia.
  - rewrite IH, groupPush_total. cbn. lia.
Qed.

(** The object of a successful run is [responseAt] of what was fetched. *)
Lemma success_is_responseAt (host : Host) (net : Net) (q : Query) (w w' : World)
      (r : ResponseData) :
  execute host net q w = (Normal (Success r), w') ->
  exists fetched url checked,
    fetchResults net q w = (Normal (fetched, url, checked), w')
    /\ r = responseAt host q (fetched, url, checked) (now w').
Proof.
  rewrite ExecFacts.execute_run.
  destruct (fetchResults net q w) as [[[[fetched url] checked]|e] w1]; [|discriminate].
  unfold outcomeAt. cbn [fst].
  destruct (hasInheritedName q (selectResults host q fetched)); [discriminate|].
  intros [= <- <-]. exists fetched, url, checked. split; reflexivity.
Qed.

End ObjectFacts.

(** X12: in every object [execute] returns with [success: true], [count] and
    [totalFetched] both equal the number of records in [data], the lists of
    [dataByChain] hold as many records in all, [availableSymbols] has at
    most 20 entries, every record of [data] passes every active filter of
    the query, and the message is "Found N trades matching your criteria"
    when there are records and otherwise the "No trades found" text followed
    by the first ten available symbols. *)
Theorem success_object_is_consistent
        (host : Host) (net : Net) (q : Query) (w w' : World) (r : MasterDex.ResponseData) :
  MasterDex.execute host net q w = (Normal (MasterDex.Success r), w') ->
  MasterDex.r_count r = List.length (MasterDex.r_data r)
  /\ MasterDex.r_totalFetched r = MasterDex.r_count r
  /\ List.length (List.concat (map snd (MasterDex.r_dataByChain r))) = MasterDex.r_count r
  /\ (List.length (MasterDex.r_availableSymbols r) <= 20)%nat
  /\ (forall f, In f (MasterDex.r_data r) ->
                Props.passesFilters q (MasterDex.f_raw f) = true)
  /\ MasterDex.r_message r
     = (if (0 <? MasterDex.r_count r)%nat
        then "Found " ++ JS.showNat (MasterDex.r_count r) ++ " trades matching your criteria"
        else "No trades found matching your criteria. Available symbols: "
             ++ JS.join ", " (firstn 10 (MasterDex.r_availableSymbols r)))%string.
Proof.
  intros Hrun.
  destruct (ObjectFacts.success_is_responseAt host net q w w' r Hrun)
    as (fetched & url & checked & _ & ->).
  unfold Reading.responseAt, MasterDex.responseData.
  cbn [MasterDex.r_count MasterDex.r_data MasterDex.r_totalFetched
       MasterDex.r_dataByChain MasterDex.r_availableSymbols MasterDex.r_message].
  split; [now rewrite length_map|]. split; [reflexivity|].
  split; [now rewrite ObjectFacts.groupsAt_total|].
  split; [unfold JS.slice0; cbn [Z.leb Z.compare Z.to_nat]; apply firstn_le_length|].
  split.
  - intros f Hf. apply in_map_iff in Hf as (trade & <- & Hin). cbn [MasterDex.f_raw Reading.formatAt MasterDex.formatted].
    apply ObjectFacts.selectResults_subset in Hin.
    rewrite ChainFacts.applyFilters_is_filter in Hin. apply filter_In in Hin. tauto.
  - destruct (0 <? _)%nat; [reflexivity|].
    unfold JS.slice0. cbn [Z.leb Z.compare Z.to_nat].
    rewrite firstn_firstn. reflexivity.
Qed.

Lemma success_object_is_consistent_witness :
  exists r w',
    MasterDex.execute Demo.host Demo.netAll (Demo.tokenOnChain "base" "weth") Demo.w0
    = (Normal (MasterDex.Success r), w')
    /\ MasterDex.r_count r = List.length (MasterDex.r_data r)
    /\ List.length (List.concat (map snd (MasterDex.r_dataByChain r))) = MasterDex.r_count r
    /\ (forall f, In f (MasterDex.r_data r) ->
                  Props.passesFilters (Demo.tokenOnChain "base" "weth") (MasterDex.f_raw f)
                  = true).
Proof.
  destruct (MasterDex.execute Demo.host Demo.netAll (Demo.tokenOnChain "base" "weth") Demo.w0)
    as [c w'] eqn:Hrun.
  assert (Hc : exists r, c = Normal (MasterDex.Success r)).
  { vm_compute in Hrun. injection Hrun as <- _. eexists. reflexivity. }
  destruct Hc as [r ->]. exists r, w'. split; [reflexivity|].
  destruct (success_object_is_consistent Demo.host Demo.netAll
              (Demo.tokenOnChain "base" "weth") Demo.w0 w' r Hrun)
    as (H1 & _ & H3 & _ & H5 & _).
  split; [exact H1|]. split; [exact H3 | exact H5].
Defined.

(* ================================================================== *)
(** ** The cross-chain search: what it asks and what it collects *)
(* ================================================================== *)

Module FanoutFacts.

Import MasterDex Reading Props.

Section Net.

Variable net : Net.

(** One pass: the world it leaves is the one its [fetchWithRetry] leaves. *)
Lemma searchChain_world (token : string) (acc : list MasterDexTrade * list string)
      (chain : string) (w : World) :
  snd (searchChain net token acc chain w) = snd (fetchWithRetry net (chainUrl chain) w).
Proof.
  destruct acc as [allResults chainsChecked]. unfold searchChain, tryCatch.
  unfold bind at 1.
  destruct (fetchWithRetry net (chainUrl chain) w) as [[r|e] w1]; [|reflexivity].
  unfold bind, json. destruct (body r); reflexivity.
Qed.

(** One pass: what it adds matches the token. *)
Lemma searchChain_adds_matches (token : string) (acc : list MasterDexTrade * list string)
      (chain : string) (w : World) (trade : MasterDexTrade) :
  In trade (fst (match fst (searchChain net token acc chain w) with
                 | Normal acc' => acc'
                 | Throw _ => acc
                 end)) ->
  In trade (fst acc) \/ tokenMatches (JS.trim (JS.toLowerCase token)) trade = true.
Proof.
  destruct acc as [allResults chainsChecked]. unfold searchChain, tryCatch.
  unfold bind at 1.
  destruct (fetchWithRetry net (chainUrl chain) w) as [[r|e] w1]; [|cbn; tauto].
  unfold bind, json. destruct (body r) as [e| |trades]; cbn [throw ret fst]; try tauto.
  destruct (0 <? _)%nat; [|tauto].
  rewrite in_app_iff, filter_In. tauto.
Qed.

Lemma forEachChain_adds_matches (token : string) (chains : list string)
      (trade : MasterDexTrade) :
  forall acc w acc' w',
    forEachChain net token chains acc w = (Normal acc', w') ->
    In trade (fst acc') ->
    In trade (fst acc) \/ tokenMatches (JS.trim (JS.toLowerCase token)) trade = true.
Proof.
  induction chains as [|chain rest IH]; intros acc w acc' w'; cbn [forEachChain].
  - intros [= <- _]. tauto.
  - unfold bind. pose proof (searchChain_adds_matches token acc chain w trade) as Hpass.
    destruct (searchChain net token acc chain w) as [[acc1|e] w1]; [|discriminate].
    cbn [fst] in Hpass. intros Hrun Hin.
    destruct (IH _ _ _ _ Hrun Hin) as [H|H]; [apply Hpass, H | right; exact H].
Qed.

(** The requests of the loop over the chains: each chain's endpoint in turn,
    one to three times. *)
Lemma forEachChain_requests (token : string) (chains : list string) :
  forall acc w,
  exists ns,
    List.length ns = List.length chains
    /\ Forall (fun n => 1 <= n <= 3)%nat ns
    /\ requests (snd (forEachChain net token chains acc w))
       = requests w
         ++ List.concat (map (fun p => repeat (chainUrl (fst p)) (snd p)) (combine chains ns)).
Proof.
  induction chains as [|chain rest IH]; intros acc w; cbn [forEachChain].
  - exists []. cbn. rewrite app_nil_r. repeat split. constructor.
  - unfold bind.
    pose proof (searchChain_world token acc chain w) as Hw.
    destruct (SearchFacts.searchChain_total net token acc chain w) as (all1 & w1 & Hrun).
    rewrite Hrun in Hw |- *. cbn [snd] in Hw.
    destruct (RequestFacts.loop_requests net (chainUrl chain) 3 3 1 1000 w)
      as (n & Hle & Hpos & Hreq).
    fold (fetchWithRetry' net (chainUrl chain) 3 1000) in Hreq.
    fold (fetchWithRetry net (chainUrl chain)) in Hreq. rewrite <- Hw in Hreq.
    destruct (IH (all1, snd acc ++ [chain]) w1) as (ns & Hlen & Hall & Hrest).
    exists (n :: ns). split; [cbn; lia|]. split; [constructor; [lia | exact Hall]|].
    rewrite Hrest, Hreq. cbn [combine map List.concat fst snd].
    now rewrite <- app_assoc.
Qed.

End Net.

End FanoutFacts.

(** X13: in the cross-chain search (a token, no chain, no pair) the token
    filter has already been applied per chain: every record of a returned
    object has a symbol that, in lower case, contains the trimmed lower-case
    token, although [execute] itself skips its token stage on this path. *)
Theorem cross_chain_records_contain_token
        (host : Host) (net : Net) (q : Query) (token : string)
        (w w' : World) (r : MasterDex.ResponseData) :
  Reading.crossChainSearch q = true ->
  JS.truthy (q_token q) = Some token ->
  MasterDex.execute host net q w = (Normal (MasterDex.Success r), w') ->
  forall f, In f (MasterDex.r_data r) ->
            MasterDex.tokenMatches (JS.trim (JS.toLowerCase token)) (MasterDex.f_raw f) = true.
Proof.
  intros Hcross Htoken Hrun f Hf.
  destruct (ObjectFacts.success_is_responseAt host net q w w' r Hrun)
    as (fetched & url & checked & Hfetch & ->).
  unfold Reading.responseAt, MasterDex.responseData in Hf. cbn [MasterDex.r_data] in Hf.
  apply in_map_iff in Hf as (trade & <- & Hin).
  cbn [MasterDex.f_raw Reading.formatAt MasterDex.formatted].
  apply ObjectFacts.selectResults_subset in Hin.
  rewrite ChainFacts.applyFilters_is_filter in Hin. apply filter_In in Hin as [Hin _].
  revert Hfetch. unfold MasterDex.fetchResults, Reading.crossChainSearch in *.
  destruct (JS.truthy (q_chain q)); [discriminate|]. rewrite Htoken in *.
  destruct (JS.truthy (q_pair q)); [discriminate|].
  unfold bind, MasterDex.searchTokenAcrossChains.
  destruct (MasterDex.forEachChain net token supportedChains ([], []) w)
    as [[acc'|e] w1] eqn:Hloop; [|discriminate].
  intros [= <- _ _ _].
  destruct (FanoutFacts.forEachChain_adds_matches net token supportedChains trade
              _ _ _ _ Hloop Hin) as [[]|H].
  exact H.
Qed.

Lemma cross_chain_records_contain_token_witness :
  exists r w',
    MasterDex.execute Demo.host Demo.netEthDown (Demo.tokenOnly "Usdc ") Demo.w0
    = (Normal (MasterDex.Success r), w')
    /\ forall f, In f (MasterDex.r_data r) ->
                 MasterDex.tokenMatches "usdc" (MasterDex.f_raw f) = true.
Proof.
  destruct (MasterDex.execute Demo.host Demo.netEthDown (Demo.tokenOnly "Usdc ") Demo.w0)
    as [c w'] eqn:Hrun.
  assert (Hc : exists r, c = Normal (MasterDex.Success r)).
  { vm_compute in Hrun. injection Hrun as <- _. eexists. reflexivity. }
  destruct Hc as [r ->]. exists r, w'. split; [reflexivity|].
  exact (cross_chain_records_contain_token Demo.host Demo.netEthDown
           (Demo.tokenOnly "Usdc ") "Usdc " Demo.w0 w' r eq_refl eq_refl Hrun).
Defined.

(** X14: in the cross-chain search [execute] asks the endpoint of every
    supported chain, in the order of [supportedChains], each of them at
    least once and at most three times, whatever the earlier chains
    answered, and asks no other URL. *)
Theorem cross_chain_search_asks_every_chain
        (host : Host) (net : Net) (q : Query) (w : World) :
  Reading.crossChainSearch q = true ->
  exists ns,
    List.length ns = 7%nat
    /\ Forall (fun n => 1 <= n <= 3)%nat ns
    /\ requests (snd (MasterDex.execute host net q w))
       = requests w
         ++ List.concat (map (fun p => repeat (MasterDex.chainUrl (fst p)) (snd p))
                             (combine supportedChains ns)).
Proof.
  intros Hcross. rewrite ExecFacts.execute_run.
  assert (Hfetch : exists token,
             MasterDex.fetchResults net q w
             = (searchResult <- MasterDex.searchTokenAcrossChains net token (MasterDex.limitOf q) ;;
                ret (fst searchResult, "multi-chain-search", snd searchResult)) w).
  { unfold MasterDex.fetchResults, Reading.crossChainSearch in *.
    destruct (JS.truthy (q_chain q)); [discriminate|].
    destruct (JS.truthy (q_token q)) as [token|]; [|discriminate].
    destruct (JS.truthy (q_pair q)); [discriminate|]. exists token. reflexivity. }
  destruct Hfetch as [token ->]. unfold bind, MasterDex.searchTokenAcrossChains.
  destruct (FanoutFacts.forEachChain_requests net token supportedChains ([], []) w)
    as (ns & Hlen & Hall & Hreq).
  exists ns. split; [exact Hlen|]. split; [exact Hall|].
  destruct (MasterDex.forEachChain net token supportedChains ([], []) w) as [[acc|e] w1];
    cbn [snd ret] in *; exact Hreq.
Qed.

Lemma cross_chain_search_asks_every_chain_witness :
  exists ns,
    List.length ns = 7%nat
    /\ Forall (fun n => 1 <= n <= 3)%nat ns
    /\ requests (snd (MasterDex.execute Demo.host Demo.netEthDown (Demo.tokenOnly "weth") Demo.w0))
       = requests Demo.w0
         ++ List.concat (map (fun p => repeat (MasterDex.chainUrl (fst p)) (snd p))
                             (combine supportedChains ns)).
Proof.
  apply (cross_chain_search_asks_every_chain Demo.host Demo.netEthDown
           (Demo.tokenOnly "weth") Demo.w0).
  reflexivity.
Defined.

(* ================================================================== *)
(** ** Selecting again, and fields that count as absent *)
(* ================================================================== *)

Module AgainFacts.

Import MasterDex Reading Props.

Section Host.

Variable host : Host.

Lemma sorted_firstn (n : nat) (sorted : list MasterDexTrade) :
  StronglySorted (notOlder host) sorted ->
  StronglySorted (notOlder host) (firstn n sorted).
Proof.
  intros Hs. revert n. induction Hs as [|x rest Hs IH Hall]; intros n.
  - rewrite firstn_nil. constructor.
  - destruct n as [|n]; [constructor|]. cbn [firstn]. constructor; [apply IH|].
    rewrite Forall_forall in *. intros y Hy. apply Hall.
    eapply ObjectFacts.in_firstn, Hy.
Qed.

(** Sorting a list that is already latest-first changes nothing. *)
Lemma sort_sorted (sorted : list MasterDexTrade) :
  StronglySorted (notOlder host) sorted -> sortByTimeDesc host sorted = sorted.
Proof.
  induction 1 as [|x rest Hs IH Hall]; [reflexivity|].
  cbn [sortByTimeDesc fold_right]. unfold sortByTimeDesc in IH. rewrite IH.
  destruct rest as [|y rest]; [reflexivity|]. cbn [insertByTime].
  inversion Hall as [|? ? Hxy _]; subst. unfold notOlder, instant in Hxy.
  destruct (Z.leb_spec (Date_getTime host (time y)) (Date_getTime host (time x)));
    [reflexivity | lia].
Qed.

Lemma applyLimit_applyLimit (limit : Z) (results : list MasterDexTrade) :
  applyLimit limit (applyLimit limit results) = applyLimit limit results.
Proof.
  destruct (Z.ltb_spec 0 limit) as [Hpos|Hnot].
  - rewrite !SortFacts.applyLimit_positive by exact Hpos.
    rewrite firstn_firstn, Nat.min_id. reflexivity.
  - rewrite !SortFacts.applyLimit_not_positive by lia. reflexivity.
Qed.

Lemma applyLimit_sorted (limit : Z) (sorted : list MasterDexTrade) :
  StronglySorted (notOlder host) sorted ->
  StronglySorted (notOlder host) (applyLimit limit sorted).
Proof.
  intros Hs. destruct (Z.ltb_spec 0 limit) as [Hpos|Hnot].
  - rewrite SortFacts.applyLimit_positive by exact Hpos. apply sorted_firstn, Hs.
  - rewrite SortFacts.applyLimit_not_positive by lia. exact Hs.
Qed.

End Host.

Lemma truthy_truthy (o : option string) : JS.truthy (JS.truthy o) = JS.truthy o.
Proof. destruct o as [[|c s]|]; reflexivity. Qed.

Lemma truthyNum_truthyNum (o : option Q) : truthyNum (truthyNum o) = truthyNum o.
Proof.
  destruct o as [v|]; [|reflexivity]. cbn.
  destruct (Qeq_bool v 0) eqn:H; cbn; [reflexivity | now rewrite H].
Qed.

End AgainFacts.

(** X15: the selection of [execute] (filters, sort by time, cut to the
    limit) is idempotent: applied to the records it returned, it returns the
    same records in the same order. *)
Theorem selection_is_idempotent (host : Host) (q : Query) (fetched : list MasterDexTrade) :
  MasterDex.selectResults host q (MasterDex.selectResults host q fetched)
  = MasterDex.selectResults host q fetched.
Proof.
  set (returned := MasterDex.selectResults host q fetched).
  assert (Hkeep : MasterDex.applyFilters q returned = returned).
  { rewrite ChainFacts.applyFilters_is_filter. apply ChainFacts.filter_all.
    intros trade Hin. apply ObjectFacts.selectResults_subset in Hin.
    rewrite ChainFacts.applyFilters_is_filter in Hin. apply filter_In in Hin. tauto. }
  assert (Hsorted : StronglySorted (Reading.notOlder host) returned)
    by (apply AgainFacts.applyLimit_sorted, SortFacts.sortByTimeDesc_sorted).
  unfold MasterDex.selectResults at 1. rewrite Hkeep.
  rewrite (AgainFacts.sort_sorted host returned Hsorted).
  apply AgainFacts.applyLimit_applyLimit.
Qed.

(** X16: a field given as the empty string, and a [minValue] of zero, count
    as absent: [execute] returns the same object, after the same requests,
    as for the query with those fields left out.  (The [limit] is not such
    a field: only a missing limit becomes 20.) *)
Theorem falsy_fields_count_as_absent (host : Host) (net : Net) (q : Query) (w : World) :
  MasterDex.execute host net (Props.dropFalsy q) w = MasterDex.execute host net q w.
Proof.
  unfold MasterDex.execute, MasterDex.executeTry, MasterDex.fetchResults,
    MasterDex.selectResults, MasterDex.applyFilters, MasterDex.responseData,
    MasterDex.failureData, MasterDex.groupByChain, MasterDex.limitOf, JS.orElse,
    Props.dropFalsy.
  cbn [q_chain q_token q_pair q_minValue q_limit q_tradeType].
  rewrite !AgainFacts.truthy_truthy, !AgainFacts.truthyNum_truthyNum.
  reflexivity.
Qed.

(* ================================================================== *)
(** ** The single-chain tool *)
(* ================================================================== *)

Module BaseFacts.

Import Props.

Lemma base_strictEq_none (x : option string) :
  BaseTool.strictEq x None = match x with None => true | Some _ => false end.
Proof. destruct x; reflexivity. Qed.

(** Without a [/] the second part of the pair is [undefined], which equals
    an absent symbol. *)
Lemma base_pairStage_lone (pair : string) (results : list MasterDexTrade) :
  JS.hasChar "/" pair = false ->
  BaseTool.pairStage pair results
  = filter (isLoneSymbol (JS.toLowerCase pair)) results.
Proof.
  intros H. unfold BaseTool.pairStage.
  rewrite StringFacts.split_without_sep
    by (rewrite StringFacts.hasChar_toLowerCase; exact H).
  cbn [nth_error]. apply filter_ext. intros trade. unfold isLoneSymbol.
  destruct (symbol0 trade), (symbol1 trade); cbn;
    rewrite ?andb_false_r, ?andb_true_r, ?orb_false_r; reflexivity.
Qed.

Lemma base_select_subset (host : Host) (q : BaseTool.BaseQuery)
      (fetched : list MasterDexTrade) (trade : MasterDexTrade) :
  In trade (BaseTool.select host q fetched) ->
  In trade fetched
  /\ (forall token, JS.truthy (BaseTool.b_token q) = Some token ->
                    BaseTool.tokenMatches (JS.toLowerCase token) trade = true).
Proof.
  unfold BaseTool.select. intros H.
  assert (Hsorted : In trade
            (MasterDex.sortByTimeDesc host
               match MasterDex.truthyNum (BaseTool.b_minValue q) with
               | Some minValue =>
                   MasterDex.minValueStage minValue
                     match JS.truthy (BaseTool.b_pair q) with
                     | Some pair_ =>
                         BaseTool.pairStage pair_
                           match JS.truthy (BaseTool.b_token q) with
                           | Some token => BaseTool.tokenStage token fetched
                           | None => fetched
                           end
                     | None =>
                         match JS.truthy (BaseTool.b_token q) with
                         | Some token => BaseTool.tokenStage token fetched
                         | None => fetched
                         end
                     end
               | None =>
                   match JS.truthy (BaseTool.b_pair q) with
                   | Some pair_ =>
                       BaseTool.pairStage pair_
                         match JS.truthy (BaseTool.b_token q) with
                         | Some token => BaseTool.tokenStage token fetched
                         | None => fetched
                         end
                   | None =>
                       match JS.truthy (BaseTool.b_token q) with
                       | Some token => BaseTool.tokenStage token fetched
                       | None => fetched
                       end
                   end
               end)).
  { destruct (BaseTool.b_limit q); [apply ObjectFacts.applyLimit_subset in H|]; exact H. }
  apply (Permutation_in _ (SortFacts.sortByTimeDesc_perm host _)) in Hsorted.
  assert (Hpaired : In trade match JS.truthy (BaseTool.b_token q) with
                             | Some token => BaseTool.tokenStage token fetched
                             | None => fetched
                             end).
  { destruct (MasterDex.truthyNum (BaseTool.b_minValue q));
      [apply filter_In in Hsorted as [Hsorted _]|];
      (destruct (JS.truthy (BaseTool.b_pair q));
       [apply filter_In in Hsorted as [Hsorted _]|]); exact Hsorted. }
  destruct (JS.truthy (BaseTool.b_token q)) as [token|].
  - apply filter_In in Hpaired as [Hin Hm]. split; [exact Hin|].
    intros token' [= <-]. exact Hm.
  - split; [exact Hpaired | discriminate].
Qed.

End BaseFacts.

(** X17: the single-chain tool makes exactly one request, of the Base
    endpoint, waits for nothing and throws nothing, whatever the network
    does: a rejected [fetch] is reported at once with the rejection's
    message (no retry, even for a connection error), and a response that is
    not [ok] as "MasterDex API error: <status> <statusText>". *)
Theorem base_tool_asks_once_and_never_throws
        (host : Host) (net : Net) (bodyMessage : Response -> option string)
        (typeErrorMessage : Response -> BaseTool.BaseQuery -> string)
        (q : BaseTool.BaseQuery) (w : World) :
  exists env,
    BaseTool.execute host net bodyMessage typeErrorMessage q w
    = (Normal env, mkWorld (now w) (requests w ++ [BaseTool.baseUrl]) (sleeps w))
    /\ (forall e, Props.nextOutcome net BaseTool.baseUrl w 0 = Rejects e ->
                  env = BaseTool.BaseFailure (messageOr "Unknown error" e))
    /\ (forall r, Props.nextOutcome net BaseTool.baseUrl w 0 = Responds r ->
                  ok r = false ->
                  env = BaseTool.BaseFailure
                          ("MasterDex API error: " ++ JS.showZ (status r) ++ " "
                             ++ statusText r)%string).
Proof.
  unfold BaseTool.execute, tryCatch, bind at 1, MasterDex.fetch, Props.nextOutcome.
  rewrite Nat.add_0_r.
  destruct (net BaseTool.baseUrl _) as [r|e].
  - destruct (ok r) eqn:Hok; cbn [negb].
    + unfold bind, MasterDex.json.
      destruct (body r) as [e| |trades]; cbn [throw ret];
        (eexists; split; [reflexivity|]; split; [discriminate|];
         intros r' [= <-] Hfalse; congruence).
    + cbn [throw ret]. eexists. split; [reflexivity|]. split; [discriminate|].
      intros r' [= <-] _. reflexivity.
  - cbn [ret]. eexists. split; [reflexivity|]. split; [|discriminate].
    intros e' [= <-]. reflexivity.
Qed.

(** X18: when the single-chain tool succeeds, [count] is the number of
    records in [data], every record was in the fetched body, and, for a
    query with a token, every record has a non-empty symbol that contains
    the token, both in lower case: this tool applies its token filter
    whenever a token is given. *)
Theorem base_tool_filters_by_token
        (host : Host) (net : Net) (bodyMessage : Response -> option string)
        (typeErrorMessage : Response -> BaseTool.BaseQuery -> string)
        (q : BaseTool.BaseQuery) (w w' : World) (r : BaseTool.BaseData) :
  BaseTool.execute host net bodyMessage typeErrorMessage q w
  = (Normal (BaseTool.BaseSuccess r), w') ->
  BaseTool.b_count r = List.length (BaseTool.b_data r)
  /\ BaseTool.b_url r = BaseTool.baseUrl
  /\ (exists resp fetched,
         Props.nextOutcome net BaseTool.baseUrl w 0 = Responds resp
         /\ body resp = JsonData fetched
         /\ BaseTool.b_data r = BaseTool.select host q fetched
         /\ forall trade, In trade (BaseTool.b_data r) ->
              In trade fetched
              /\ (forall token, JS.truthy (BaseTool.b_token q) = Some token ->
                                BaseTool.tokenMatches (JS.toLowerCase token) trade = true)).
Proof.
  unfold BaseTool.execute, tryCatch, bind at 1, MasterDex.fetch, Props.nextOutcome.
  rewrite Nat.add_0_r.
  destruct (net BaseTool.baseUrl _) as [resp|e]; [|discriminate].
  destruct (ok resp); cbn [negb]; [|discriminate].
  unfold bind, MasterDex.json.
  destruct (body resp) as [e| |fetched] eqn:Hbody; cbn [throw ret]; try discriminate.
  intros [= <- _]. cbn [BaseTool.b_count BaseTool.b_data BaseTool.b_url].
  split; [reflexivity|]. split; [reflexivity|].
  exists resp, fetched. split; [reflexivity|]. split; [exact Hbody|].
  split; [reflexivity|]. intros trade. apply BaseFacts.base_select_subset.
Qed.

Lemma base_tool_filters_by_token_witness :
  exists r w',
    BaseTool.execute Demo.host (fun _ _ => Demo.okResponse MoreDemo.mixedTrades)
      MoreDemo.noBodyMessage MoreDemo.someTypeError (MoreDemo.baseToken "weth") Demo.w0
    = (Normal (BaseTool.BaseSuccess r), w')
    /\ BaseTool.b_count r = 2%nat
    /\ BaseTool.b_count r = List.length (BaseTool.b_data r).
Proof.
  destruct (BaseTool.execute Demo.host (fun _ _ => Demo.okResponse MoreDemo.mixedTrades)
              MoreDemo.noBodyMessage MoreDemo.someTypeError (MoreDemo.baseToken "weth") Demo.w0)
    as [c w'] eqn:Hrun.
  assert (Hc : exists r, c = Normal (BaseTool.BaseSuccess r) /\ BaseTool.b_count r = 2%nat).
  { vm_compute in Hrun. injection Hrun as <- _. eexists. split; reflexivity. }
  destruct Hc as (r & -> & Hcount). exists r, w'. split; [reflexivity|].
  split; [exact Hcount|].
  exact (proj1 (base_tool_filters_by_token _ _ _ _ _ _ _ _ Hrun)).
Defined.

(** X19: in the single-chain tool a pair filter without [/] is not empty as
    in the multi-chain tool: its second part is [undefined], which equals an
    absent symbol, so it keeps exactly the records that have one symbol
    only, equal to the filter in lower case; the multi-chain tool keeps
    none of them. *)
Theorem base_pair_without_slash_keeps_lone_symbols
        (pair : string) (results : list MasterDexTrade) :
  JS.hasChar "/" pair = false ->
  BaseTool.pairStage pair results
  = filter (Props.isLoneSymbol (JS.toLowerCase pair)) results
  /\ MasterDex.pairStage pair results = [].
Proof.
  intros H. split.
  - apply BaseFacts.base_pairStage_lone, H.
  - apply PairFacts.pairStage_without_slash, H.
Qed.

Lemma base_pair_without_slash_keeps_lone_symbols_witness :
  BaseTool.pairStage "Weth" MoreDemo.mixedTrades = [MoreDemo.loneTrade "WETH"]
  /\ MasterDex.pairStage "Weth" MoreDemo.mixedTrades = [].
Proof.
  destruct (base_pair_without_slash_keeps_lone_symbols "Weth" MoreDemo.mixedTrades eq_refl)
    as [Hbase Hmain].
  split; [rewrite Hbase; reflexivity | exact Hmain].
Defined.

(** X20: the pair filter of the multi-chain tool reads the first two parts
    of its argument only: for [x/y/z] it keeps the records whose symbols are
    [x] and [y] in either order, whatever follows the second [/]. *)
Theorem pair_filter_ignores_third_part
        (x y z : string) (results : list MasterDexTrade) :
  JS.hasChar "/" x = false ->
  JS.hasChar "/" y = false ->
  JS.trim (x ++ "/" ++ y ++ "/" ++ z) = (x ++ "/" ++ y ++ "/" ++ z)%string ->
  MasterDex.pairStage (x ++ "/" ++ y ++ "/" ++ z) results
  = filter (Reading.isPair (JS.toLowerCase x) (JS.toLowerCase y)) results.
Proof.
  intros Hx Hy Htrim. unfold MasterDex.pairStage.
  rewrite StringFacts.trim_toLowerCase, Htrim, StringFacts.toLowerCase_app.
  cbn [append JS.toLowerCase]. rewrite StringFacts.toLowerCase_app.
  cbn [append JS.toLowerCase].
  change (JS.lower_ascii "/") with "/"%char.
  rewrite StringFacts.split_at_sep by (rewrite StringFacts.hasChar_toLowerCase; exact Hx).
  rewrite StringFacts.split_at_sep by (rewrite StringFacts.hasChar_toLowerCase; exact Hy).
  cbn [nth_error]. reflexivity.
Qed.

Lemma pair_filter_ignores_third_part_witness :
  MasterDex.pairStage "usdc/weth/anything" Demo.trades3
  = [Demo.trade "WETH" "USDC" Demo.T1 5000].
Proof.
  exact (eq_trans
           (pair_filter_ignores_third_part "usdc" "weth" "anything" Demo.trades3
              eq_refl eq_refl eq_refl)
           eq_refl).
Defined.
